(** * Pothole report system: the request handlers of [app.py]

    A shallow embedding of the Flask application in
    [Pothole-report-system/app.py]: the three SQLAlchemy models, the
    unit of work behind [db.session], the two decorators and the route
    handlers, followed by the properties of the specification that are
    about them.

    Conventions.
    - A table is the list of its rows in insertion order; an ORM object is
      the position of its row.
    - A handler is a computation over the unit of work that returns a
      response or raises a Python exception.
    - What the handlers obtain from outside the repository (the clock,
      [uuid.uuid4], werkzeug, [url_for], the S3 client, the DBMS's verdict
      on a statement, the text it makes of a number) is read from an
      [Env] record.
    - Of the DBMS, the constraints that the models declare are built in:
      NOT NULL, [unique=True] and the members of an Enum (in strict SQL
      mode).  Everything else it may object to in an INSERT, an UPDATE or
      a COMMIT comes through [dbms_rejects].  A SELECT is taken to be
      answered, also the one that reloads an object after a commit: the
      properties describe the runs in which the server answers its
      queries, or are stated so that they hold either way.  Python
      integers are unbounded.
    - One request runs at a time. *)

From Stdlib Require Import ZArith String Ascii List Bool Lia.
From stdpp Require Import base option list strings.
Import ListNotations.

Open Scope string_scope.
Open Scope list_scope.
Open Scope Z_scope.

(* ===================================================================== *)
(** * Python values used by the handlers                                  *)
(* ===================================================================== *)

(** ** Characters *)

Definition is_digit (c : ascii) : bool :=
  let n := nat_of_ascii c in ((48 <=? n) && (n <=? 57))%nat.

Definition digit_val (c : ascii) : N := N.of_nat (nat_of_ascii c - 48).

(** The blanks that [float] skips at both ends of its argument
    ([Py_ISSPACE]): tab to carriage return, and the space.  The four
    separators 0x1c-0x1f, blanks for [str.isspace], are not among them. *)
Definition is_space (c : ascii) : bool :=
  let n := nat_of_ascii c in
  (((9 <=? n) && (n <=? 13)) || (n =? 32))%nat.

Definition to_lower (c : ascii) : ascii :=
  let n := nat_of_ascii c in
  if ((65 <=? n) && (n <=? 90))%nat then ascii_of_nat (n + 32) else c.

Definition ascii_eqb (a b : ascii) : bool := Ascii.eqb a b.

Fixpoint drop_spaces (l : list ascii) : list ascii :=
  match l with
  | c :: r => if is_space c then drop_spaces r else l
  | [] => []
  end.

(** The text without the blanks at its ends. *)
Definition strip (l : list ascii) : list ascii :=
  rev (drop_spaces (rev (drop_spaces l))).

(** Longest prefix of digits and the rest. *)
Fixpoint span_digits (l : list ascii) : list ascii * list ascii :=
  match l with
  | c :: r =>
      if is_digit c then let (d, t) := span_digits r in (c :: d, t)
      else ([], l)
  | [] => ([], [])
  end.

Definition digits_val (l : list ascii) : N :=
  fold_left (fun acc c => (10 * acc + digit_val c)%N) l 0%N.

(** ** [float(str)]

    The value is kept as the decimal number the literal denotes, or one of
    the specials; rounding to binary64 is not represented (no handler
    computes with a coordinate).  The text is ASCII: the blanks and
    decimal digits of other scripts, which [float] maps to ASCII first,
    are not recognised, and a text that has one is refused. *)

Inductive pyfloat :=
| FNan
| FInf (neg : bool)
| FDec (neg : bool) (mant : N) (exp10 : Z).

(** Underscores of a numeric literal: each one stands between two digits.
    [prev] is the previous character.  Returns the text without them. *)
Fixpoint strip_underscores (prev : option ascii) (l : list ascii)
  : option (list ascii) :=
  match l with
  | [] =>
      match prev with
      | Some "_"%char => None
      | _ => Some []
      end
  | c :: r =>
      if ascii_eqb c "_" then
        match prev with
        | Some p => if is_digit p then strip_underscores (Some c) r else None
        | None => None
        end
      else
        let ok :=
          match prev with
          | Some "_"%char => is_digit c
          | _ => true
          end in
        if ok then option_map (cons c) (strip_underscores (Some c) r)
        else None
  end.

Definition take_sign (l : list ascii) : bool * list ascii :=
  match l with
  | "-"%char :: r => (true, r)
  | "+"%char :: r => (false, r)
  | _ => (false, l)
  end.

(** The exponent part: [e] or [E], an optional sign, at least one digit. *)
Definition take_exponent (l : list ascii) : option (Z * list ascii) :=
  match l with
  | c :: r =>
      if ascii_eqb (to_lower c) "e" then
        let (neg, r1) := take_sign r in
        match span_digits r1 with
        | ([], _) => None
        | (ds, rest) =>
            let v := Z.of_N (digits_val ds) in
            Some (if neg then - v else v, rest)
        end
      else None
  | [] => None
  end.

Definition parse_number (neg : bool) (l : list ascii) : option pyfloat :=
  let (ip, r1) := span_digits l in
  let (fp, r2) :=
    match r1 with
    | "."%char :: r => span_digits r
    | _ => ([], r1)
    end in
  match ip ++ fp with
  | [] => None
  | ds =>
      let frac := Z.of_nat (length fp) in
      match r2 with
      | [] => Some (FDec neg (digits_val ds) (- frac))
      | _ =>
          match take_exponent r2 with
          | Some (e, []) => Some (FDec neg (digits_val ds) (e - frac))
          | _ => None
          end
      end
  end.

Definition parse_inf_or_nan (neg : bool) (l : list ascii) : option pyfloat :=
  let w := string_of_list_ascii (map to_lower l) in
  if String.eqb w "inf" || String.eqb w "infinity" then Some (FInf neg)
  else if String.eqb w "nan" then Some FNan
  else None.

(** [float(s)] for a string; [None] is [ValueError]. *)
Definition py_float (s : string) : option pyfloat :=
  match strip_underscores None (strip (list_ascii_of_string s)) with
  | None => None
  | Some l =>
      let (neg, r) := take_sign l in
      match parse_number neg r with
      | Some f => Some f
      | None => parse_inf_or_nan neg r
      end
  end.

Definition float_is_zero (f : pyfloat) : bool :=
  match f with
  | FDec _ 0%N _ => true
  | _ => false
  end.

(** ** Dates and times *)

Module date.
Record t := make { year : Z; month : Z; day : Z }.
End date.

Module datetime.
Record t := make {
  year : Z; month : Z; day : Z;
  hour : Z; minute : Z; second : Z; microsecond : Z }.
End datetime.

Definition is_leap (y : Z) : bool :=
  ((y mod 4 =? 0) && negb (y mod 100 =? 0)) || (y mod 400 =? 0).

Definition days_in_month (y m : Z) : Z :=
  if m =? 2 then (if is_leap y then 29 else 28)
  else if (m =? 4) || (m =? 6) || (m =? 9) || (m =? 11) then 30
  else 31.

Definition dval (c : ascii) : Z := Z.of_N (digit_val c).

(** The directive [%m]: [1[0-2]|0[1-9]|[1-9]], first alternative that
    matches. *)
Definition take_month (l : list ascii) : option (Z * list ascii) :=
  match l with
  | a :: b :: r =>
      if ascii_eqb a "1" && is_digit b && (dval b <=? 2) then Some (10 + dval b, r)
      else if ascii_eqb a "0" && is_digit b && (1 <=? dval b) then Some (dval b, r)
      else if is_digit a && (1 <=? dval a) then Some (dval a, b :: r)
      else None
  | [a] => if is_digit a && (1 <=? dval a) then Some (dval a, []) else None
  | [] => None
  end.

(** The directive [%d]: [3[01]|[12]\d|0[1-9]|[1-9]| [1-9]]. *)
Definition take_day (l : list ascii) : option (Z * list ascii) :=
  match l with
  | a :: b :: r =>
      if ascii_eqb a "3" && is_digit b && (dval b <=? 1) then Some (30 + dval b, r)
      else if is_digit a && (1 <=? dval a) && (dval a <=? 2) && is_digit b
           then Some (10 * dval a + dval b, r)
      else if ascii_eqb a "0" && is_digit b && (1 <=? dval b) then Some (dval b, r)
      else if is_digit a && (1 <=? dval a) then Some (dval a, b :: r)
      else if ascii_eqb a " " && is_digit b && (1 <=? dval b) then Some (dval b, r)
      else None
  | [a] => if is_digit a && (1 <=? dval a) then Some (dval a, []) else None
  | [] => None
  end.

(** [datetime.strptime(s, '%Y-%m-%d').date()] for a string; [None] is
    [ValueError] (no match, unconverted data, or no such day). *)
Definition strptime_ymd (s : string) : option date.t :=
  match list_ascii_of_string s with
  | y1 :: y2 :: y3 :: y4 :: "-"%char :: r =>
      if is_digit y1 && is_digit y2 && is_digit y3 && is_digit y4 then
        let y := Z.of_N (digits_val [y1; y2; y3; y4]) in
        match take_month r with
        | Some (m, "-"%char :: r') =>
            match take_day r' with
            | Some (d, []) =>
                if (1 <=? y) && (d <=? days_in_month y m)
                then Some (date.make y m d) else None
            | _ => None
            end
        | _ => None
        end
      else None
  | _ => None
  end.

Definition digit_char (n : Z) : ascii := ascii_of_nat (48 + Z.to_nat (n mod 10)).

Definition pad2 (n : Z) : string :=
  String (digit_char (n / 10)) (String (digit_char n) EmptyString).

Definition pad4 (n : Z) : string :=
  String (digit_char (n / 1000)) (String (digit_char (n / 100)) (pad2 n)).

(** [d.strftime('%Y-%m-%d')], for a year of up to four digits. *)
Definition strftime_ymd (d : datetime.t) : string :=
  (pad4 (datetime.year d) ++ "-" ++ pad2 (datetime.month d) ++ "-"
    ++ pad2 (datetime.day d))%string.

(** ** JSON values, as [request.get_json] and [jsonify] see them

    A [dict] is the list of its items; [dict_get] reads the first item
    with the key. *)

#[warnings="-register-all"] Inductive json :=
| JNull
| JBool (b : bool)
| JInt (n : Z)
| JFloat (f : pyfloat)
| JStr (s : string)
| JList (l : list json)
| JDict (items : list (string * json)).

Fixpoint dict_get (items : list (string * json)) (k : string) : option json :=
  match items with
  | [] => None
  | (k', v) :: r => if String.eqb k' k then Some v else dict_get r k
  end.

(** [bool(v)] *)
Definition truthy (v : json) : bool :=
  match v with
  | JNull => false
  | JBool b => b
  | JInt n => negb (n =? 0)
  | JFloat f => negb (float_is_zero f)
  | JStr s => negb (String.eqb s EmptyString)
  | JList l => match l with [] => false | _ => true end
  | JDict l => match l with [] => false | _ => true end
  end.

(** [v == 'text'] for a string literal on the right. *)
Definition eq_str (v : json) (s : string) : bool :=
  match v with
  | JStr t => String.eqb t s
  | _ => false
  end.

(** [hash(v)] is defined: lists and dicts are unhashable. *)
Definition hashable (v : json) : bool :=
  match v with
  | JList _ | JDict _ => false
  | _ => true
  end.

Definition json_opt_str (o : option string) : json :=
  match o with Some s => JStr s | None => JNull end.

Definition json_opt_float (o : option pyfloat) : json :=
  match o with Some f => JFloat f | None => JNull end.

(** ** Exceptions *)

Inductive ExnClass :=
| KeyError | TypeError | ValueError | AttributeError
| BadRequest | UnsupportedMediaType
| NoCredentialsError | ClientError | EndpointConnectionError | S3UploadFailedError
| IntegrityError | DataError | OperationalError | StatementError.

(** An exception: its class and [str(e)]. *)
Record Exn := mkExn { exn_class : ExnClass; exn_str : string }.

Definition type_name (v : json) : string :=
  match v with
  | JNull => "NoneType"
  | JBool _ => "bool"
  | JInt _ => "int"
  | JFloat _ => "float"
  | JStr _ => "str"
  | JList _ => "list"
  | JDict _ => "dict"
  end.

(** [data[k]] for a string literal [k]: a dict raises [KeyError] on a
    missing key, every other value raises [TypeError]. *)
Definition subscript (data : json) (k : string) : Exn + json :=
  match data with
  | JDict items =>
      match dict_get items k with
      | Some v => inr v
      | None => inl (mkExn KeyError ("'" ++ k ++ "'")%string)
      end
  | JList _ =>
      inl (mkExn TypeError "list indices must be integers or slices, not str")
  | JStr _ =>
      inl (mkExn TypeError "string indices must be integers, not 'str'")
  | v =>
      inl (mkExn TypeError ("'" ++ type_name v ++ "' object is not subscriptable")%string)
  end.

(** [data.get(k)] and [data.get(k, default)], [data] being a dict. *)
Definition get_default (items : list (string * json)) (k : string) (d : json) : json :=
  match dict_get items k with Some v => v | None => d end.

Definition get (items : list (string * json)) (k : string) : json :=
  get_default items k JNull.

(* ===================================================================== *)
(** * Database models                                                     *)
(* ===================================================================== *)

Inductive severity_enum := LOW | MEDIUM | HIGH | CRITICAL.
Inductive status_enum := PENDING | VERIFIED | REJECTED | IN_PROGRESS | COMPLETED.

Module verification_status_enum.
Inductive t := APPROVED | REJECTED | NEED_INFO.
End verification_status_enum.

#[global] Instance severity_eq_dec : EqDecision severity_enum.
Proof. solve_decision. Defined.
#[global] Instance status_eq_dec : EqDecision status_enum.
Proof. solve_decision. Defined.
#[global] Instance verification_status_eq_dec : EqDecision verification_status_enum.t.
Proof. solve_decision. Defined.

Definition severity_name (s : severity_enum) : string :=
  match s with LOW => "LOW" | MEDIUM => "MEDIUM" | HIGH => "HIGH" | CRITICAL => "CRITICAL" end.

Definition status_name (s : status_enum) : string :=
  match s with
  | PENDING => "PENDING" | VERIFIED => "VERIFIED" | REJECTED => "REJECTED"
  | IN_PROGRESS => "IN_PROGRESS" | COMPLETED => "COMPLETED"
  end.

Definition verification_status_name (s : verification_status_enum.t) : string :=
  match s with
  | verification_status_enum.APPROVED => "APPROVED"
  | verification_status_enum.REJECTED => "REJECTED"
  | verification_status_enum.NEED_INFO => "NEED_INFO"
  end.

Definition severity_values := [LOW; MEDIUM; HIGH; CRITICAL].
Definition status_values := [PENDING; VERIFIED; REJECTED; IN_PROGRESS; COMPLETED].
Definition verification_status_values :=
  [verification_status_enum.APPROVED; verification_status_enum.REJECTED;
   verification_status_enum.NEED_INFO].

Definition of_name {E : Type} (name : E -> string) (values : list E) (s : string)
  : option E :=
  snd <$> list_find (fun e => name e = s) values.

Definition severity_of_string : string -> option severity_enum :=
  of_name severity_name severity_values.
Definition status_of_string : string -> option status_enum :=
  of_name status_name status_values.
Definition verification_status_of_string : string -> option verification_status_enum.t :=
  of_name verification_status_name verification_status_values.

(** Rows.  A column that the application always fills (by an argument or
    by its [default]) has the type of its values; a column a handler can
    leave or set to NULL is an [option]. *)

Module CustomUser.
Record t := make {
  id : Z;
  user_id : string;
  username : string;
  email : string;
  phone_number : option string;
  password_hash : string;
  credits : Z;
  is_staff : bool;
  created_at : datetime.t }.

Definition set_credits (c : Z) (u : t) : t :=
  make (id u) (user_id u) (username u) (email u) (phone_number u)
       (password_hash u) c (is_staff u) (created_at u).
End CustomUser.

Module PotholeReport.
Record t := make {
  id : Z;
  report_id : string;
  user_id : string;
  image_url : option string;
  s3_bucket_path : option string;
  description : option string;
  location_name : option string;
  latitude : option pyfloat;
  longitude : option pyfloat;
  severity : severity_enum;
  status : option status_enum;
  credits_awarded : Z;
  created_at : datetime.t;
  updated_at : datetime.t }.

(** An UPDATE of [status]; [onupdate] stamps [updated_at]. *)
Definition set_status (s : option status_enum) (now : datetime.t) (r : t) : t :=
  make (id r) (report_id r) (user_id r) (image_url r) (s3_bucket_path r)
       (description r) (location_name r) (latitude r) (longitude r)
       (severity r) s (credits_awarded r) (created_at r) now.
End PotholeReport.

Module MunicipalVerification.
Record t := make {
  id : Z;
  report_id : string;
  verified_by : option string;
  verification_status : option verification_status_enum.t;
  verification_notes : option string;
  verification_date : datetime.t;
  estimated_repair_date : option date.t }.
End MunicipalVerification.

Record DB := mkDB {
  custom_user : list CustomUser.t;
  pothole_report : list PotholeReport.t;
  municipal_verification : list MunicipalVerification.t }.

(* ===================================================================== *)
(** * The unit of work behind [db.session]                                *)
(* ===================================================================== *)

(** Constructor arguments of the three models, as the handlers pass
    them; the columns left out take their [default] when the row is
    inserted. *)

Module NewUser.
Record t := make {
  username : json;
  email : json;
  phone_number : json;
  password_hash : string;
  is_staff : bool }.
End NewUser.

Module NewReport.
Record t := make {
  user_id : string;
  image_url : string;
  s3_bucket_path : string;
  description : option string;
  location_name : option string;
  latitude : option pyfloat;
  longitude : option pyfloat;
  severity : option string }.
End NewReport.

Module NewVerification.
Record t := make {
  report_id : string;
  verified_by : json;
  verification_status : json;
  verification_notes : json;
  estimated_repair_date : option date.t }.
End NewVerification.

(** The statements a flush sends.  A row is addressed by its position. *)
Inductive Statement :=
| INSERT_custom_user (o : NewUser.t)
| INSERT_pothole_report (o : NewReport.t)
| INSERT_municipal_verification (o : NewVerification.t)
| UPDATE_pothole_report_status (i : nat) (v : json)
| UPDATE_custom_user_credits (i : nat) (c : Z)
| COMMIT.

(** What a request reads from outside the repository. *)
Record Env := mkEnv {
  AWS_BUCKET_NAME : string;
  AWS_REGION : string;
  (** [datetime.utcnow()], as the [default] of [created_at] and of
      [verification_date] calls it *)
  utcnow : datetime.t;
  (** and as the [default] and the [onupdate] of [updated_at] call it: a
      call of its own, in the same statement or in another one *)
  utcnow_updated_at : datetime.t;
  (** [str(uuid.uuid4())]: for the file name, and for the [default] of
      [user_id] / [report_id] of the row the request inserts *)
  uuid4_filename : string;
  uuid4_row : string;
  secure_filename : string -> string;
  (** [url_for('serve_image', s3_key=k, _external=True)] *)
  url_for_serve_image : string -> string;
  generate_password_hash : string -> string;
  (** [s3_client.upload_fileobj]: returns, or raises *)
  upload_fileobj : option Exn;
  (** equality of two strings under the collation of the columns *)
  collation_eq : string -> string -> bool;
  (** the text that a string column holds after a value that is not a
      string was bound to it (pymysql writes an [int] as its decimal
      literal and a [bool] as 1 or 0, and the server stores the text of
      the number); a value that the driver cannot bind fails the
      statement, which is one of the reasons of [dbms_rejects] *)
  bound_text : json -> string;
  (** whether a stored string equals a bound value that is not a string,
      as the server compares the two (MySQL compares a string with a
      number as numbers) *)
  value_eq : string -> json -> bool;
  (** the driver or the DBMS refuses a statement of a flush for a reason
      that the models do not declare (connection lost, a value that cannot
      be bound, is too long or out of range, foreign key, ...): the error
      it raises *)
  dbms_rejects : Statement -> option Exn }.

(** What a string column holds for a bound value: NULL for [None], the
    string itself, and for a value of another type the text that the
    driver and the server make of it. *)
Definition string_column (env : Env) (v : json) : option string :=
  match v with
  | JNull => None
  | JStr s => Some s
  | v => Some (bound_text env v)
  end.

(** A bound value for an Enum column: NULL, or the name of one of the
    members; any other string is refused (strict SQL mode). *)
Definition enum_column {E : Type} (of_string : string -> option E)
    (col : string) (v : json) : Exn + option E :=
  match v with
  | JNull => inr None
  | JStr s =>
      match of_string s with
      | Some e => inr (Some e)
      | None => inl (mkExn DataError ("Data truncated for column " ++ col)%string)
      end
  | _ => inl (mkExn StatementError ("unsupported value for column " ++ col)%string)
  end.

Definition not_null {A : Type} (col : string) (v : option A) : Exn + A :=
  match v with
  | Some a => inr a
  | None => inl (mkExn IntegrityError ("Column " ++ col ++ " cannot be null")%string)
  end.

(** [unique=True]: no row of the table has the value already. *)
Definition unique {R : Type} (env : Env) (col : string) (f : R -> string)
    (rows : list R) (v : string) : Exn + unit :=
  if existsb (fun r => collation_eq env (f r) v) rows
  then inl (mkExn IntegrityError ("Duplicate entry for key " ++ col)%string)
  else inr tt.

(** [autoincrement=True] on a table the application never deletes from. *)
Definition next_id {R : Type} (f : R -> Z) (rows : list R) : Z :=
  1 + fold_right (fun r m => Z.max (f r) m) 0 rows.

Definition bind_sum {E A B : Type} (x : E + A) (f : A -> E + B) : E + B :=
  match x with
  | inl e => inl e
  | inr a => f a
  end.

Notation "'do' x <- e ; k" := (bind_sum e (fun x => k))
  (at level 10, x name, e at level 100, k at level 200).

Definition with_users (d : DB) (l : list CustomUser.t) : DB :=
  mkDB l (pothole_report d) (municipal_verification d).
Definition with_reports (d : DB) (l : list PotholeReport.t) : DB :=
  mkDB (custom_user d) l (municipal_verification d).
Definition with_verifications (d : DB) (l : list MunicipalVerification.t) : DB :=
  mkDB (custom_user d) (pothole_report d) l.

(** The declared constraints, then the effect of one statement on the
    tables. *)
Definition apply_statement (env : Env) (s : Statement) (d : DB) : Exn + DB :=
  match s with
  | INSERT_custom_user o =>
      do username <- not_null "username" (string_column env (NewUser.username o));
      do email <- not_null "email" (string_column env (NewUser.email o));
      let phone := string_column env (NewUser.phone_number o) in
      do _ <- unique env "user_id" CustomUser.user_id (custom_user d) (uuid4_row env);
      do _ <- unique env "username" CustomUser.username (custom_user d) username;
      do _ <- unique env "email" CustomUser.email (custom_user d) email;
      inr (with_users d (custom_user d ++
        [CustomUser.make (next_id CustomUser.id (custom_user d)) (uuid4_row env)
           username email phone (NewUser.password_hash o) 0 (NewUser.is_staff o)
           (utcnow env)]))
  | INSERT_pothole_report o =>
      do severity <- enum_column severity_of_string "severity"
                       (json_opt_str (NewReport.severity o));
      do severity <- not_null "severity" severity;
      do _ <- unique env "report_id" PotholeReport.report_id (pothole_report d) (uuid4_row env);
      inr (with_reports d (pothole_report d ++
        [PotholeReport.make (next_id PotholeReport.id (pothole_report d)) (uuid4_row env)
           (NewReport.user_id o) (Some (NewReport.image_url o))
           (Some (NewReport.s3_bucket_path o)) (NewReport.description o)
           (NewReport.location_name o) (NewReport.latitude o) (NewReport.longitude o)
           severity (Some PENDING) 5 (utcnow env) (utcnow_updated_at env)]))
  | INSERT_municipal_verification o =>
      let verified_by := string_column env (NewVerification.verified_by o) in
      do vstatus <- enum_column verification_status_of_string "verification_status"
                      (NewVerification.verification_status o);
      let notes := string_column env (NewVerification.verification_notes o) in
      inr (with_verifications d (municipal_verification d ++
        [MunicipalVerification.make
           (next_id MunicipalVerification.id (municipal_verification d))
           (NewVerification.report_id o) verified_by vstatus notes (utcnow env)
           (NewVerification.estimated_repair_date o)]))
  | UPDATE_pothole_report_status i v =>
      do status <- enum_column status_of_string "status" v;
      inr (with_reports d
             (alter (PotholeReport.set_status status (utcnow_updated_at env)) i
                (pothole_report d)))
  | UPDATE_custom_user_credits i c =>
      inr (with_users d (alter (CustomUser.set_credits c) i (custom_user d)))
  | COMMIT => inr d
  end.

Definition execute (env : Env) (s : Statement) (d : DB) : Exn + DB :=
  match dbms_rejects env s with
  | Some e => inl e
  | None => apply_statement env s d
  end.

Fixpoint execute_all (env : Env) (l : list Statement) (d : DB) : Exn + DB :=
  match l with
  | [] => inr d
  | s :: r => do d' <- execute env s d; execute_all env r d'
  end.

(** The session: the committed tables, the tables as the open transaction
    sees them, and the changes not flushed yet. *)
Record Session := mkSession {
  stored : DB;
  view : DB;
  pending : list Statement }.

Inductive Result (A : Type) :=
| Val (a : A) (st : Session)
| Raise (e : Exn) (st : Session).
Arguments Val {A} a st.
Arguments Raise {A} e st.

Definition M (A : Type) : Type := Session -> Result A.

Definition ret {A : Type} (a : A) : M A := fun st => Val a st.

Definition bind {A B : Type} (m : M A) (f : A -> M B) : M B :=
  fun st =>
    match m st with
    | Val a st' => f a st'
    | Raise e st' => Raise e st'
    end.

Definition raise {A : Type} (e : Exn) : M A := fun st => Raise e st.

(** [try: m  except Exception as e: h e] *)
Definition try_except {A : Type} (m : M A) (h : Exn -> M A) : M A :=
  fun st =>
    match m st with
    | Val a st' => Val a st'
    | Raise e st' => h e st'
    end.

Definition lift {A : Type} (x : Exn + A) : M A :=
  match x with
  | inl e => raise e
  | inr a => ret a
  end.

Declare Scope handler_scope.
Delimit Scope handler_scope with handler.
Notation "x <- m ;; k" := (bind m (fun x => k))
  (at level 100, m at next level, right associativity) : handler_scope.
Notation "m ;; k" := (bind m (fun _ => k))
  (at level 100, right associativity) : handler_scope.
Open Scope handler_scope.

(** Sends the pending changes, in the order the handler made them; the
    first failure is raised. *)
Definition flush (env : Env) : M unit :=
  fun st =>
    match execute_all env (pending st) (view st) with
    | inr d => Val tt (mkSession (stored st) d [])
    | inl e => Raise e st
    end.

(** [db.session.add(obj)] *)
Definition session_add (s : Statement) : M unit :=
  fun st => Val tt (mkSession (stored st) (view st) (pending st ++ [s])).

(** [db.session.commit()] *)
Definition commit (env : Env) : M unit :=
  flush env ;;
  fun st =>
    match execute env COMMIT (view st) with
    | inr d => Val tt (mkSession d d [])
    | inl e => Raise e st
    end.

(** [db.session.rollback()] *)
Definition rollback : M unit :=
  fun st => Val tt (mkSession (stored st) (stored st) []).

(** [Model.query.filter(p).first()]: autoflush, then the first row that
    satisfies [p].  The flush can fail; the SELECT is answered. *)
Definition first_user (env : Env) (p : CustomUser.t -> bool) : M (option nat) :=
  flush env ;;
  fun st => Val (fst <$> list_find (fun u => p u = true) (custom_user (view st))) st.

Definition first_report (env : Env) (p : PotholeReport.t -> bool) : M (option nat) :=
  flush env ;;
  fun st => Val (fst <$> list_find (fun r => p r = true) (pothole_report (view st))) st.

(** [Model.query.filter(p).all()] *)
Definition all_reports_where (env : Env) (p : PotholeReport.t -> bool)
  : M (list PotholeReport.t) :=
  flush env ;;
  fun st => Val (List.filter p (pothole_report (view st))) st.

(** The loaded object behind a handle.  After a commit the object is
    expired and its attributes are read again from the row: that SELECT
    is answered as well. *)
Definition stale {A : Type} : M A :=
  raise (mkExn StatementError "instance is not persistent within this Session").

Definition user_obj (j : nat) : M CustomUser.t :=
  fun st =>
    match custom_user (view st) !! j with
    | Some u => Val u st
    | None => stale st
    end.

Definition report_obj (i : nat) : M PotholeReport.t :=
  fun st =>
    match pothole_report (view st) !! i with
    | Some r => Val r st
    | None => stale st
    end.

(** [filter_by(col=v)] on a string column that is NOT NULL, for a row
    whose column holds [stored_value]: [None] is rendered as IS NULL and
    matches no row. *)
Definition column_eq (env : Env) (stored_value : string) (v : json) : bool :=
  match v with
  | JStr s => collation_eq env stored_value s
  | JNull => false
  | v => value_eq env stored_value v
  end.

(** [old == v], [old] being the loaded value of an Enum column. *)
Definition same_value (old : option string) (v : json) : bool :=
  match old, v with
  | None, JNull => true
  | Some s, JStr t => String.eqb s t
  | _, _ => false
  end.

(** [report.status = v]: a net change is queued for the next flush. *)
Definition set_report_status (i : nat) (v : json) : M unit :=
  r <- report_obj i ;;
  if same_value (status_name <$> PotholeReport.status r) v
  then ret tt
  else session_add (UPDATE_pothole_report_status i v).

(** [user.credits = c] *)
Definition set_user_credits (j : nat) (c : Z) : M unit :=
  u <- user_obj j ;;
  if CustomUser.credits u =? c
  then ret tt
  else session_add (UPDATE_custom_user_credits j c).

(* ===================================================================== *)
(** * Requests, responses and helpers                                     *)
(* ===================================================================== *)

Module FileStorage.
Record t := make { filename : string; content : string }.
End FileStorage.

Record Request := mkRequest {
  method : string;
  (** [request.get_json()]: the parsed body, or the exception it raises *)
  get_json : Exn + json;
  files : list (string * FileStorage.t);
  form : list (string * string) }.

(** The Flask [session]: the three keys that the login routes set. *)
Module session.
Record t := make {
  user_id : option string;
  username : option string;
  is_staff : option bool }.
End session.

Inductive Response :=
| jsonify (body : json) (status : Z)
| redirect (endpoint : string)
| render_template (name : string).

Definition error_body (msg : string) : json := JDict [("error", JStr msg)].
Definition message_body (msg : string) : json := JDict [("message", JStr msg)].

#[global] Instance ExnClass_eq_dec : EqDecision ExnClass.
Proof. solve_decision. Defined.

(** [request.files[k]] / [request.form.get(k)] *)
Fixpoint lookup_key {A : Type} (l : list (string * A)) (k : string) : option A :=
  match l with
  | [] => None
  | (k', v) :: r => if String.eqb k' k then Some v else lookup_key r k
  end.

(** [data.get(k)] / [data.get(k, d)] on a parsed body. *)
Definition py_get (data : json) (k : string) (d : json) : Exn + json :=
  match data with
  | JDict items => inr (get_default items k d)
  | v => inl (mkExn AttributeError
                ("'" ++ type_name v ++ "' object has no attribute 'get'")%string)
  end.

(** [mapping.get(key, d)] on a dict with string keys: the key is hashed. *)
Definition mapping_get (mapping : list (string * json)) (key : json) (d : json)
  : Exn + json :=
  match key with
  | JStr s => inr (get_default mapping s d)
  | JList _ | JDict _ =>
      inl (mkExn TypeError ("unhashable type: '" ++ type_name key ++ "'")%string)
  | _ => inr d
  end.

(** [float(v) if v else None] on a form field. *)
Definition float_field (v : option string) : Exn + option pyfloat :=
  match v with
  | None => inr None
  | Some s =>
      if String.eqb s EmptyString then inr None
      else match py_float s with
           | Some f => inr (Some f)
           | None => inl (mkExn ValueError
                            ("could not convert string to float: '" ++ s ++ "'")%string)
           end
  end.

(** [upload_to_s3(file, filename)]: [Some (s3_url, s3_key)], or [None] for
    the pair [(None, None)]; an exception other than [NoCredentialsError]
    is not caught. *)
Definition upload_to_s3 (env : Env) (file : FileStorage.t) (filename : string)
  : Exn + option (string * string) :=
  let s3_key := ("pothole-images/" ++ filename)%string in
  match upload_fileobj env with
  | None =>
      let s3_url := ("https://" ++ AWS_BUCKET_NAME env ++ ".s3." ++ AWS_REGION env
                       ++ ".amazonaws.com/" ++ s3_key)%string in
      inr (Some (s3_url, s3_key))
  | Some e =>
      if decide (exn_class e = NoCredentialsError) then inr None else inl e
  end.

Definition no_attribute {A : Type} (attr : string) : M A :=
  raise (mkExn AttributeError
           ("'NoneType' object has no attribute '" ++ attr ++ "'")%string).

(** [session['user_id']] *)
Definition session_user_id (s : session.t) : Exn + string :=
  match session.user_id s with
  | Some u => inr u
  | None => inl (mkExn KeyError "'user_id'")
  end.

Definition by_user_id (env : Env) (uid : string) (u : CustomUser.t) : bool :=
  collation_eq env (CustomUser.user_id u) uid.

(** ** Decorators *)

Definition login_required (s : session.t) (f : M Response) : M Response :=
  match session.user_id s with
  | None => ret (redirect "login")
  | Some _ => f
  end.

Definition staff_required (env : Env) (s : session.t) (f : M Response) : M Response :=
  match session.user_id s with
  | None => ret (redirect "login")
  | Some uid =>
      user <- first_user env (by_user_id env uid) ;;
      match user with
      | None => ret (jsonify (error_body "Staff access required") 403)
      | Some j =>
          u <- user_obj j ;;
          if negb (CustomUser.is_staff u)
          then ret (jsonify (error_body "Staff access required") 403)
          else f
      end
  end.

(* ===================================================================== *)
(** * Routes                                                              *)
(* ===================================================================== *)

(** The handle of the object a pending INSERT will create. *)
Definition is_report_insert (s : Statement) : bool :=
  match s with INSERT_pothole_report _ => true | _ => false end.

Definition add_report (o : NewReport.t) : M nat :=
  fun st =>
    Val (length (pothole_report (view st))
           + length (List.filter is_report_insert (pending st)))%nat
        (mkSession (stored st) (view st) (pending st ++ [INSERT_pothole_report o])).

(** [POST /report-pothole] *)
Definition report_pothole (env : Env) (request : Request) (s : session.t) : M Response :=
  login_required s (
    if String.eqb (method request) "POST" then
      match lookup_key (files request) "image" with
      | None => ret (jsonify (error_body "No image file provided") 400)
      | Some file =>
          if String.eqb (FileStorage.filename file) EmptyString
          then ret (jsonify (error_body "No file selected") 400)
          else
            let filename :=
              (uuid4_filename env ++ "_"
                 ++ secure_filename env (FileStorage.filename file))%string in
            uploaded <- lift (upload_to_s3 env file filename) ;;
            match uploaded with
            | None => ret (jsonify (error_body "Failed to upload image") 500)
            | Some (s3_url, s3_key) =>
                if String.eqb s3_url EmptyString
                then ret (jsonify (error_body "Failed to upload image") 500)
                else
                  let local_image_url := url_for_serve_image env s3_key in
                  uid <- lift (session_user_id s) ;;
                  latitude <- lift (float_field (lookup_key (form request) "latitude")) ;;
                  longitude <- lift (float_field (lookup_key (form request) "longitude")) ;;
                  report <- add_report
                    (NewReport.make uid local_image_url s3_key
                       (lookup_key (form request) "description")
                       (lookup_key (form request) "location_name")
                       latitude longitude
                       (lookup_key (form request) "severity")) ;;
                  user <- first_user env (by_user_id env uid) ;;
                  match user with
                  | None => no_attribute "credits"
                  | Some j =>
                      u <- user_obj j ;;
                      set_user_credits j (CustomUser.credits u + 5)
                  end ;;
                  commit env ;;
                  r <- report_obj report ;;
                  ret (jsonify
                         (JDict [("message", JStr "Report submitted successfully");
                                 ("report_id", JStr (PotholeReport.report_id r))])
                         201)
            end
      end
    else ret (render_template "report_pothole.html")).

Definition action_mapping : list (string * json) :=
  [("approve", JStr "APPROVED");
   ("reject", JStr "REJECTED");
   ("need_info", JStr "NEED_INFO")].

Definition by_report_id (env : Env) (v : json) (r : PotholeReport.t) : bool :=
  column_eq env (PotholeReport.report_id r) v.

(** The [try] block of [verify_report]. *)
Definition verify_report_try (env : Env) (request : Request) (s : session.t)
  : M Response :=
  data <- lift (get_json request) ;;
  if negb (truthy data) then ret (jsonify (error_body "No data provided") 400)
  else
    rid <- lift (subscript data "report_id") ;;
    report <- first_report env (by_report_id env rid) ;;
    match report with
    | None => ret (jsonify (error_body "Report not found") 404)
    | Some i =>
        action <- lift (subscript data "action") ;;
        (if eq_str action "approve" then
           set_report_status i (JStr "VERIFIED") ;;
           r <- report_obj i ;;
           user <- first_user env (by_user_id env (PotholeReport.user_id r)) ;;
           match user with
           | Some j =>
               u <- user_obj j ;;
               set_user_credits j (CustomUser.credits u + 10)
           | None => ret tt
           end
         else if eq_str action "reject" then set_report_status i (JStr "REJECTED")
         else if eq_str action "need_info" then set_report_status i (JStr "PENDING")
         else ret tt) ;;
        date_given <- lift (py_get data "estimated_repair_date" JNull) ;;
        estimated_date <-
          (if truthy date_given then
             match date_given with
             | JStr text => ret (strptime_ymd text)
             | v => raise (mkExn TypeError
                             ("strptime() argument 1 must be str, not "
                                ++ type_name v)%string)
             end
           else ret None) ;;
        r <- report_obj i ;;
        verified_by <- lift (py_get data "verified_by"
                               (JStr (default "Unknown" (session.username s)))) ;;
        action' <- lift (subscript data "action") ;;
        vstatus <- lift (mapping_get action_mapping action' (JStr "APPROVED")) ;;
        notes <- lift (py_get data "notes" (JStr EmptyString)) ;;
        session_add (INSERT_municipal_verification
               (NewVerification.make (PotholeReport.report_id r) verified_by vstatus
                  notes estimated_date)) ;;
        commit env ;;
        ret (jsonify (message_body "Report verification updated successfully") 200)
    end.

(** [POST /api/verify-report] *)
Definition verify_report (env : Env) (request : Request) (s : session.t) : M Response :=
  staff_required env s (
    try_except (verify_report_try env request s)
      (fun e =>
         rollback ;;
         ret (jsonify
                (error_body ("Failed to update report: " ++ exn_str e)%string) 500))).

(** [POST /api/update-progress] *)
Definition update_progress (env : Env) (request : Request) (s : session.t) : M Response :=
  staff_required env s (
    data <- lift (get_json request) ;;
    rid <- lift (subscript data "report_id") ;;
    report <- first_report env (by_report_id env rid) ;;
    match report with
    | None => ret (jsonify (error_body "Report not found") 404)
    | Some i =>
        status <- lift (subscript data "status") ;;
        set_report_status i status ;;
        status' <- lift (subscript data "status") ;;
        (if eq_str status' "COMPLETED" then
           r <- report_obj i ;;
           user <- first_user env (by_user_id env (PotholeReport.user_id r)) ;;
           match user with
           | None => no_attribute "credits"
           | Some j =>
               u <- user_obj j ;;
               set_user_credits j (CustomUser.credits u + 5)
           end
         else ret tt) ;;
        commit env ;;
        ret (jsonify (message_body "Progress updated successfully") 200)
    end).

Definition public_statuses : list status_enum := [VERIFIED; IN_PROGRESS; COMPLETED].

(** [PotholeReport.status.in_([...])]; a NULL status is in no list. *)
Definition status_in (l : list status_enum) (r : PotholeReport.t) : bool :=
  match PotholeReport.status r with
  | Some st => bool_decide (st ∈ l)
  | None => false
  end.

(** The dict that [public_reports] builds for a report. *)
Definition public_entry (report : PotholeReport.t) : json :=
  JDict [("report_id", JStr (PotholeReport.report_id report));
         ("description", json_opt_str (PotholeReport.description report));
         ("location_name", json_opt_str (PotholeReport.location_name report));
         ("severity", JStr (severity_name (PotholeReport.severity report)));
         ("status", json_opt_str (status_name <$> PotholeReport.status report));
         ("created_at", JStr (strftime_ymd (PotholeReport.created_at report)));
         ("latitude", json_opt_float (PotholeReport.latitude report));
         ("longitude", json_opt_float (PotholeReport.longitude report))].

(** [GET /api/public-reports] *)
Definition public_reports (env : Env) : M Response :=
  reports <- all_reports_where env (status_in public_statuses) ;;
  let reports_data :=
    fold_left (fun acc report => acc ++ [public_entry report]) reports [] in
  ret (jsonify (JList reports_data) 200).

Definition by_username (env : Env) (v : json) (u : CustomUser.t) : bool :=
  column_eq env (CustomUser.username u) v.

(** [generate_password_hash(v)]: a value that is not a string has no
    [encode]. *)
Definition password_hash_of (env : Env) (v : json) : Exn + string :=
  match v with
  | JStr p => inr (generate_password_hash env p)
  | _ => inl (mkExn AttributeError
                ("'" ++ type_name v ++ "' object has no attribute 'encode'")%string)
  end.

(** [POST /create-staff-user] *)
Definition create_staff_user (env : Env) (request : Request) : M Response :=
  data <- lift (get_json request) ;;
  username <- lift (subscript data "username") ;;
  existing <- first_user env (by_username env username) ;;
  match existing with
  | Some _ => ret (jsonify (error_body "Username already exists") 400)
  | None =>
      username <- lift (subscript data "username") ;;
      email <- lift (subscript data "email") ;;
      password <- lift (subscript data "password") ;;
      hash <- lift (password_hash_of env password) ;;
      session_add (INSERT_custom_user (NewUser.make username email JNull hash true)) ;;
      commit env ;;
      ret (jsonify (message_body "Staff user created successfully") 201)
  end.

(* ===================================================================== *)
(** * One request                                                         *)
(* ===================================================================== *)

(** What leaves a view function: a response, or an exception that no
    handler of the repository caught. *)
Inductive Outcome :=
| Responded (r : Response)
| Uncaught (e : Exn).

(** Runs a view on the committed tables [db]; the session is discarded
    when the request ends, so what remains is what was committed. *)
Definition serve (view_function : M Response) (db : DB) : Outcome * DB :=
  match view_function (mkSession db db []) with
  | Val r st => (Responded r, stored st)
  | Raise e st => (Uncaught e, stored st)
  end.

(* ===================================================================== *)
(** * The account, dashboard and listing routes                           *)
(* ===================================================================== *)

(** What these routes read from outside the repository besides [Env]. *)
Record Platform := mkPlatform {
  platform_env :> Env;
  (** werkzeug's [check_password_hash(pwhash, password)]: the verdict, or
      the exception it raises on a [password] it cannot encode *)
  check_password_hash : string -> json -> Exn + bool;
  (** the rows of a [SELECT ... ORDER BY created_at DESC], given the rows
      that the WHERE clause keeps; the DBMS decides the order of rows with
      equal keys *)
  order_by_created_at_desc : list PotholeReport.t -> list PotholeReport.t }.

(** A view that writes the Flask [session] returns the session with its
    response. *)
Definition SessionView : Type := M (session.t * Response).

(** Runs such a view for a request that came with the session [s]; an
    exception is raised before any key is written. *)
Definition serve_with_session (view_function : SessionView) (s : session.t) (db : DB)
  : Outcome * session.t * DB :=
  match view_function (mkSession db db []) with
  | Val (s', r) st => (Responded r, s', stored st)
  | Raise e st => (Uncaught e, s, stored st)
  end.

(** [d.strftime('%Y-%m-%d %H:%M')], for a year of up to four digits. *)
Definition strftime_ymd_hm (d : datetime.t) : string :=
  (strftime_ymd d ++ " " ++ pad2 (datetime.hour d) ++ ":"
     ++ pad2 (datetime.minute d))%string.

(** ** Registration *)

Definition by_email (env : Env) (v : json) (u : CustomUser.t) : bool :=
  column_eq env (CustomUser.email u) v.

Definition is_user_insert (s : Statement) : bool :=
  match s with INSERT_custom_user _ => true | _ => false end.

(** [db.session.add(user)]: the handle of the row the INSERT will create. *)
Definition add_user (o : NewUser.t) : M nat :=
  fun st =>
    Val (length (custom_user (view st))
           + length (List.filter is_user_insert (pending st)))%nat
        (mkSession (stored st) (view st) (pending st ++ [INSERT_custom_user o])).

(** [/register] *)
Definition register (env : Env) (request : Request) : M Response :=
  if String.eqb (method request) "POST" then
    data <- lift (get_json request) ;;
    username <- lift (subscript data "username") ;;
    existing <- first_user env (by_username env username) ;;
    match existing with
    | Some _ => ret (jsonify (error_body "Username already exists") 400)
    | None =>
        email <- lift (subscript data "email") ;;
        existing <- first_user env (by_email env email) ;;
        match existing with
        | Some _ => ret (jsonify (error_body "Email already exists") 400)
        | None =>
            username <- lift (subscript data "username") ;;
            email <- lift (subscript data "email") ;;
            phone_number <- lift (py_get data "phone_number" JNull) ;;
            password <- lift (subscript data "password") ;;
            hash <- lift (password_hash_of env password) ;;
            user <- add_user (NewUser.make username email phone_number hash false) ;;
            commit env ;;
            u <- user_obj user ;;
            ret (jsonify
                   (JDict [("message", JStr "User registered successfully");
                           ("user_id", JStr (CustomUser.user_id u))])
                   201)
        end
    end
  else ret (render_template "register.html").

(** [/municipal-register] *)
Definition municipal_register (env : Env) (request : Request) : M Response :=
  if String.eqb (method request) "POST" then
    data <- lift (get_json request) ;;
    username <- lift (subscript data "username") ;;
    existing <- first_user env (by_username env username) ;;
    match existing with
    | Some _ => ret (jsonify (error_body "Username already exists") 400)
    | None =>
        email <- lift (subscript data "email") ;;
        existing <- first_user env (by_email env email) ;;
        match existing with
        | Some _ => ret (jsonify (error_body "Email already exists") 400)
        | None =>
            username <- lift (subscript data "username") ;;
            email <- lift (subscript data "email") ;;
            password <- lift (subscript data "password") ;;
            hash <- lift (password_hash_of env password) ;;
            user <- add_user (NewUser.make username email JNull hash true) ;;
            commit env ;;
            u <- user_obj user ;;
            ret (jsonify
                   (JDict [("message", JStr "Staff user registered successfully");
                           ("user_id", JStr (CustomUser.user_id u))])
                   201)
        end
    end
  else ret (render_template "municipal_register.html").

(** ** Login and logout *)

(** The three keys that a login writes. *)
Definition session_of (user : CustomUser.t) : session.t :=
  session.make (Some (CustomUser.user_id user)) (Some (CustomUser.username user))
    (Some (CustomUser.is_staff user)).

Definition login_body (user : CustomUser.t) : json :=
  JDict [("message", JStr "Login successful");
         ("is_staff", JBool (CustomUser.is_staff user))].

(** [/login] *)
Definition login (pf : Platform) (request : Request) (s : session.t) : SessionView :=
  if String.eqb (method request) "POST" then
    data <- lift (get_json request) ;;
    username <- lift (subscript data "username") ;;
    user <- first_user pf (by_username pf username) ;;
    match user with
    | Some j =>
        u <- user_obj j ;;
        password <- lift (subscript data "password") ;;
        ok <- lift (check_password_hash pf (CustomUser.password_hash u) password) ;;
        if ok then ret (session_of u, jsonify (login_body u) 200)
        else ret (s, jsonify (error_body "Invalid credentials") 401)
    | None => ret (s, jsonify (error_body "Invalid credentials") 401)
    end
  else ret (s, render_template "login.html").

(** [/municipal-login] *)
Definition municipal_login (pf : Platform) (request : Request) (s : session.t)
  : SessionView :=
  if String.eqb (method request) "POST" then
    data <- lift (get_json request) ;;
    username <- lift (subscript data "username") ;;
    user <- first_user pf (by_username pf username) ;;
    match user with
    | Some j =>
        u <- user_obj j ;;
        password <- lift (subscript data "password") ;;
        ok <- lift (check_password_hash pf (CustomUser.password_hash u) password) ;;
        if ok && CustomUser.is_staff u
        then ret (session_of u, jsonify (login_body u) 200)
        else ret (s, jsonify
                       (error_body "Invalid credentials or insufficient privileges") 401)
    | None =>
        ret (s, jsonify (error_body "Invalid credentials or insufficient privileges") 401)
    end
  else ret (s, render_template "municipal_login.html").

(** [/logout]: [session.clear()] *)
Definition logout (s : session.t) : SessionView :=
  ret (session.make None None None, redirect "index").

(** ** Dashboards and profile *)

(** [/dashboard] *)
Definition dashboard (env : Env) (s : session.t) : M Response :=
  login_required s (
    uid <- lift (session_user_id s) ;;
    user <- first_user env (by_user_id env uid) ;;
    match user with
    | None => no_attribute "is_staff"
    | Some j =>
        u <- user_obj j ;;
        if CustomUser.is_staff u
        then ret (render_template "municipal_dashboard.html")
        else ret (render_template "user_dashboard.html")
    end).

(** [/municipal-dashboard] *)
Definition municipal_dashboard (env : Env) (s : session.t) : M Response :=
  staff_required env s (ret (render_template "municipal_dashboard.html")).

(** The dict that [user_profile] returns. *)
Definition profile_body (user : CustomUser.t) : json :=
  JDict [("username", JStr (CustomUser.username user));
         ("email", JStr (CustomUser.email user));
         ("phone_number", json_opt_str (CustomUser.phone_number user));
         ("credits", JInt (CustomUser.credits user));
         ("is_staff", JBool (CustomUser.is_staff user))].

(** [/api/user-profile] *)
Definition user_profile (env : Env) (s : session.t) : M Response :=
  login_required s (
    uid <- lift (session_user_id s) ;;
    user <- first_user env (by_user_id env uid) ;;
    match user with
    | None => no_attribute "username"
    | Some j =>
        u <- user_obj j ;;
        ret (jsonify (profile_body u) 200)
    end).

(** ** Listings *)

(** [filter_by(user_id=uid)] on the report table. *)
Definition by_owner (env : Env) (uid : string) (r : PotholeReport.t) : bool :=
  collation_eq env (PotholeReport.user_id r) uid.

(** [filter_by(status='PENDING')]; a NULL status equals nothing. *)
Definition by_status (st : status_enum) (r : PotholeReport.t) : bool :=
  bool_decide (PotholeReport.status r = Some st).

(** The dict that [my_reports] builds for a report. *)
Definition my_entry (report : PotholeReport.t) : json :=
  JDict [("report_id", JStr (PotholeReport.report_id report));
         ("description", json_opt_str (PotholeReport.description report));
         ("location_name", json_opt_str (PotholeReport.location_name report));
         ("severity", JStr (severity_name (PotholeReport.severity report)));
         ("status", json_opt_str (status_name <$> PotholeReport.status report));
         ("credits_awarded", JInt (PotholeReport.credits_awarded report));
         ("created_at", JStr (strftime_ymd_hm (PotholeReport.created_at report)));
         ("image_url", json_opt_str (PotholeReport.image_url report))].

(** [/api/my-reports] *)
Definition my_reports (pf : Platform) (s : session.t) : M Response :=
  login_required s (
    uid <- lift (session_user_id s) ;;
    rows <- all_reports_where pf (by_owner pf uid) ;;
    let reports := order_by_created_at_desc pf rows in
    let reports_data :=
      fold_left (fun acc report => acc ++ [my_entry report]) reports [] in
    ret (jsonify (JList reports_data) 200)).

(** The dict that [pending_reports] and [all_reports] build for a report
    and the user that [report.user] loaded. *)
Definition staff_entry (report : PotholeReport.t) (user : CustomUser.t) : json :=
  JDict [("report_id", JStr (PotholeReport.report_id report));
         ("username", JStr (CustomUser.username user));
         ("description", json_opt_str (PotholeReport.description report));
         ("location_name", json_opt_str (PotholeReport.location_name report));
         ("severity", JStr (severity_name (PotholeReport.severity report)));
         ("status", json_opt_str (status_name <$> PotholeReport.status report));
         ("created_at", JStr (strftime_ymd_hm (PotholeReport.created_at report)));
         ("image_url", json_opt_str (PotholeReport.image_url report));
         ("latitude", json_opt_float (PotholeReport.latitude report));
         ("longitude", json_opt_float (PotholeReport.longitude report))].

(** The loop of the two staff listings.  [report.user] is loaded lazily:
    the first user whose [user_id] the foreign key of the report names, or
    [None]. *)
Fixpoint staff_entries (env : Env) (reports : list PotholeReport.t)
    (reports_data : list json) : M (list json) :=
  match reports with
  | [] => ret reports_data
  | report :: rest =>
      user <- first_user env (by_user_id env (PotholeReport.user_id report)) ;;
      match user with
      | None => no_attribute "username"
      | Some j =>
          u <- user_obj j ;;
          staff_entries env rest (reports_data ++ [staff_entry report u])
      end
  end.

(** [/api/pending-reports] *)
Definition pending_reports (pf : Platform) (s : session.t) : M Response :=
  staff_required pf s (
    rows <- all_reports_where pf (by_status PENDING) ;;
    reports_data <- staff_entries pf (order_by_created_at_desc pf rows) [] ;;
    ret (jsonify (JList reports_data) 200)).

(** [/api/all-reports] *)
Definition all_reports (pf : Platform) (s : session.t) : M Response :=
  staff_required pf s (
    rows <- all_reports_where pf (fun _ => true) ;;
    reports_data <- staff_entries pf (order_by_created_at_desc pf rows) [] ;;
    ret (jsonify (JList reports_data) 200)).

(* ===================================================================== *)
(** * Vocabulary of the properties                                        *)
(* ===================================================================== *)

(** The row a query by key returns, and its position. *)
Definition find_user (env : Env) (db : DB) (uid : string)
  : option (nat * CustomUser.t) :=
  list_find (fun u => by_user_id env uid u = true) (custom_user db).

Definition find_report (env : Env) (db : DB) (rid : string)
  : option (nat * PotholeReport.t) :=
  list_find (fun r => by_report_id env (JStr rid) r = true) (pothole_report db).

(** The session names a user of the table who has the staff flag. *)
Definition staff_session (env : Env) (db : DB) (s : session.t) : Prop :=
  exists uid j u,
    session.user_id s = Some uid /\ find_user env db uid = Some (j, u)
    /\ CustomUser.is_staff u = true.

(** The DBMS executes every statement that satisfies the declared
    constraints. *)
Definition dbms_accepts (env : Env) : Prop :=
  forall s, dbms_rejects env s = None.

(** [value] is taken by no row of [rows] under the collation. *)
Definition unused {R : Type} (env : Env) (f : R -> string) (rows : list R)
    (value : string) : Prop :=
  existsb (fun r => collation_eq env (f r) value) rows = false.

(** ** What a computation does to the committed tables *)

(** [m] never touches the committed tables. *)
Definition keeps_stored {A : Type} (m : M A) : Prop :=
  forall st,
    match m st with
    | Val _ st' => stored st' = stored st
    | Raise _ st' => stored st' = stored st
    end.

(** If [m] raises, the committed tables are as they were. *)
Definition raises_clean {A : Type} (m : M A) : Prop :=
  forall st e st', m st = Raise e st' -> stored st' = stored st.

Definition never_raises {A : Type} (m : M A) : Prop :=
  forall st e st', m st <> Raise e st'.

(** [m] raises in whatever state it starts. *)
Definition always_raises {A : Type} (m : M A) : Prop :=
  forall st, exists e st', m st = Raise e st'.

(** ** Tables after accepted statements *)

(** The tables after an accepted [UPDATE pothole_report SET status]. *)
Definition db_with_status (env : Env) (i : nat) (new : status_enum) (db : DB) : DB :=
  with_reports db
    (alter (PotholeReport.set_status (Some new) (utcnow_updated_at env)) i
       (pothole_report db)).

(** The tables after an accepted [UPDATE custom_user SET credits]. *)
Definition db_with_credits (j : nat) (c : Z) (db : DB) : DB :=
  with_users db (alter (CustomUser.set_credits c) j (custom_user db)).

(** The change that [report.status = new] queues for the loaded row [r]:
    none when the row has the value already. *)
Definition status_change (i : nat) (r : PotholeReport.t) (new : status_enum)
  : list Statement :=
  if decide (PotholeReport.status r = Some new) then []
  else [UPDATE_pothole_report_status i (JStr (status_name new))].

Definition after_status_change (env : Env) (i : nat) (r : PotholeReport.t)
    (new : status_enum) (db : DB) : DB :=
  if decide (PotholeReport.status r = Some new) then db
  else db_with_status env i new db.

(** ** [verify_report] *)

(** The optional fields of a verification body: [estimated_repair_date]
    is absent, falsy or a string; [verified_by] and [notes] are absent,
    null or strings. *)
Definition is_text (v : json) : bool :=
  match v with JNull | JStr _ => true | _ => false end.

Definition date_field_ok (v : json) : bool :=
  negb (truthy v) || match v with JStr _ => true | _ => false end.

Definition verification_fields_ok (items : list (string * json)) : Prop :=
  date_field_ok (get items "estimated_repair_date") = true
  /\ is_text (get items "verified_by") = true
  /\ is_text (get items "notes") = true.

(** The changes [verify_report] queues for an action, in order. *)
Definition verify_changes (env : Env) (db : DB) (i : nat) (r : PotholeReport.t)
    (action : json) : list Statement :=
  if eq_str action "approve" then
    status_change i r VERIFIED ++
    match find_user env db (PotholeReport.user_id r) with
    | Some (j, u) => [UPDATE_custom_user_credits j (CustomUser.credits u + 10)]
    | None => []
    end
  else if eq_str action "reject" then status_change i r REJECTED
  else if eq_str action "need_info" then status_change i r PENDING
  else [].

Definition after_verify_changes (env : Env) (db : DB) (i : nat) (r : PotholeReport.t)
    (action : json) : DB :=
  if eq_str action "approve" then
    let d := after_status_change env i r VERIFIED db in
    match find_user env db (PotholeReport.user_id r) with
    | Some (j, u) => db_with_credits j (CustomUser.credits u + 10) d
    | None => d
    end
  else if eq_str action "reject" then after_status_change env i r REJECTED db
  else if eq_str action "need_info" then after_status_change env i r PENDING db
  else db.

(** The [estimated_date] of the handler. *)
Definition estimated_date_of (items : list (string * json)) : option date.t :=
  match get items "estimated_repair_date" with
  | JStr text => if String.eqb text EmptyString then None else strptime_ymd text
  | _ => None
  end.

(** The Verification record the handler creates. *)
Definition verification_of (s : session.t) (items : list (string * json))
    (r : PotholeReport.t) (action : json) : NewVerification.t :=
  NewVerification.make (PotholeReport.report_id r)
    (get_default items "verified_by" (JStr (default "Unknown" (session.username s))))
    (match action with
     | JStr a => get_default action_mapping a (JStr "APPROVED")
     | _ => JStr "APPROVED"
     end)
    (get_default items "notes" (JStr EmptyString))
    (estimated_date_of items).

(** The decision [action_mapping.get(action, 'APPROVED')] stands for. *)
Definition decision_of (action : json) : verification_status_enum.t :=
  if eq_str action "approve" then verification_status_enum.APPROVED
  else if eq_str action "reject" then verification_status_enum.REJECTED
  else if eq_str action "need_info" then verification_status_enum.NEED_INFO
  else verification_status_enum.APPROVED.

Definition text_of (v : json) : option string :=
  match v with JStr t => Some t | _ => None end.

(** The row that the INSERT of [verification_of] adds to tables [d]. *)
Definition verification_row (env : Env) (d : DB) (s : session.t)
    (items : list (string * json)) (r : PotholeReport.t) (action : json)
  : MunicipalVerification.t :=
  MunicipalVerification.make
    (next_id MunicipalVerification.id (municipal_verification d))
    (PotholeReport.report_id r)
    (string_column env (get_default items "verified_by"
                          (JStr (default "Unknown" (session.username s)))))
    (Some (decision_of action))
    (string_column env (get_default items "notes" (JStr EmptyString)))
    (utcnow env)
    (estimated_date_of items).

(** The tables a successful verification commits. *)
Definition verified_db (env : Env) (db : DB) (s : session.t)
    (items : list (string * json)) (i : nat) (r : PotholeReport.t) (action : json) : DB :=
  let d := after_verify_changes env db i r action in
  with_verifications d
    (municipal_verification d ++ [verification_row env d s items r action]).

Definition verified_response : Response :=
  jsonify (message_body "Report verification updated successfully") 200.

(** The answer of the [except] clause for the exception [e]. *)
Definition failed_response (e : Exn) : Response :=
  jsonify (error_body ("Failed to update report: " ++ exn_str e)%string) 500.

(** What a successful verification leaves behind: the response, the status
    of report [i] and the user table. *)
Definition verify_outcome (env : Env) (request : Request) (s : session.t) (db : DB)
    (i : nat) (new : status_enum) (users' : list CustomUser.t) : Prop :=
  exists db',
    serve (verify_report env request s) db = (Responded verified_response, db')
    /\ PotholeReport.status <$> pothole_report db' !! i = Some (Some new)
    /\ custom_user db' = users'.

(** ** [update_progress] *)

Definition progress_response : Response :=
  jsonify (message_body "Progress updated successfully") 200.

(** The tables [update_progress] commits for a status and, for COMPLETED,
    the owner of the report. *)
Definition progress_db (env : Env) (db : DB) (i : nat) (r : PotholeReport.t)
    (st : status_enum) : DB :=
  let d := after_status_change env i r st db in
  if decide (st = COMPLETED) then
    match find_user env db (PotholeReport.user_id r) with
    | Some (j, u) => db_with_credits j (CustomUser.credits u + 5) d
    | None => d
    end
  else d.

(** What a successful progress update leaves behind. *)
Definition progress_outcome (env : Env) (request : Request) (s : session.t) (db : DB)
    (i : nat) (st : status_enum) (users' : list CustomUser.t) : Prop :=
  exists db',
    serve (update_progress env request s) db = (Responded progress_response, db')
    /\ PotholeReport.status <$> pothole_report db' !! i = Some (Some st)
    /\ (forall k, k <> i -> pothole_report db' !! k = pothole_report db !! k)
    /\ custom_user db' = users'
    /\ municipal_verification db' = municipal_verification db.

(** ** [report_pothole] *)

(** The row that [report_pothole] inserts. *)
Definition submitted_report (env : Env) (db : DB) (request : Request) (uid : string)
    (file : FileStorage.t) (latitude longitude : option pyfloat) (sev : severity_enum)
  : PotholeReport.t :=
  let s3_key := ("pothole-images/" ++ uuid4_filename env ++ "_"
                   ++ secure_filename env (FileStorage.filename file))%string in
  PotholeReport.make
    (next_id PotholeReport.id (pothole_report db))
    (uuid4_row env) uid
    (Some (url_for_serve_image env s3_key)) (Some s3_key)
    (lookup_key (form request) "description")
    (lookup_key (form request) "location_name")
    latitude longitude sev (Some PENDING) 5 (utcnow env) (utcnow_updated_at env).

Definition submitted_response (env : Env) : Response :=
  jsonify (JDict [("message", JStr "Report submitted successfully");
                  ("report_id", JStr (uuid4_row env))]) 201.

(** ** [create_staff_user] *)

(** The row that [create_staff_user] inserts. *)
Definition staff_user_row (env : Env) (db : DB) (username email password : string)
  : CustomUser.t :=
  CustomUser.make (next_id CustomUser.id (custom_user db)) (uuid4_row env)
    username email None (generate_password_hash env password) 0 true (utcnow env).

Definition staff_created_response : Response :=
  jsonify (message_body "Staff user created successfully") 201.

(** ** A small installation, for closed instances *)

Module Sample.
Definition t0 : datetime.t := datetime.make 2024 5 17 10 30 0 0.
Definition now : datetime.t := datetime.make 2024 6 1 8 0 0 0.
(** The next reading of the clock, some microseconds on. *)
Definition next (d : datetime.t) : datetime.t :=
  datetime.make (datetime.year d) (datetime.month d) (datetime.day d)
    (datetime.hour d) (datetime.minute d) (datetime.second d)
    (datetime.microsecond d + 250).

Definition alice : CustomUser.t :=
  CustomUser.make 1 "u-alice" "alice" "alice@example.org" None "h1" 5 false t0.
Definition bob : CustomUser.t :=
  CustomUser.make 2 "u-bob" "bob" "bob@city.example" None "h2" 0 true t0.

Definition r1 : PotholeReport.t :=
  PotholeReport.make 1 "r-1" "u-alice" (Some "http://localhost/image/k1")
    (Some "pothole-images/k1") (Some "deep hole") (Some "Main St") None None HIGH
    (Some PENDING) 5 t0 t0.
Definition r2 : PotholeReport.t :=
  PotholeReport.make 2 "r-2" "u-alice" (Some "http://localhost/image/k2")
    (Some "pothole-images/k2") None None None None LOW (Some VERIFIED) 5 t0 t0.
Definition r3 : PotholeReport.t :=
  PotholeReport.make 3 "r-3" "u-alice" (Some "http://localhost/image/k3")
    (Some "pothole-images/k3") None None None None MEDIUM (Some REJECTED) 5 t0 t0.

Definition db : DB := mkDB [alice; bob] [r1; r2; r3] [].

(** The decimal digits of [n], most significant first, before [acc]. *)
Fixpoint decimal_digits (fuel : nat) (n : Z) (acc : string) : string :=
  match fuel with
  | O => acc
  | S fuel' =>
      let acc' := String (digit_char n) acc in
      if n / 10 =? 0 then acc' else decimal_digits fuel' (n / 10) acc'
  end.

(** The text that a string column of the sample server holds for a
    number: the decimal literal of an [int], 1 or 0 for a [bool].  The
    samples bind no other value that is not a string. *)
Definition number_text (v : json) : string :=
  match v with
  | JInt n =>
      let digits :=
        decimal_digits (S (Z.to_nat (Z.log2 (Z.abs n)))) (Z.abs n) EmptyString in
      if n <? 0 then String "-" digits else digits
  | JBool b => if b then "1" else "0"
  | _ => EmptyString
  end.

(** An environment in which the upload ends as [upload] says and the
    DBMS refuses the statements [rejects] selects. *)
Definition env_with (upload : option Exn) (rejects : Statement -> option Exn) : Env :=
  mkEnv "potholes" "eu-west-1" now (next now) "6f1c" "9a7e" (fun name => name)
    (fun key => ("http://localhost/image/" ++ key)%string)
    (fun password => ("pbkdf2:" ++ password)%string)
    upload String.eqb number_text
    (fun stored_value v => String.eqb stored_value (number_text v)) rejects.

Definition env : Env := env_with None (fun _ => None).

Definition acl_error : Exn :=
  mkExn S3UploadFailedError "Failed to upload: AccessControlListNotSupported".
Definition env_upload_error : Env := env_with (Some acl_error) (fun _ => None).

Definition gone : Exn := mkExn OperationalError "MySQL server has gone away".
Definition env_no_verifications : Env :=
  env_with None
    (fun s => match s with INSERT_municipal_verification _ => Some gone | _ => None end).

Definition staff : session.t := session.make (Some "u-bob") (Some "bob") (Some true).
Definition citizen : session.t :=
  session.make (Some "u-alice") (Some "alice") (Some false).

Definition post (body : list (string * json)) : Request :=
  mkRequest "POST" (inr (JDict body)) [] [].

Definition approve_r1 : list (string * json) :=
  [("report_id", JStr "r-1"); ("action", JStr "approve")].
Definition escalate_r1 : list (string * json) :=
  [("report_id", JStr "r-1"); ("action", JStr "escalate")].
Definition complete_r1 : list (string * json) :=
  [("report_id", JStr "r-1"); ("status", JStr "COMPLETED")].
Definition no_status_r1 : list (string * json) := [("report_id", JStr "r-1")].
(** Decisions on r-1 with a repair date written as a number, and an
    approval whose action is an array. *)
Definition approve_r1_dated : list (string * json) :=
  [("report_id", JStr "r-1"); ("action", JStr "approve");
   ("estimated_repair_date", JInt 20240101)].
Definition reject_r1_dated : list (string * json) :=
  [("report_id", JStr "r-1"); ("action", JStr "reject");
   ("estimated_repair_date", JInt 20240101)].
Definition approve_r1_listed : list (string * json) :=
  [("report_id", JStr "r-1"); ("action", JList [JStr "approve"])].
(** An approval whose notes are a number. *)
Definition approve_r1_noted : list (string * json) :=
  [("report_id", JStr "r-1"); ("action", JStr "approve"); ("notes", JInt 7)].

Definition new_staff (email : string) : list (string * json) :=
  [("username", JStr "carol"); ("email", JStr email); ("password", JStr "pw")].

Definition image : FileStorage.t := FileStorage.make "hole.jpg" "JFIF".

Definition submission (fields : list (string * string)) : Request :=
  mkRequest "POST" (inr JNull) [("image", image)] fields.

Definition good_form : list (string * string) :=
  [("description", "deep hole"); ("location_name", "Main St");
   ("latitude", "12.5"); ("longitude", "-7.25"); ("severity", "HIGH")].
Definition bad_latitude_form : list (string * string) :=
  [("description", "deep hole"); ("latitude", "abc"); ("severity", "HIGH")].
Definition no_severity_form : list (string * string) :=
  [("description", "deep hole")].
End Sample.

(* ===================================================================== *)
(** * Vocabulary of the properties of the further routes                  *)
(* ===================================================================== *)

(** ** Access *)

(** The routes behind [login_required] and behind [staff_required]. *)
Definition login_routes (pf : Platform) (request : Request) (s : session.t)
  : list (M Response) :=
  [dashboard pf s; report_pothole pf request s; my_reports pf s; user_profile pf s].

Definition staff_routes (pf : Platform) (request : Request) (s : session.t)
  : list (M Response) :=
  [pending_reports pf s; verify_report pf request s; update_progress pf request s;
   municipal_dashboard pf s; all_reports pf s].

(** The routes that only read the tables. *)
Definition reading_routes (pf : Platform) (s : session.t) : list (M Response) :=
  [dashboard pf s; my_reports pf s; user_profile pf s; pending_reports pf s;
   public_reports pf; municipal_dashboard pf s; all_reports pf s].

Definition session_routes (pf : Platform) (request : Request) (s : session.t)
  : list SessionView :=
  [login pf request s; municipal_login pf request s; logout s].

Definition forbidden : Response :=
  jsonify (error_body "Staff access required") 403.

(** ** Accounts *)

(** The user a query by name returns, and its position. *)
Definition find_username (env : Env) (db : DB) (username : string)
  : option (nat * CustomUser.t) :=
  list_find (fun u => by_username env (JStr username) u = true) (custom_user db).

(** The row that [register] and [municipal_register] insert. *)
Definition account_row (env : Env) (db : DB) (username email : string)
    (phone_number : option string) (password : string) (is_staff : bool)
  : CustomUser.t :=
  CustomUser.make (next_id CustomUser.id (custom_user db)) (uuid4_row env)
    username email phone_number (generate_password_hash env password) 0 is_staff
    (utcnow env).

Definition registered_response (env : Env) : Response :=
  jsonify (JDict [("message", JStr "User registered successfully");
                  ("user_id", JStr (uuid4_row env))]) 201.

Definition staff_registered_response (env : Env) : Response :=
  jsonify (JDict [("message", JStr "Staff user registered successfully");
                  ("user_id", JStr (uuid4_row env))]) 201.

(** A body with the three fields of an account, as strings. *)
Definition account_body (items : list (string * json))
    (username email password : string) : Prop :=
  dict_get items "username" = Some (JStr username)
  /\ dict_get items "email" = Some (JStr email)
  /\ dict_get items "password" = Some (JStr password).

(** The account is new to the tables: no row has the username, the email
    or the [user_id] that [uuid4] draws. *)
Definition new_account (env : Env) (db : DB) (username email : string) : Prop :=
  unused env CustomUser.username (custom_user db) username
  /\ unused env CustomUser.email (custom_user db) email
  /\ unused env CustomUser.user_id (custom_user db) (uuid4_row env).

Definition unauthorized (msg : string) : Response := jsonify (error_body msg) 401.

(** Two requests served by the same installation: their environments
    may differ in the clock, in what [uuid4] draws and in how the upload
    and the statements fare, but the columns have the same collation. *)
Definition same_collation (env env' : Env) : Prop :=
  forall a b, collation_eq env' a b = collation_eq env a b.

(** ** Transactions *)

(** [m] commits, if at all, only together with an answer that satisfies
    [ok]; an exception leaves the committed tables as they were. *)
Definition commits_only_with {A : Type} (ok : A -> Prop) (m : M A) : Prop :=
  forall st,
    match m st with
    | Val a st' => ok a \/ stored st' = stored st
    | Raise _ st' => stored st' = stored st
    end.

(** What a request leaves behind is the old tables, unless it answered
    with a response that satisfies [ok]. *)
Definition all_or_nothing (ok : Response -> Prop) (result : Outcome * DB) (db : DB)
  : Prop :=
  match result with
  | (Responded r, db') => ok r \/ db' = db
  | (Uncaught _, db') => db' = db
  end.

(** Status code of a JSON response. *)
Definition status_code (r : Response) : option Z :=
  match r with
  | jsonify _ code => Some code
  | _ => None
  end.

(** The answer of a route that created a row. *)
Definition created (r : Response) : Prop := status_code r = Some 201.

(** [db'] is [db] with one more user, who has the staff flag [is_staff]
    and no credits. *)
Definition account_added (is_staff : bool) (db db' : DB) : Prop :=
  exists row,
    db' = with_users db (custom_user db ++ [row])
    /\ CustomUser.is_staff row = is_staff
    /\ CustomUser.credits row = 0.

(** [db'] is [db] with one more report, PENDING and owned by the user of
    the session [s], and with 5 credits more for that user. *)
Definition submission_added (env : Env) (s : session.t) (db db' : DB) : Prop :=
  exists uid j u row,
    session.user_id s = Some uid
    /\ find_user env db uid = Some (j, u)
    /\ pothole_report db' = pothole_report db ++ [row]
    /\ PotholeReport.user_id row = uid
    /\ PotholeReport.status row = Some PENDING
    /\ PotholeReport.credits_awarded row = 5
    /\ custom_user db'
       = alter (CustomUser.set_credits (CustomUser.credits u + 5)) j (custom_user db)
    /\ CustomUser.credits <$> custom_user db' !! j = Some (CustomUser.credits u + 5)
    /\ municipal_verification db' = municipal_verification db.

(** A request stores the change [added] or nothing: an answer with status
    201 comes with the whole of it, any other answer with none of it, and
    a view that raises leaves the one or the other (it can raise after its
    commit, when it reads the new row again). *)
Definition stores_all_or_nothing (added : DB -> DB -> Prop) (result : Outcome * DB)
    (db : DB) : Prop :=
  match result with
  | (Responded r, db') => (created r /\ added db db') \/ (~ created r /\ db' = db)
  | (Uncaught _, db') => db' = db \/ added db db'
  end.

(** ** Rows over time *)

(** The columns of a user that no statement of the application updates:
    all but [credits]. *)
Definition same_account (u u' : CustomUser.t) : Prop :=
  CustomUser.set_credits 0 u = CustomUser.set_credits 0 u'.

(** The columns of a report that no statement of the application updates:
    all but [status] and [updated_at]. *)
Definition same_submission (r r' : PotholeReport.t) : Prop :=
  PotholeReport.set_status None (PotholeReport.created_at r) r
  = PotholeReport.set_status None (PotholeReport.created_at r') r'.

(** [d'] has every row of [d] at its position: users and reports with the
    columns above unchanged, verifications unchanged altogether. *)
Definition extends (d d' : DB) : Prop :=
  (forall j u, custom_user d !! j = Some u ->
     exists u', custom_user d' !! j = Some u' /\ same_account u u')
  /\ (forall i r, pothole_report d !! i = Some r ->
        exists r', pothole_report d' !! i = Some r' /\ same_submission r r')
  /\ (forall k v, municipal_verification d !! k = Some v ->
        municipal_verification d' !! k = Some v).

(** [m] deletes nothing and rewrites none of those columns, neither in the
    committed tables nor in the open transaction. *)
Definition grows {A : Type} (m : M A) : Prop :=
  forall st,
    extends (stored st) (view st) ->
    match m st with
    | Val _ st' =>
        extends (stored st) (stored st') /\ extends (stored st') (view st')
    | Raise _ st' =>
        extends (stored st) (stored st') /\ extends (stored st') (view st')
    end.

(** The tables without the report at position [i]. *)
Definition without_report (i : nat) (db : DB) : DB :=
  with_reports db (delete i (pothole_report db)).

(** The routes that write the tables. *)
Definition writing_routes (env : Env) (request : Request) (s : session.t)
  : list (M Response) :=
  [register env request; report_pothole env request s; verify_report env request s;
   update_progress env request s; municipal_register env request;
   create_staff_user env request].

(** ** Listings *)

Fixpoint lex_leb (a b : list Z) : bool :=
  match a, b with
  | x :: a', y :: b' => (x <? y) || ((x =? y) && lex_leb a' b')
  | _, _ => true
  end.

(** [a <= b] on naive datetimes. *)
Definition datetime_leb (a b : datetime.t) : bool :=
  lex_leb
    [datetime.year a; datetime.month a; datetime.day a; datetime.hour a;
     datetime.minute a; datetime.second a; datetime.microsecond a]
    [datetime.year b; datetime.month b; datetime.day b; datetime.hour b;
     datetime.minute b; datetime.second b; datetime.microsecond b].

(** A date and time that a [datetime] can hold. *)
Definition datetime_valid (d : datetime.t) : bool :=
  (1 <=? datetime.year d) && (datetime.year d <=? 9999)
  && (1 <=? datetime.month d) && (datetime.month d <=? 12)
  && (1 <=? datetime.day d)
  && (datetime.day d <=? days_in_month (datetime.year d) (datetime.month d))
  && (0 <=? datetime.hour d) && (datetime.hour d <? 24)
  && (0 <=? datetime.minute d) && (datetime.minute d <? 60)
  && (0 <=? datetime.second d) && (datetime.second d <? 60)
  && (0 <=? datetime.microsecond d) && (datetime.microsecond d <? 1000000).

(** Each report was created no earlier than the next one. *)
Fixpoint newest_first (l : list PotholeReport.t) : bool :=
  match l with
  | r :: rest =>
      match rest with
      | r' :: _ =>
          datetime_leb (PotholeReport.created_at r') (PotholeReport.created_at r)
      | [] => true
      end && newest_first rest
  | [] => true
  end.

(** The DBMS honours [ORDER BY created_at DESC] on the rows [rows]: it
    returns them all, once each, newest first. *)
Definition ordered (pf : Platform) (rows : list PotholeReport.t) : Prop :=
  Permutation (order_by_created_at_desc pf rows) rows
  /\ newest_first (order_by_created_at_desc pf rows) = true.

(** The user that [report.user] loads. *)
Definition owner_of (env : Env) (db : DB) (report : PotholeReport.t)
  : option CustomUser.t :=
  snd <$> find_user env db (PotholeReport.user_id report).

(** The entry of a staff listing for a report, when its owner exists. *)
Definition staff_row (env : Env) (db : DB) (report : PotholeReport.t) : option json :=
  staff_entry report <$> owner_of env db report.

Definition no_username : Exn :=
  mkExn AttributeError "'NoneType' object has no attribute 'username'".

(** ** More of the sample installation *)

Module Scenario.
(** Insertion into a list that is newest first, before the first older
    row. *)
Fixpoint insert_desc (r : PotholeReport.t) (l : list PotholeReport.t)
  : list PotholeReport.t :=
  match l with
  | [] => [r]
  | r' :: rest =>
      if datetime_leb (PotholeReport.created_at r') (PotholeReport.created_at r)
      then r :: l
      else r' :: insert_desc r rest
  end.

Definition sort_desc (l : list PotholeReport.t) : list PotholeReport.t :=
  fold_right insert_desc [] l.

(** [check_password_hash] for the hashes that the sample
    [generate_password_hash] makes. *)
Definition check (pwhash : string) (password : json) : Exn + bool :=
  match password with
  | JStr p => inr (String.eqb pwhash ("pbkdf2:" ++ p)%string)
  | v => inl (mkExn AttributeError
                ("'" ++ type_name v ++ "' object has no attribute 'encode'")%string)
  end.

Definition platform_with (env : Env) : Platform := mkPlatform env check sort_desc.

(** The sample installation some hours later in June, with what [uuid4]
    draws then. *)
Definition later (hours : Z) (uuid : string) : Env :=
  let t := datetime.make 2024 6 (1 + (8 + hours) / 24) ((8 + hours) mod 24) 0 0 0 in
  mkEnv "potholes" "eu-west-1" t (Sample.next t) "31d0" uuid
    (fun name => name) (fun key => ("http://localhost/image/" ++ key)%string)
    (fun password => ("pbkdf2:" ++ password)%string) None String.eqb
    Sample.number_text
    (fun stored_value v => String.eqb stored_value (Sample.number_text v))
    (fun _ => None).
Definition platform : Platform := platform_with Sample.env.

Definition t1 : datetime.t := datetime.make 2024 5 20 9 15 0 0.
Definition t2 : datetime.t := datetime.make 2024 5 18 17 45 0 0.

Definition alice : CustomUser.t :=
  CustomUser.make 1 "u-alice" "alice" "alice@example.org" (Some "555-0100")
    "pbkdf2:pw-alice" 5 false Sample.t0.
Definition bob : CustomUser.t :=
  CustomUser.make 2 "u-bob" "bob" "bob@city.example" None "pbkdf2:pw-bob" 0 true
    Sample.t0.
Definition dave : CustomUser.t :=
  CustomUser.make 3 "u-dave" "dave" "dave@example.org" None "pbkdf2:pw-dave" 0 false
    Sample.t0.

Definition r1 : PotholeReport.t := Sample.r1.
Definition r2 : PotholeReport.t :=
  PotholeReport.make 2 "r-2" "u-dave" (Some "http://localhost/image/k2")
    (Some "pothole-images/k2") None None None None LOW (Some VERIFIED) 5 t1 t1.
Definition r3 : PotholeReport.t :=
  PotholeReport.make 3 "r-3" "u-alice" (Some "http://localhost/image/k3")
    (Some "pothole-images/k3") None None None None MEDIUM (Some PENDING) 5 t2 t2.
Definition r4 : PotholeReport.t :=
  PotholeReport.make 4 "r-4" "u-alice" (Some "http://localhost/image/k4")
    (Some "pothole-images/k4") None None None None CRITICAL (Some COMPLETED) 5 t2 t1.

Definition db : DB := mkDB [alice; bob; dave] [r1; r2; r3; r4] [].

Definition nobody : session.t := session.make None None None.
Definition alice_session : session.t := session_of alice.
Definition bob_session : session.t := session_of bob.
(** A session whose user is not in the table. *)
Definition erin_session : session.t :=
  session.make (Some "u-erin") (Some "erin") (Some true).

Definition get_page : Request :=
  mkRequest "GET" (inl (mkExn UnsupportedMediaType "Unsupported Media Type")) [] [].

Definition credentials (username password : string) : list (string * json) :=
  [("username", JStr username); ("password", JStr password)].

(** A body that asks for more than an account. *)
Definition carol : list (string * json) :=
  [("username", JStr "carol"); ("email", JStr "carol@example.org");
   ("phone_number", JStr "555-0199"); ("password", JStr "pw-carol");
   ("is_staff", JBool true); ("credits", JInt 1000)].

Definition account (username email : string) : list (string * json) :=
  [("username", JStr username); ("email", JStr email); ("password", JStr "pw")].

(** A session that says staff for a user who is not. *)
Definition demoted : session.t :=
  session.make (Some "u-alice") (Some "alice") (Some true).

Definition empty_post : Request := mkRequest "POST" (inr JNull) [] [].


Definition approve (rid : string) : list (string * json) :=
  [("report_id", JStr rid); ("action", JStr "approve")].
Definition reject (rid : string) : list (string * json) :=
  [("report_id", JStr rid); ("action", JStr "reject")].
Definition complete (rid : string) : list (string * json) :=
  [("report_id", JStr rid); ("status", JStr "COMPLETED")].
End Scenario.

(* ===================================================================== *)
(** * Properties                                                          *)
(* ===================================================================== *)

(** ** The parsers on a few literals *)

Example py_float_decimal : py_float " -12.50e1 " = Some (FDec true 1250 (-1)).
Proof. reflexivity. Qed.

Example py_float_underscore : py_float "1_000." = Some (FDec false 1000 0).
Proof. reflexivity. Qed.

Example py_float_rejects :
  py_float "abc" = None /\ py_float "1__0" = None /\ py_float "1e" = None
  /\ py_float "." = None /\ py_float "undefined" = None.
Proof. repeat split; reflexivity. Qed.

Example py_float_blanks :
  py_float (String (ascii_of_nat 9) "12.5 ") = Some (FDec false 125 (-1))
  /\ py_float (String (ascii_of_nat 28) "12.5") = None
  /\ py_float (String "1" (String "2" (String (ascii_of_nat 31) EmptyString))) = None.
Proof. repeat split; reflexivity. Qed.

Example py_float_specials :
  py_float "-Infinity" = Some (FInf true) /\ py_float "NaN" = Some FNan
  /\ py_float ".5" = Some (FDec false 5 (-1)).
Proof. repeat split; reflexivity. Qed.

Example strptime_ymd_dates :
  strptime_ymd "2024-02-29" = Some (date.make 2024 2 29)
  /\ strptime_ymd "2023-02-29" = None
  /\ strptime_ymd "2024-1-5" = Some (date.make 2024 1 5)
  /\ strptime_ymd "2024-13-01" = None
  /\ strptime_ymd "next week" = None.
Proof. repeat split; reflexivity. Qed.

(** ** Stepping through a handler *)

Section Stepping.
Context {A B : Type}.

Lemma bind_val (m : M A) (f : A -> M B) st a st' :
  m st = Val a st' -> bind m f st = f a st'.
Proof. intros H. unfold bind. now rewrite H. Qed.

Lemma bind_raise (m : M A) (f : A -> M B) st e st' :
  m st = Raise e st' -> bind m f st = Raise e st'.
Proof. intros H. unfold bind. now rewrite H. Qed.

Lemma bind_ret (a : A) (f : A -> M B) st : bind (ret a) f st = f a st.
Proof. reflexivity. Qed.

Lemma bind_lift_inr (a : A) (f : A -> M B) st : bind (lift (inr a)) f st = f a st.
Proof. reflexivity. Qed.

Lemma bind_bind {C : Type} (m : M A) (f : A -> M B) (g : B -> M C) st :
  bind (bind m f) g st = bind m (fun a => bind (f a) g) st.
Proof. unfold bind. destruct (m st); reflexivity. Qed.
End Stepping.

Lemma first_user_clean env p s v :
  first_user env p (mkSession s v [])
  = Val (fst <$> list_find (fun u => p u = true) (custom_user v)) (mkSession s v []).
Proof. reflexivity. Qed.

Lemma first_report_clean env p s v :
  first_report env p (mkSession s v [])
  = Val (fst <$> list_find (fun r => p r = true) (pothole_report v)) (mkSession s v []).
Proof. reflexivity. Qed.

Lemma user_obj_val j u st :
  custom_user (view st) !! j = Some u -> user_obj j st = Val u st.
Proof. intros H. unfold user_obj. now rewrite H. Qed.

Lemma report_obj_val i r st :
  pothole_report (view st) !! i = Some r -> report_obj i st = Val r st.
Proof. intros H. unfold report_obj. now rewrite H. Qed.

Lemma find_user_lookup env db uid j u :
  find_user env db uid = Some (j, u) -> custom_user db !! j = Some u.
Proof. intros H. apply list_find_Some in H. tauto. Qed.

Lemma find_report_lookup env db rid i r :
  find_report env db rid = Some (i, r) -> pothole_report db !! i = Some r.
Proof. intros H. apply list_find_Some in H. tauto. Qed.

Lemma staff_required_pass env db s f :
  staff_session env db s ->
  staff_required env s f (mkSession db db []) = f (mkSession db db []).
Proof.
  intros (uid & j & u & Hs & Hf & Hstaff).
  unfold staff_required. rewrite Hs.
  erewrite bind_val; [| apply first_user_clean].
  unfold find_user in Hf. rewrite Hf. cbn [fmap option_fmap option_map fst].
  erewrite bind_val; [| apply user_obj_val; cbn; eapply find_user_lookup; exact Hf].
  now rewrite Hstaff.
Qed.

Lemma truthy_dict items k v : dict_get items k = Some v -> truthy (JDict items) = true.
Proof. destruct items; [discriminate | reflexivity]. Qed.

Lemma commit_val env s v p d :
  execute_all env p v = inr d -> dbms_rejects env COMMIT = None ->
  commit env (mkSession s v p) = Val tt (mkSession d d []).
Proof.
  intros Hp Hc. unfold commit.
  erewrite bind_val; [| unfold flush; cbn [pending view stored]; rewrite Hp; reflexivity].
  cbn [view]. unfold execute. rewrite Hc. reflexivity.
Qed.

Lemma commit_raise env s v p e :
  execute_all env p v = inl e ->
  commit env (mkSession s v p) = Raise e (mkSession s v p).
Proof.
  intros Hp. unfold commit.
  erewrite bind_raise; [reflexivity |].
  unfold flush. cbn [pending view stored]. rewrite Hp. reflexivity.
Qed.

(** ** The committed tables under exceptions *)

Create HintDb stored discriminated.

Lemma keeps_ret {A} (a : A) : keeps_stored (ret a).
Proof. intros st. reflexivity. Qed.

Lemma keeps_raise {A} e : keeps_stored (@raise A e).
Proof. intros st. reflexivity. Qed.

Lemma keeps_lift {A} (x : Exn + A) : keeps_stored (lift x).
Proof. destruct x; intros st; reflexivity. Qed.

Lemma keeps_bind {A B} (m : M A) (f : A -> M B) :
  keeps_stored m -> (forall a, keeps_stored (f a)) -> keeps_stored (bind m f).
Proof.
  intros Hm Hf st. unfold bind. specialize (Hm st).
  destruct (m st) as [a st1 | e st1]; [| exact Hm].
  specialize (Hf a st1). destruct (f a st1); congruence.
Qed.

Lemma keeps_flush env : keeps_stored (flush env).
Proof. intros st. unfold flush. destruct (execute_all _ _ _); reflexivity. Qed.

Lemma keeps_add s : keeps_stored (session_add s).
Proof. intros st. reflexivity. Qed.

Lemma keeps_rollback : keeps_stored rollback.
Proof. intros st. reflexivity. Qed.

Lemma keeps_stale {A} : keeps_stored (@stale A).
Proof. intros st. reflexivity. Qed.

Lemma keeps_no_attribute {A} attr : keeps_stored (@no_attribute A attr).
Proof. intros st. reflexivity. Qed.

Lemma keeps_user_obj j : keeps_stored (user_obj j).
Proof. intros st. unfold user_obj. destruct (_ !! _); reflexivity. Qed.

Lemma keeps_report_obj i : keeps_stored (report_obj i).
Proof. intros st. unfold report_obj. destruct (_ !! _); reflexivity. Qed.

Lemma keeps_add_report o : keeps_stored (add_report o).
Proof. intros st. reflexivity. Qed.

#[local] Hint Resolve keeps_ret keeps_raise keeps_lift keeps_flush keeps_add
  keeps_rollback keeps_stale keeps_no_attribute keeps_user_obj keeps_report_obj
  keeps_add_report : stored.

Ltac keeps :=
  repeat first
    [ progress intros
    | apply keeps_bind
    | solve [auto with stored]
    | match goal with
      | |- keeps_stored (if ?b then _ else _) => destruct b
      | |- keeps_stored (match ?x with _ => _ end) => destruct x
      end ].

Lemma keeps_first_user env p : keeps_stored (first_user env p).
Proof. unfold first_user. keeps. Qed.

Lemma keeps_first_report env p : keeps_stored (first_report env p).
Proof. unfold first_report. keeps. Qed.

Lemma keeps_set_report_status i v : keeps_stored (set_report_status i v).
Proof. unfold set_report_status. keeps. Qed.

Lemma keeps_set_user_credits j c : keeps_stored (set_user_credits j c).
Proof. unfold set_user_credits. keeps. Qed.

#[local] Hint Resolve keeps_first_user keeps_first_report keeps_set_report_status
  keeps_set_user_credits : stored.

Lemma keeps_raises_clean {A} (m : M A) : keeps_stored m -> raises_clean m.
Proof. intros H st e st' E. specialize (H st). now rewrite E in H. Qed.

Lemma raises_clean_bind {A B} (m : M A) (f : A -> M B) :
  keeps_stored m -> (forall a, raises_clean (f a)) -> raises_clean (bind m f).
Proof.
  intros Hm Hf st e st'. unfold bind. specialize (Hm st).
  destruct (m st) as [a st1 | e1 st1].
  - intros E. apply Hf in E. congruence.
  - intros E. congruence.
Qed.

Lemma raises_clean_then {A B} (m : M A) (f : A -> M B) :
  raises_clean m -> (forall a, never_raises (f a)) -> raises_clean (bind m f).
Proof.
  intros Hm Hf st e st'. unfold bind.
  destruct (m st) as [a st1 | e1 st1] eqn:E1.
  - intros E. now apply Hf in E.
  - intros E. injection E as <- <-. eapply Hm, E1.
Qed.

Lemma never_raises_ret {A} (a : A) : never_raises (ret a).
Proof. intros st e st'. discriminate. Qed.

Lemma raises_clean_commit env : raises_clean (commit env).
Proof.
  intros st e st'. unfold commit, bind, flush.
  destruct (execute_all _ _ _) as [e1 | d].
  - intros E. now injection E as <- <-.
  - destruct (execute _ _ _); [| discriminate].
    intros E. now injection E as <- <-.
Qed.

Ltac clean :=
  repeat first
    [ progress intros
    | apply raises_clean_then;
        [apply raises_clean_commit | intros; apply never_raises_ret]
    | apply raises_clean_bind; [solve [keeps] |]
    | solve [apply keeps_raises_clean; keeps]
    | match goal with
      | |- raises_clean (if ?b then _ else _) => destruct b
      | |- raises_clean (match ?x with _ => _ end) => destruct x
      end ].

(** An exception anywhere in the [try] block of [verify_report] finds the
    committed tables as they were when the request came in. *)
Lemma verify_report_try_raises_clean env request s :
  raises_clean (verify_report_try env request s).
Proof. unfold verify_report_try. clean. Qed.

(** The [except] clause: whatever the block raised, the response is the
    JSON error with status 500 and nothing of the request is committed. *)
Lemma verify_report_except env db s request e st' :
  staff_session env db s ->
  verify_report_try env request s (mkSession db db []) = Raise e st' ->
  serve (verify_report env request s) db
  = (Responded
       (jsonify (error_body ("Failed to update report: " ++ exn_str e)%string) 500),
     db).
Proof.
  intros Hstaff Htry.
  pose proof (verify_report_try_raises_clean env request s _ _ _ Htry) as Hst.
  unfold serve, verify_report.
  rewrite staff_required_pass by exact Hstaff.
  unfold try_except. rewrite Htry.
  cbn [bind rollback ret stored] in *. now rewrite Hst.
Qed.

(** The same holds for the handlers without a [try]: an exception before
    the commit leaves the tables untouched. *)
Lemma update_progress_raises_clean env request s :
  raises_clean (update_progress env request s).
Proof. unfold update_progress, staff_required. clean. Qed.

Lemma create_staff_user_raises_clean env request :
  raises_clean (create_staff_user env request).
Proof. unfold create_staff_user. clean. Qed.

(** ** Executing statements *)

Lemma execute_all_app env l1 l2 d :
  execute_all env (l1 ++ l2) d
  = bind_sum (execute_all env l1 d) (fun d' => execute_all env l2 d').
Proof.
  revert d. induction l1 as [| s l1 IH]; intros d; [reflexivity |].
  cbn [app execute_all]. destruct (execute env s d) as [e | d1]; [reflexivity |].
  cbn [bind_sum]. apply IH.
Qed.

Lemma execute_status_update env i new db :
  dbms_rejects env (UPDATE_pothole_report_status i (JStr (status_name new))) = None ->
  execute env (UPDATE_pothole_report_status i (JStr (status_name new))) db
  = inr (db_with_status env i new db).
Proof. intros H. unfold execute. rewrite H. destruct new; reflexivity. Qed.

Lemma execute_credits_update env j c db :
  dbms_rejects env (UPDATE_custom_user_credits j c) = None ->
  execute env (UPDATE_custom_user_credits j c) db = inr (db_with_credits j c db).
Proof. intros H. unfold execute. rewrite H. reflexivity. Qed.

Lemma execute_status_change env i r new db :
  (forall k v, dbms_rejects env (UPDATE_pothole_report_status k v) = None) ->
  execute_all env (status_change i r new) db = inr (after_status_change env i r new db).
Proof.
  intros H. unfold status_change, after_status_change.
  destruct (decide _); [reflexivity |].
  cbn [execute_all]. rewrite execute_status_update by apply H. reflexivity.
Qed.

Lemma after_status_change_users env i r new db :
  custom_user (after_status_change env i r new db) = custom_user db.
Proof. unfold after_status_change. destruct (decide _); reflexivity. Qed.

Lemma after_status_change_verifications env i r new db :
  municipal_verification (after_status_change env i r new db)
  = municipal_verification db.
Proof. unfold after_status_change. destruct (decide _); reflexivity. Qed.

Lemma after_status_change_report env i r new db :
  pothole_report db !! i = Some r ->
  exists r',
    pothole_report (after_status_change env i r new db) !! i = Some r'
    /\ PotholeReport.report_id r' = PotholeReport.report_id r
    /\ PotholeReport.user_id r' = PotholeReport.user_id r
    /\ PotholeReport.status r' = Some new.
Proof.
  intros Hr. unfold after_status_change. destruct (decide _) as [E | E].
  - exists r. repeat split; assumption || reflexivity.
  - exists (PotholeReport.set_status (Some new) (utcnow_updated_at env) r).
    cbn. rewrite list_lookup_alter_eq, Hr. repeat split; reflexivity.
Qed.

Lemma after_status_change_others env i r new db k :
  k <> i ->
  pothole_report (after_status_change env i r new db) !! k = pothole_report db !! k.
Proof.
  intros Hk. unfold after_status_change. destruct (decide _); [reflexivity |].
  cbn. apply list_lookup_alter_ne. congruence.
Qed.

Lemma status_after_change env i r new db :
  pothole_report db !! i = Some r ->
  PotholeReport.status <$> pothole_report (after_status_change env i r new db) !! i
  = Some (Some new).
Proof.
  intros Hr. destruct (after_status_change_report env i r new db Hr)
    as (r' & -> & _ & _ & Hst). cbn. now rewrite Hst.
Qed.

Lemma set_report_status_change i r new s v :
  pothole_report v !! i = Some r ->
  set_report_status i (JStr (status_name new)) (mkSession s v [])
  = Val tt (mkSession s v (status_change i r new)).
Proof.
  intros Hr. unfold set_report_status.
  erewrite bind_val; [| apply report_obj_val; exact Hr].
  unfold status_change.
  destruct (PotholeReport.status r) as [old |].
  - destruct old, new; reflexivity.
  - destruct new; reflexivity.
Qed.

Lemma of_name_name {E : Type} (name : E -> string) (values : list E) s e :
  of_name name values s = Some e -> name e = s.
Proof.
  unfold of_name. destruct (list_find _ _) as [[k x] |] eqn:H; [| discriminate].
  intros [= <-]. apply list_find_Some in H. tauto.
Qed.

Lemma unique_fresh {R : Type} env col (f : R -> string) rows v :
  unused env f rows v -> unique env col f rows v = inr tt.
Proof. unfold unused, unique. now intros ->. Qed.

Lemma list_find_fresh {R : Type} env (f : R -> string) rows v :
  unused env f rows v ->
  list_find (fun r => collation_eq env (f r) v = true) rows = None.
Proof.
  unfold unused. intros H. apply list_find_None, Forall_forall.
  intros r Hr Heq. apply list_elem_of_In in Hr.
  assert (existsb (fun r => collation_eq env (f r) v) rows = true)
    by (apply existsb_exists; eauto).
  congruence.
Qed.

(** ** [verify_report] *)

(** The approve branch, up to the credit grant. *)
Lemma approve_branch env db i r :
  pothole_report db !! i = Some r ->
  (forall k v, dbms_rejects env (UPDATE_pothole_report_status k v) = None) ->
  (set_report_status i (JStr "VERIFIED") ;;
   r0 <- report_obj i ;;
   user <- first_user env (by_user_id env (PotholeReport.user_id r0)) ;;
   match user with
   | Some j => u <- user_obj j ;; set_user_credits j (CustomUser.credits u + 10)
   | None => ret tt
   end) (mkSession db db [])
  = Val tt (mkSession db (after_status_change env i r VERIFIED db)
              match find_user env db (PotholeReport.user_id r) with
              | Some (j, u) => [UPDATE_custom_user_credits j (CustomUser.credits u + 10)]
              | None => []
              end).
Proof.
  intros Hr Hupd.
  erewrite bind_val; [| apply (set_report_status_change i r VERIFIED); exact Hr].
  erewrite bind_val; [| apply report_obj_val; exact Hr].
  erewrite bind_val; cycle 1.
  { unfold first_user. erewrite bind_val; [reflexivity |].
    unfold flush. cbn [pending view stored].
    rewrite execute_status_change by exact Hupd. reflexivity. }
  cbn [view]. rewrite after_status_change_users.
  unfold find_user. destruct (list_find _ _) as [[j u] |] eqn:Hfind; [| reflexivity].
  cbn [fmap option_fmap option_map fst].
  assert (Hu : custom_user db !! j = Some u)
    by (apply list_find_Some in Hfind; tauto).
  erewrite bind_val; cycle 1.
  { apply user_obj_val. cbn [view]. rewrite after_status_change_users. exact Hu. }
  unfold set_user_credits.
  erewrite bind_val; cycle 1.
  { apply user_obj_val. cbn [view]. rewrite after_status_change_users. exact Hu. }
  replace (CustomUser.credits u =? CustomUser.credits u + 10) with false
    by (symmetry; apply Z.eqb_neq; lia).
  reflexivity.
Qed.

Lemma date_block (dg : json) st :
  date_field_ok dg = true ->
  (if truthy dg then
     match dg with
     | JStr text => ret (strptime_ymd text)
     | v => raise (mkExn TypeError
                     ("strptime() argument 1 must be str, not " ++ type_name v)%string)
     end
   else ret None) st
  = Val (match dg with
         | JStr text => if String.eqb text EmptyString then None else strptime_ymd text
         | _ => None
         end) st.
Proof.
  unfold date_field_ok.
  destruct dg as [| b | n | f | text | l | l]; cbn [truthy negb orb]; intros H.
  - reflexivity.
  - destruct b; [discriminate | reflexivity].
  - destruct (n =? 0); [reflexivity | discriminate].
  - destruct (float_is_zero f); [reflexivity | discriminate].
  - destruct (String.eqb text EmptyString); reflexivity.
  - destruct l; [reflexivity | discriminate].
  - destruct l; [reflexivity | discriminate].
Qed.

Lemma mapping_get_hashable mapping action d :
  hashable action = true ->
  mapping_get mapping action d
  = inr (match action with
         | JStr a => get_default mapping a d
         | _ => d
         end).
Proof. destruct action; try discriminate; reflexivity. Qed.

(** For a body with the expected fields, the [try] block comes down to
    queueing [verify_changes] and the Verification record, and
    committing. *)
Lemma verify_report_try_commits env db s request items rid i r action :
  get_json request = inr (JDict items) ->
  dict_get items "report_id" = Some (JStr rid) ->
  find_report env db rid = Some (i, r) ->
  dict_get items "action" = Some action ->
  hashable action = true ->
  date_field_ok (get items "estimated_repair_date") = true ->
  (forall k v, dbms_rejects env (UPDATE_pothole_report_status k v) = None) ->
  exists v p,
    verify_report_try env request s (mkSession db db [])
    = (commit env ;; ret verified_response) (mkSession db v p)
    /\ execute_all env p v
       = execute_all env
           (verify_changes env db i r action
              ++ [INSERT_municipal_verification (verification_of s items r action)]) db.
Proof.
  intros Hjson Hrid Hfind Haction Hhash Hdate Hupd.
  pose proof (find_report_lookup _ _ _ _ _ Hfind) as Hr.
  unfold verify_report_try.
  rewrite Hjson, bind_lift_inr, (truthy_dict _ _ _ Hrid). cbn [negb subscript].
  rewrite Hrid, bind_lift_inr.
  erewrite bind_val; [| apply first_report_clean].
  unfold find_report in Hfind. rewrite Hfind.
  cbn [fmap option_fmap option_map fst].
  rewrite Haction, bind_lift_inr.
  (* the rest of the block, from a session whose row [i] keeps its key *)
  assert (Htail : forall v p r',
    pothole_report v !! i = Some r' ->
    PotholeReport.report_id r' = PotholeReport.report_id r ->
    (date_given <- lift (py_get (JDict items) "estimated_repair_date" JNull) ;;
     estimated_date <-
       (if truthy date_given then
          match date_given with
          | JStr text => ret (strptime_ymd text)
          | v => raise (mkExn TypeError
                          ("strptime() argument 1 must be str, not "
                             ++ type_name v)%string)
          end
        else ret None) ;;
     r0 <- report_obj i ;;
     verified_by <- lift (py_get (JDict items) "verified_by"
                            (JStr (default "Unknown" (session.username s)))) ;;
     action' <- lift (inr action) ;;
     vstatus <- lift (mapping_get action_mapping action' (JStr "APPROVED")) ;;
     notes <- lift (py_get (JDict items) "notes" (JStr EmptyString)) ;;
     session_add (INSERT_municipal_verification
            (NewVerification.make (PotholeReport.report_id r0) verified_by vstatus
               notes estimated_date)) ;;
     commit env ;;
     ret (jsonify (message_body "Report verification updated successfully") 200))
      (mkSession db v p)
    = (commit env ;; ret verified_response)
        (mkSession db v
           (p ++ [INSERT_municipal_verification (verification_of s items r action)]))).
  { intros v p r' Hr' Hid.
    cbn [py_get]. rewrite bind_lift_inr.
    erewrite bind_val; [| apply date_block; exact Hdate].
    erewrite bind_val; [| apply report_obj_val; exact Hr'].
    rewrite !bind_lift_inr.
    rewrite mapping_get_hashable by exact Hhash.
    rewrite !bind_lift_inr.
    erewrite bind_val; [| reflexivity].
    cbn [stored view pending]. rewrite Hid. reflexivity. }
  unfold verify_changes.
  destruct (eq_str action "approve").
  { erewrite bind_val; [| apply (approve_branch env db i r Hr Hupd)].
    destruct (after_status_change_report env i r VERIFIED db Hr)
      as (r' & Hr' & Hid & _ & _).
    rewrite (Htail _ _ r' Hr' Hid).
    eexists _, _. split; [reflexivity |].
    rewrite !execute_all_app.
    rewrite execute_status_change by exact Hupd. reflexivity. }
  assert (Hset : forall new,
    set_report_status i (JStr (status_name new)) (mkSession db db [])
    = Val tt (mkSession db db (status_change i r new))).
  { intros new. apply set_report_status_change. exact Hr. }
  destruct (eq_str action "reject").
  { erewrite bind_val; [| apply (Hset REJECTED)].
    rewrite (Htail _ _ r Hr eq_refl). eexists _, _. split; reflexivity. }
  destruct (eq_str action "need_info").
  { erewrite bind_val; [| apply (Hset PENDING)].
    rewrite (Htail _ _ r Hr eq_refl). eexists _, _. split; reflexivity. }
  rewrite bind_ret.
  rewrite (Htail _ _ r Hr eq_refl). eexists _, _. split; reflexivity.
Qed.

Lemma execute_verify_changes env db i r action :
  (forall k v, dbms_rejects env (UPDATE_pothole_report_status k v) = None) ->
  (forall j c, dbms_rejects env (UPDATE_custom_user_credits j c) = None) ->
  execute_all env (verify_changes env db i r action) db
  = inr (after_verify_changes env db i r action).
Proof.
  intros Hs Hc. unfold verify_changes, after_verify_changes.
  destruct (eq_str action "approve").
  { rewrite execute_all_app, execute_status_change by exact Hs. cbn [bind_sum].
    destruct (find_user _ _ _) as [[j u] |]; [| reflexivity].
    cbn [execute_all]. rewrite execute_credits_update by apply Hc. reflexivity. }
  destruct (eq_str action "reject"); [apply execute_status_change, Hs |].
  destruct (eq_str action "need_info"); [apply execute_status_change, Hs |].
  reflexivity.
Qed.

Lemma after_verify_changes_verifications env db i r action :
  municipal_verification (after_verify_changes env db i r action)
  = municipal_verification db.
Proof.
  unfold after_verify_changes.
  destruct (eq_str action "approve").
  { destruct (find_user _ _ _) as [[j u] |]; cbn;
      apply after_status_change_verifications. }
  destruct (eq_str action "reject"); [apply after_status_change_verifications |].
  destruct (eq_str action "need_info"); [apply after_status_change_verifications |].
  reflexivity.
Qed.

Lemma string_column_text env v :
  is_text v = true -> string_column env v = text_of v.
Proof. destruct v; try discriminate; reflexivity. Qed.

Lemma mapped_decision action :
  enum_column verification_status_of_string "verification_status"
    (match action with
     | JStr a => get_default action_mapping a (JStr "APPROVED")
     | _ => JStr "APPROVED"
     end)
  = inr (Some (decision_of action)).
Proof.
  unfold decision_of. destruct action as [| | | | a | |]; try reflexivity.
  cbn [eq_str]. unfold get_default, action_mapping. cbn [dict_get].
  rewrite (String.eqb_sym "approve" a), (String.eqb_sym "reject" a),
    (String.eqb_sym "need_info" a).
  destruct (String.eqb a "approve"); [reflexivity |].
  destruct (String.eqb a "reject"); [reflexivity |].
  destruct (String.eqb a "need_info"); reflexivity.
Qed.

Lemma execute_insert_verification env d s items r action :
  dbms_rejects env (INSERT_municipal_verification (verification_of s items r action))
  = None ->
  execute env (INSERT_municipal_verification (verification_of s items r action)) d
  = inr (with_verifications d
           (municipal_verification d ++ [verification_row env d s items r action])).
Proof.
  intros Hacc. unfold execute. rewrite Hacc.
  cbn [apply_statement verification_of NewVerification.verified_by
         NewVerification.verification_status NewVerification.verification_notes
         NewVerification.report_id NewVerification.estimated_repair_date].
  rewrite mapped_decision. reflexivity.
Qed.

Lemma verify_report_serve env db s request items rid i r action :
  staff_session env db s ->
  get_json request = inr (JDict items) ->
  dict_get items "report_id" = Some (JStr rid) ->
  find_report env db rid = Some (i, r) ->
  dict_get items "action" = Some action ->
  hashable action = true ->
  date_field_ok (get items "estimated_repair_date") = true ->
  dbms_accepts env ->
  serve (verify_report env request s) db
  = (Responded verified_response, verified_db env db s items i r action).
Proof.
  intros Hstaff Hjson Hrid Hfind Haction Hhash Hdate Hacc.
  destruct (verify_report_try_commits env db s request items rid i r action)
    as (v & p & Htry & Hexec); auto.
  unfold serve, verify_report.
  rewrite staff_required_pass by exact Hstaff.
  unfold try_except. rewrite Htry.
  rewrite execute_all_app, execute_verify_changes in Hexec by (intros; apply Hacc).
  cbn [bind_sum execute_all] in Hexec.
  rewrite execute_insert_verification in Hexec by (auto || apply Hacc).
  cbn [bind_sum] in Hexec.
  erewrite bind_val; [| eapply commit_val; [exact Hexec | apply Hacc]].
  reflexivity.
Qed.

Lemma verify_report_not_found env db s request items rid :
  staff_session env db s ->
  get_json request = inr (JDict items) ->
  dict_get items "report_id" = Some (JStr rid) ->
  find_report env db rid = None ->
  serve (verify_report env request s) db
  = (Responded (jsonify (error_body "Report not found") 404), db).
Proof.
  intros Hstaff Hjson Hrid Hfind.
  unfold serve, verify_report.
  rewrite staff_required_pass by exact Hstaff.
  unfold try_except, verify_report_try.
  rewrite Hjson, bind_lift_inr, (truthy_dict _ _ _ Hrid). cbn [negb subscript].
  rewrite Hrid, bind_lift_inr.
  erewrite bind_val; [| apply first_report_clean].
  unfold find_report in Hfind. rewrite Hfind. reflexivity.
Qed.

Lemma eq_str_true v s : eq_str v s = true -> v = JStr s.
Proof.
  destruct v; try discriminate. cbn. intros H. apply String.eqb_eq in H. now subst.
Qed.

Lemma eq_str_other action a :
  action <> JStr a -> eq_str action a = false.
Proof.
  intros H. destruct (eq_str action a) eqn:E; [| reflexivity].
  apply eq_str_true in E. contradiction.
Qed.

(** ** Bodies that [verify_report] cannot use *)

Lemma always_raises_raise {A} e : always_raises (@raise A e).
Proof. intros st. eexists _, _. reflexivity. Qed.

Lemma always_raises_bind_l {A B} (m : M A) (f : A -> M B) :
  always_raises m -> always_raises (bind m f).
Proof.
  intros Hm st. destruct (Hm st) as (e & st' & E).
  exists e, st'. now apply bind_raise.
Qed.

Lemma always_raises_bind_r {A B} (m : M A) (f : A -> M B) :
  (forall a, always_raises (f a)) -> always_raises (bind m f).
Proof.
  intros Hf st. unfold bind. destruct (m st) as [a st1 | e st1].
  - apply Hf.
  - eexists _, _. reflexivity.
Qed.

(** A value of [estimated_repair_date] that Python takes for true and
    that is no string: [strptime] raises [TypeError], which the inner
    [except ValueError] does not catch. *)
Lemma date_block_raises {B} (dg : json) (f : option date.t -> M B) :
  date_field_ok dg = false ->
  always_raises
    (estimated_date <-
       (if truthy dg then
          match dg with
          | JStr text => ret (strptime_ymd text)
          | v => raise (mkExn TypeError
                          ("strptime() argument 1 must be str, not "
                             ++ type_name v)%string)
          end
        else ret None) ;;
     f estimated_date).
Proof.
  unfold date_field_ok. intros H. apply always_raises_bind_l.
  destruct (truthy dg); [| discriminate].
  destruct dg; try discriminate; apply always_raises_raise.
Qed.

(** The block up to the point where the action has been read. *)
Lemma verify_report_try_found env db s request items rid i r action :
  get_json request = inr (JDict items) ->
  dict_get items "report_id" = Some (JStr rid) ->
  find_report env db rid = Some (i, r) ->
  dict_get items "action" = Some action ->
  verify_report_try env request s (mkSession db db [])
  = ((if eq_str action "approve" then
        set_report_status i (JStr "VERIFIED") ;;
        r0 <- report_obj i ;;
        user <- first_user env (by_user_id env (PotholeReport.user_id r0)) ;;
        match user with
        | Some j =>
            u <- user_obj j ;;
            set_user_credits j (CustomUser.credits u + 10)
        | None => ret tt
        end
      else if eq_str action "reject" then set_report_status i (JStr "REJECTED")
      else if eq_str action "need_info" then set_report_status i (JStr "PENDING")
      else ret tt) ;;
     date_given <- lift (py_get (JDict items) "estimated_repair_date" JNull) ;;
     estimated_date <-
       (if truthy date_given then
          match date_given with
          | JStr text => ret (strptime_ymd text)
          | v => raise (mkExn TypeError
                          ("strptime() argument 1 must be str, not "
                             ++ type_name v)%string)
          end
        else ret None) ;;
     r0 <- report_obj i ;;
     verified_by <- lift (py_get (JDict items) "verified_by"
                            (JStr (default "Unknown" (session.username s)))) ;;
     action' <- lift (subscript (JDict items) "action") ;;
     vstatus <- lift (mapping_get action_mapping action' (JStr "APPROVED")) ;;
     notes <- lift (py_get (JDict items) "notes" (JStr EmptyString)) ;;
     session_add (INSERT_municipal_verification
            (NewVerification.make (PotholeReport.report_id r0) verified_by vstatus
               notes estimated_date)) ;;
     commit env ;;
     ret (jsonify (message_body "Report verification updated successfully") 200))
      (mkSession db db []).
Proof.
  intros Hjson Hrid Hfind Haction.
  unfold verify_report_try.
  rewrite Hjson, bind_lift_inr, (truthy_dict _ _ _ Hrid). cbn [negb subscript].
  rewrite Hrid, bind_lift_inr.
  erewrite bind_val; [| apply first_report_clean].
  unfold find_report in Hfind. rewrite Hfind.
  cbn [fmap option_fmap option_map fst].
  rewrite Haction, bind_lift_inr. reflexivity.
Qed.

Lemma verify_report_bad_date env db s request items rid i r action :
  staff_session env db s ->
  get_json request = inr (JDict items) ->
  dict_get items "report_id" = Some (JStr rid) ->
  find_report env db rid = Some (i, r) ->
  dict_get items "action" = Some action ->
  date_field_ok (get items "estimated_repair_date") = false ->
  exists e,
    serve (verify_report env request s) db = (Responded (failed_response e), db).
Proof.
  intros Hstaff Hjson Hrid Hfind Haction Hdate.
  assert (Hraise : exists e st',
            verify_report_try env request s (mkSession db db []) = Raise e st').
  { rewrite (verify_report_try_found env db s request items rid i r action)
      by assumption.
    apply always_raises_bind_r. intros _ st.
    cbn [py_get]. rewrite bind_lift_inr.
    now apply date_block_raises. }
  destruct Hraise as (e & st' & Hraise). exists e.
  eapply verify_report_except; eassumption.
Qed.

Lemma verify_report_unhashable_action env db s request items rid i r action :
  staff_session env db s ->
  get_json request = inr (JDict items) ->
  dict_get items "report_id" = Some (JStr rid) ->
  find_report env db rid = Some (i, r) ->
  dict_get items "action" = Some action ->
  hashable action = false ->
  exists e,
    serve (verify_report env request s) db = (Responded (failed_response e), db).
Proof.
  intros Hstaff Hjson Hrid Hfind Haction Hhash.
  assert (Hraise : exists e st',
            verify_report_try env request s (mkSession db db []) = Raise e st').
  { rewrite (verify_report_try_found env db s request items rid i r action)
      by assumption.
    apply always_raises_bind_r. intros _ st.
    cbn [py_get subscript]. rewrite bind_lift_inr, Haction.
    revert st. apply always_raises_bind_r. intros estimated_date.
    apply always_raises_bind_r. intros r0 st.
    rewrite !bind_lift_inr.
    destruct action; try discriminate; eexists _, _; reflexivity. }
  destruct Hraise as (e & st' & Hraise). exists e.
  eapply verify_report_except; eassumption.
Qed.

(** C2, as amended.  For a call by a staff session whose body names a
    report: an unknown [report_id] gives 404 and leaves the tables as they
    were.  For a report that exists, when [estimated_repair_date] is
    absent, a value that Python takes for false, or a string: [approve]
    sets the status to VERIFIED and adds exactly 10 to the credits of the
    owning user, [reject] sets REJECTED and [need_info] sets PENDING, both
    without touching the user table.  With any other
    [estimated_repair_date] the call is answered by the [except] clause
    with status 500 and nothing is changed, whatever the action. *)
Theorem verify_report_effects env db s request items rid :
  staff_session env db s ->
  get_json request = inr (JDict items) ->
  dict_get items "report_id" = Some (JStr rid) ->
  (find_report env db rid = None ->
   serve (verify_report env request s) db
   = (Responded (jsonify (error_body "Report not found") 404), db))
  /\ (forall i r,
        find_report env db rid = Some (i, r) ->
        date_field_ok (get items "estimated_repair_date") = true ->
        dbms_accepts env ->
        (dict_get items "action" = Some (JStr "approve") ->
         forall j u,
           find_user env db (PotholeReport.user_id r) = Some (j, u) ->
           verify_outcome env request s db i VERIFIED
             (alter (CustomUser.set_credits (CustomUser.credits u + 10)) j
                (custom_user db))
           /\ CustomUser.credits
                <$> custom_user (snd (serve (verify_report env request s) db)) !! j
              = Some (CustomUser.credits u + 10))
        /\ (dict_get items "action" = Some (JStr "reject") ->
            verify_outcome env request s db i REJECTED (custom_user db))
        /\ (dict_get items "action" = Some (JStr "need_info") ->
            verify_outcome env request s db i PENDING (custom_user db)))
  /\ (forall i r action,
        find_report env db rid = Some (i, r) ->
        dict_get items "action" = Some action ->
        date_field_ok (get items "estimated_repair_date") = false ->
        exists e,
          serve (verify_report env request s) db
          = (Responded (failed_response e), db)).
Proof.
  intros Hstaff Hjson Hrid. split.
  { apply (verify_report_not_found env db s request items rid); assumption. }
  split; cycle 1.
  { intros i r action Hfind Haction Hdate.
    eapply verify_report_bad_date; eassumption. }
  intros i r Hfind Hdate Hacc.
  pose proof (find_report_lookup _ _ _ _ _ Hfind) as Hr.
  split; [| split].
  - intros Haction j u Howner.
    pose proof (verify_report_serve env db s request items rid i r (JStr "approve")
                  Hstaff Hjson Hrid Hfind Haction eq_refl Hdate Hacc) as Hserve.
    assert (Husers :
      custom_user (verified_db env db s items i r (JStr "approve"))
      = alter (CustomUser.set_credits (CustomUser.credits u + 10)) j (custom_user db)).
    { unfold verified_db, after_verify_changes.
      cbn [eq_str String.eqb Ascii.eqb Bool.eqb].
      rewrite Howner. cbn. now rewrite after_status_change_users. }
    split.
    + eexists. split; [exact Hserve |].
      split; [| exact Husers].
      unfold verified_db, after_verify_changes.
      cbn [eq_str String.eqb Ascii.eqb Bool.eqb].
      rewrite Howner. cbn. apply status_after_change, Hr.
    + rewrite Hserve. cbn [snd]. rewrite Husers, list_lookup_alter_eq.
      now rewrite (find_user_lookup _ _ _ _ _ Howner).
  - intros Haction. eexists. split.
    { apply (verify_report_serve env db s request items rid i r (JStr "reject"));
        auto. }
    unfold verified_db, after_verify_changes. cbn [eq_str String.eqb Ascii.eqb Bool.eqb].
    cbn. split; [apply status_after_change, Hr | apply after_status_change_users].
  - intros Haction. eexists. split.
    { apply (verify_report_serve env db s request items rid i r (JStr "need_info"));
        auto. }
    unfold verified_db, after_verify_changes. cbn [eq_str String.eqb Ascii.eqb Bool.eqb].
    cbn. split; [apply status_after_change, Hr | apply after_status_change_users].
Qed.

(** C5.  A call on an existing report with one of the three actions, in
    which the DBMS has taken the status change and the credit grant into
    the transaction and then refuses the INSERT of the Verification
    record: the response is the JSON error with status 500 and the
    committed tables are exactly those from before the call. *)
Theorem verify_report_rolls_back env db s request items rid i r action new e :
  staff_session env db s ->
  get_json request = inr (JDict items) ->
  dict_get items "report_id" = Some (JStr rid) ->
  find_report env db rid = Some (i, r) ->
  dict_get items "action" = Some (JStr action) ->
  In (action, new) [("approve", VERIFIED); ("reject", REJECTED); ("need_info", PENDING)] ->
  date_field_ok (get items "estimated_repair_date") = true ->
  (forall k v, dbms_rejects env (UPDATE_pothole_report_status k v) = None) ->
  (forall j c, dbms_rejects env (UPDATE_custom_user_credits j c) = None) ->
  dbms_rejects env
    (INSERT_municipal_verification (verification_of s items r (JStr action))) = Some e ->
  (exists d,
     execute_all env (verify_changes env db i r (JStr action)) db = inr d
     /\ PotholeReport.status <$> pothole_report d !! i = Some (Some new)
     /\ (action = "approve" ->
         forall j u,
           find_user env db (PotholeReport.user_id r) = Some (j, u) ->
           CustomUser.credits <$> custom_user d !! j = Some (CustomUser.credits u + 10)))
  /\ serve (verify_report env request s) db
     = (Responded
          (jsonify (error_body ("Failed to update report: " ++ exn_str e)%string) 500),
        db).
Proof.
  intros Hstaff Hjson Hrid Hfind Haction Hin Hdate Hus Huc Hrej.
  pose proof (find_report_lookup _ _ _ _ _ Hfind) as Hr.
  pose proof (execute_verify_changes env db i r (JStr action) Hus Huc) as Hexec.
  split.
  - eexists. split; [exact Hexec |].
    unfold after_verify_changes.
    cbn [In] in Hin. destruct Hin as [[= <- <-] | [[= <- <-] | [[= <- <-] | []]]];
      cbn [eq_str String.eqb Ascii.eqb Bool.eqb].
    + split.
      * destruct (find_user _ _ _) as [[j u] |]; cbn; apply status_after_change, Hr.
      * intros _ j u Hu. rewrite Hu. cbn.
        rewrite after_status_change_users, list_lookup_alter_eq.
        now rewrite (find_user_lookup _ _ _ _ _ Hu).
    + split; [apply status_after_change, Hr | discriminate].
    + split; [apply status_after_change, Hr | discriminate].
  - destruct (verify_report_try_commits env db s request items rid i r (JStr action))
      as (v & p & Htry & Hp); auto.
    rewrite execute_all_app, Hexec in Hp. cbn [bind_sum execute_all] in Hp.
    unfold execute in Hp at 1. rewrite Hrej in Hp. cbn [bind_sum] in Hp.
    eapply verify_report_except; [exact Hstaff |].
    rewrite Htry. apply bind_raise, commit_raise, Hp.
Qed.

(** C7, as amended.  A call on an existing report with one of the three
    actions, whose [estimated_repair_date] is absent, a value that Python
    takes for false, or a string, appends exactly one Verification record,
    for that report, with the decision the action maps to.  With any
    other [estimated_repair_date] the answer has status 500 and no record
    is appended. *)
Theorem verify_report_appends_verification env db s request items rid i r action decision :
  staff_session env db s ->
  get_json request = inr (JDict items) ->
  dict_get items "report_id" = Some (JStr rid) ->
  find_report env db rid = Some (i, r) ->
  dict_get items "action" = Some (JStr action) ->
  In (action, decision)
    [("approve", verification_status_enum.APPROVED);
     ("reject", verification_status_enum.REJECTED);
     ("need_info", verification_status_enum.NEED_INFO)] ->
  (date_field_ok (get items "estimated_repair_date") = true ->
   dbms_accepts env ->
   exists db' v,
     serve (verify_report env request s) db = (Responded verified_response, db')
     /\ municipal_verification db' = municipal_verification db ++ [v]
     /\ MunicipalVerification.report_id v = PotholeReport.report_id r
     /\ MunicipalVerification.verification_status v = Some decision)
  /\ (date_field_ok (get items "estimated_repair_date") = false ->
      exists e db',
        serve (verify_report env request s) db = (Responded (failed_response e), db')
        /\ municipal_verification db' = municipal_verification db).
Proof.
  intros Hstaff Hjson Hrid Hfind Haction Hin. split.
  - intros Hdate Hacc. eexists _, _. split.
    { apply (verify_report_serve env db s request items rid i r (JStr action)); auto. }
    unfold verified_db. cbn [with_verifications municipal_verification].
    rewrite after_verify_changes_verifications.
    split; [reflexivity |]. split; [reflexivity |].
    cbn [In] in Hin. destruct Hin as [[= <- <-] | [[= <- <-] | [[= <- <-] | []]]];
      reflexivity.
  - intros Hdate.
    destruct (verify_report_bad_date env db s request items rid i r (JStr action))
      as (e & He); auto.
    exists e, db. split; [exact He | reflexivity].
Qed.

(** C9, as amended.  A call on an existing report whose action is none of
    the three, with an [estimated_repair_date] that is absent, a value
    that Python takes for false, or a string.  When the action is a string,
    a number, a boolean or [null], the report table and the user table
    are left as they are, one Verification record with the decision
    APPROVED is appended, and the response is the success message.  When
    it is an array or an object, it cannot be looked up in the mapping:
    the answer has status 500 and nothing is appended. *)
Theorem verify_report_unknown_action env db s request items rid i r action :
  staff_session env db s ->
  get_json request = inr (JDict items) ->
  dict_get items "report_id" = Some (JStr rid) ->
  find_report env db rid = Some (i, r) ->
  dict_get items "action" = Some action ->
  (forall a, In a ["approve"; "reject"; "need_info"] -> action <> JStr a) ->
  (hashable action = true ->
   date_field_ok (get items "estimated_repair_date") = true ->
   dbms_accepts env ->
   exists db' v,
     serve (verify_report env request s) db = (Responded verified_response, db')
     /\ pothole_report db' = pothole_report db
     /\ custom_user db' = custom_user db
     /\ municipal_verification db' = municipal_verification db ++ [v]
     /\ MunicipalVerification.report_id v = PotholeReport.report_id r
     /\ MunicipalVerification.verification_status v
        = Some verification_status_enum.APPROVED)
  /\ (hashable action = false ->
      exists e,
        serve (verify_report env request s) db = (Responded (failed_response e), db)).
Proof.
  intros Hstaff Hjson Hrid Hfind Haction Hother. split.
  - intros Hhash Hdate Hacc.
    assert (Ha : eq_str action "approve" = false)
      by (apply eq_str_other, Hother; cbn; auto).
    assert (Hr : eq_str action "reject" = false)
      by (apply eq_str_other, Hother; cbn; auto).
    assert (Hn : eq_str action "need_info" = false)
      by (apply eq_str_other, Hother; cbn; auto).
    eexists _, _. split.
    { apply (verify_report_serve env db s request items rid i r action); auto. }
    unfold verified_db, verification_row, after_verify_changes, decision_of.
    rewrite Ha, Hr, Hn. repeat split; reflexivity.
  - intros Hhash. eapply verify_report_unhashable_action; eassumption.
Qed.

(** ** [update_progress] *)

Lemma eq_str_status_name st :
  eq_str (JStr (status_name st)) "COMPLETED" = bool_decide (st = COMPLETED).
Proof. destruct st; reflexivity. Qed.

Lemma update_progress_serve env db s request items rid i r name st :
  staff_session env db s ->
  get_json request = inr (JDict items) ->
  dict_get items "report_id" = Some (JStr rid) ->
  find_report env db rid = Some (i, r) ->
  dict_get items "status" = Some (JStr name) ->
  status_of_string name = Some st ->
  (st = COMPLETED -> is_Some (find_user env db (PotholeReport.user_id r))) ->
  dbms_accepts env ->
  serve (update_progress env request s) db
  = (Responded progress_response, progress_db env db i r st).
Proof.
  intros Hstaff Hjson Hrid Hfind Hstatus Hname Howner Hacc.
  pose proof (find_report_lookup _ _ _ _ _ Hfind) as Hr.
  apply of_name_name in Hname. subst name.
  assert (Hupd : forall k v, dbms_rejects env (UPDATE_pothole_report_status k v) = None)
    by (intros; apply Hacc).
  unfold serve, update_progress.
  rewrite staff_required_pass by exact Hstaff.
  rewrite Hjson, bind_lift_inr. cbn [subscript].
  rewrite Hrid, bind_lift_inr.
  erewrite bind_val; [| apply first_report_clean].
  unfold find_report in Hfind. rewrite Hfind.
  cbn [fmap option_fmap option_map fst].
  rewrite Hstatus, bind_lift_inr.
  erewrite bind_val; [| apply (set_report_status_change i r st); exact Hr].
  rewrite bind_lift_inr, eq_str_status_name.
  unfold progress_db.
  destruct (decide (st = COMPLETED)) as [-> | Hne].
  - rewrite bool_decide_eq_true_2 by reflexivity.
    destruct (Howner eq_refl) as [[j u] Hu].
    pose proof (find_user_lookup _ _ _ _ _ Hu) as Hju.
    rewrite bind_bind.
    erewrite bind_val; [| apply report_obj_val; exact Hr].
    rewrite bind_bind.
    erewrite bind_val; cycle 1.
    { unfold first_user. erewrite bind_val; [reflexivity |].
      unfold flush. cbn [pending view stored].
      rewrite execute_status_change by exact Hupd. reflexivity. }
    cbn [view]. rewrite after_status_change_users.
    rewrite Hu. unfold find_user in Hu. rewrite Hu.
    cbn [fmap option_fmap option_map fst].
    rewrite bind_bind.
    erewrite bind_val; cycle 1.
    { apply user_obj_val. cbn [view]. rewrite after_status_change_users. exact Hju. }
    unfold set_user_credits. rewrite bind_bind.
    erewrite bind_val; cycle 1.
    { apply user_obj_val. cbn [view]. rewrite after_status_change_users. exact Hju. }
    replace (CustomUser.credits u =? CustomUser.credits u + 5) with false
      by (symmetry; apply Z.eqb_neq; lia).
    erewrite bind_val; [| reflexivity].
    erewrite bind_val; cycle 1.
    { eapply commit_val; [| apply Hacc]. cbn [execute_all app pending view stored].
      rewrite execute_credits_update by apply Hacc. reflexivity. }
    reflexivity.
  - rewrite bool_decide_eq_false_2 by exact Hne.
    rewrite bind_ret.
    erewrite bind_val; cycle 1.
    { eapply commit_val; [| apply Hacc]. apply execute_status_change, Hupd. }
    reflexivity.
Qed.

Lemma update_progress_not_found env db s request items rid :
  staff_session env db s ->
  get_json request = inr (JDict items) ->
  dict_get items "report_id" = Some (JStr rid) ->
  find_report env db rid = None ->
  serve (update_progress env request s) db
  = (Responded (jsonify (error_body "Report not found") 404), db).
Proof.
  intros Hstaff Hjson Hrid Hfind.
  unfold serve, update_progress.
  rewrite staff_required_pass by exact Hstaff.
  rewrite Hjson, bind_lift_inr. cbn [subscript].
  rewrite Hrid, bind_lift_inr.
  erewrite bind_val; [| apply first_report_clean].
  unfold find_report in Hfind. rewrite Hfind. reflexivity.
Qed.

(** A body without [status]: [data['status']] raises and nothing catches
    it. *)
Lemma update_progress_missing_status env db s request items rid i r :
  staff_session env db s ->
  get_json request = inr (JDict items) ->
  dict_get items "report_id" = Some (JStr rid) ->
  find_report env db rid = Some (i, r) ->
  dict_get items "status" = None ->
  serve (update_progress env request s) db
  = (Uncaught (mkExn KeyError "'status'"), db).
Proof.
  intros Hstaff Hjson Hrid Hfind Hstatus.
  unfold serve, update_progress.
  rewrite staff_required_pass by exact Hstaff.
  rewrite Hjson, bind_lift_inr. cbn [subscript].
  rewrite Hrid, bind_lift_inr.
  erewrite bind_val; [| apply first_report_clean].
  unfold find_report in Hfind. rewrite Hfind.
  cbn [fmap option_fmap option_map fst].
  rewrite Hstatus. reflexivity.
Qed.

(** C6.  For a call by a staff session whose body names a report: an
    unknown [report_id] gives 404; otherwise the status becomes the
    supplied member of the enum, whatever the status was; COMPLETED adds
    exactly 5 to the credits of the owning user, and any other status
    leaves the user table, the other reports and the verifications as
    they are. *)
Theorem update_progress_effects env db s request items rid :
  staff_session env db s ->
  get_json request = inr (JDict items) ->
  dict_get items "report_id" = Some (JStr rid) ->
  (find_report env db rid = None ->
   serve (update_progress env request s) db
   = (Responded (jsonify (error_body "Report not found") 404), db))
  /\ (forall i r name st,
        find_report env db rid = Some (i, r) ->
        dict_get items "status" = Some (JStr name) ->
        status_of_string name = Some st ->
        dbms_accepts env ->
        (st = COMPLETED ->
         forall j u,
           find_user env db (PotholeReport.user_id r) = Some (j, u) ->
           progress_outcome env request s db i COMPLETED
             (alter (CustomUser.set_credits (CustomUser.credits u + 5)) j
                (custom_user db)))
        /\ (st <> COMPLETED ->
            progress_outcome env request s db i st (custom_user db))).
Proof.
  intros Hstaff Hjson Hrid. split.
  { apply (update_progress_not_found env db s request items rid); assumption. }
  intros i r name st Hfind Hstatus Hname Hacc.
  pose proof (find_report_lookup _ _ _ _ _ Hfind) as Hr.
  split.
  - intros -> j u Hu. eexists. split.
    { apply (update_progress_serve env db s request items rid i r name COMPLETED);
        auto; intros _; rewrite Hu; eexists; reflexivity. }
    unfold progress_db. cbn [decide]. rewrite Hu.
    destruct (decide (COMPLETED = COMPLETED)) as [_ | Hne]; [| contradiction].
    cbn [db_with_credits with_users pothole_report custom_user municipal_verification].
    split; [apply status_after_change, Hr |].
    split; [intros k Hk; now apply after_status_change_others |].
    split; [now rewrite after_status_change_users |].
    apply after_status_change_verifications.
  - intros Hne. eexists. split.
    { apply (update_progress_serve env db s request items rid i r name st);
        auto; intros ->; contradiction. }
    unfold progress_db. destruct (decide (st = COMPLETED)); [contradiction |].
    split; [apply status_after_change, Hr |].
    split; [intros k Hk; now apply after_status_change_others |].
    split; [apply after_status_change_users |].
    apply after_status_change_verifications.
Qed.

(** C8.  An exception does cross the boundary of a view function:
    [update_progress] has no handler, and a body that names an existing
    report but has no [status] makes [data['status']] raise [KeyError],
    which leaves the view uncaught. *)
Theorem update_progress_uncaught_key_error env db s request items rid i r :
  staff_session env db s ->
  get_json request = inr (JDict items) ->
  dict_get items "report_id" = Some (JStr rid) ->
  find_report env db rid = Some (i, r) ->
  dict_get items "status" = None ->
  fst (serve (update_progress env request s) db) = Uncaught (mkExn KeyError "'status'")
  /\ forall response, fst (serve (update_progress env request s) db) <> Responded response.
Proof.
  intros Hstaff Hjson Hrid Hfind Hstatus.
  rewrite (update_progress_missing_status env db s request items rid i r) by assumption.
  split; [reflexivity | discriminate].
Qed.

(** ** [report_pothole] *)

Lemma severity_column name sev :
  severity_of_string name = Some sev ->
  enum_column severity_of_string "severity" (json_opt_str (Some name)) = inr (Some sev).
Proof. intros H. cbn [json_opt_str enum_column]. now rewrite H. Qed.

Lemma s3_url_truthy rest : String.eqb ("https://" ++ rest)%string EmptyString = false.
Proof. reflexivity. Qed.

Lemma report_pothole_serve env db s request uid j u file latitude longitude name sev :
  session.user_id s = Some uid ->
  find_user env db uid = Some (j, u) ->
  method request = "POST" ->
  lookup_key (files request) "image" = Some file ->
  FileStorage.filename file <> EmptyString ->
  upload_fileobj env = None ->
  float_field (lookup_key (form request) "latitude") = inr latitude ->
  float_field (lookup_key (form request) "longitude") = inr longitude ->
  lookup_key (form request) "severity" = Some name ->
  severity_of_string name = Some sev ->
  unused env PotholeReport.report_id (pothole_report db) (uuid4_row env) ->
  dbms_accepts env ->
  serve (report_pothole env request s) db
  = (Responded (submitted_response env),
     mkDB (alter (CustomUser.set_credits (CustomUser.credits u + 5)) j (custom_user db))
          (pothole_report db
             ++ [submitted_report env db request uid file latitude longitude sev])
          (municipal_verification db)).
Proof.
  intros Hs Hu Hpost Himage Hname Hup Hlat Hlon Hsev Hsev' Hfresh Hacc.
  pose proof (find_user_lookup _ _ _ _ _ Hu) as Hju.
  unfold serve, report_pothole, login_required.
  rewrite Hs, Hpost, Himage. cbn [String.eqb Ascii.eqb Bool.eqb].
  apply String.eqb_neq in Hname. rewrite Hname.
  unfold upload_to_s3. rewrite Hup.
  erewrite bind_val; [| reflexivity].
  cbn beta iota. rewrite s3_url_truthy.
  unfold session_user_id. rewrite Hs.
  erewrite bind_val; [| reflexivity].
  rewrite Hlat, bind_lift_inr, Hlon, bind_lift_inr, Hsev.
  erewrite bind_val; [| reflexivity].
  cbn [pending view stored app List.filter length Nat.add].
  erewrite bind_val; cycle 1.
  { unfold first_user. erewrite bind_val; [reflexivity |].
    unfold flush. cbn [pending view stored execute_all].
    unfold execute. rewrite Hacc.
    cbn [apply_statement NewReport.severity]. rewrite (severity_column _ _ Hsev').
    cbn [bind_sum not_null]. rewrite (unique_fresh _ _ _ _ _ Hfresh).
    cbn [bind_sum]. reflexivity. }
  cbn [view with_reports custom_user]. unfold find_user in Hu. rewrite Hu.
  cbn [fmap option_fmap option_map fst].
  rewrite bind_bind.
  erewrite bind_val; [| apply user_obj_val; exact Hju].
  unfold set_user_credits. rewrite bind_bind.
  erewrite bind_val; [| apply user_obj_val; exact Hju].
  replace (CustomUser.credits u =? CustomUser.credits u + 5) with false
    by (symmetry; apply Z.eqb_neq; lia).
  erewrite bind_val; [| reflexivity].
  erewrite bind_val; cycle 1.
  { eapply commit_val; [| apply Hacc]. cbn [execute_all app pending view stored].
    rewrite execute_credits_update by apply Hacc. reflexivity. }
  erewrite bind_val; cycle 1.
  { apply report_obj_val. cbn [view db_with_credits with_users with_reports pothole_report].
    rewrite Nat.add_0_r. apply list_lookup_middle. reflexivity. }
  reflexivity.
Qed.

(** A failing upload: only [NoCredentialsError] becomes the 500 response;
    nothing is written either way. *)
Lemma report_pothole_upload_fails env db s request uid file e :
  session.user_id s = Some uid ->
  method request = "POST" ->
  lookup_key (files request) "image" = Some file ->
  FileStorage.filename file <> EmptyString ->
  upload_fileobj env = Some e ->
  serve (report_pothole env request s) db
  = (if decide (exn_class e = NoCredentialsError)
     then Responded (jsonify (error_body "Failed to upload image") 500)
     else Uncaught e,
     db).
Proof.
  intros Hs Hpost Himage Hname Hup.
  unfold serve, report_pothole, login_required.
  rewrite Hs, Hpost, Himage. cbn [String.eqb Ascii.eqb Bool.eqb].
  apply String.eqb_neq in Hname. rewrite Hname.
  unfold upload_to_s3. rewrite Hup.
  destruct (decide _); reflexivity.
Qed.

(** C1, as amended.  A submission by a session whose user exists, with an
    image that has a file name, an upload that succeeds, coordinates that
    are absent, empty or float literals and a severity that names one of
    the four levels: exactly one Report row is added, with status PENDING,
    that severity and 5 [credits_awarded], and exactly 5 is added to the
    credits of the submitting user. *)
Theorem report_pothole_creates_report
    env db s request uid j u file latitude longitude name sev :
  session.user_id s = Some uid ->
  find_user env db uid = Some (j, u) ->
  method request = "POST" ->
  lookup_key (files request) "image" = Some file ->
  FileStorage.filename file <> EmptyString ->
  upload_fileobj env = None ->
  float_field (lookup_key (form request) "latitude") = inr latitude ->
  float_field (lookup_key (form request) "longitude") = inr longitude ->
  lookup_key (form request) "severity" = Some name ->
  severity_of_string name = Some sev ->
  unused env PotholeReport.report_id (pothole_report db) (uuid4_row env) ->
  dbms_accepts env ->
  exists db' row,
    serve (report_pothole env request s) db = (Responded (submitted_response env), db')
    /\ pothole_report db' = pothole_report db ++ [row]
    /\ PotholeReport.user_id row = uid
    /\ PotholeReport.status row = Some PENDING
    /\ PotholeReport.severity row = sev
    /\ PotholeReport.credits_awarded row = 5
    /\ custom_user db'
       = alter (CustomUser.set_credits (CustomUser.credits u + 5)) j (custom_user db)
    /\ CustomUser.credits <$> custom_user db' !! j = Some (CustomUser.credits u + 5)
    /\ municipal_verification db' = municipal_verification db.
Proof.
  intros Hs Hu. intros. eexists _, _. split.
  { eapply report_pothole_serve; eassumption. }
  repeat split; try reflexivity.
  cbn [custom_user]. rewrite list_lookup_alter_eq.
  now rewrite (find_user_lookup _ _ _ _ _ Hu).
Qed.

(** C4.  When the upload raises, no row is written and no credit is
    granted; the response is the JSON error with status 500 only for
    [NoCredentialsError]: any other exception of the S3 client leaves the
    view uncaught. *)
Theorem report_pothole_upload_failure env db s request uid file e :
  session.user_id s = Some uid ->
  method request = "POST" ->
  lookup_key (files request) "image" = Some file ->
  FileStorage.filename file <> EmptyString ->
  upload_fileobj env = Some e ->
  snd (serve (report_pothole env request s) db) = db
  /\ (exn_class e = NoCredentialsError ->
      fst (serve (report_pothole env request s) db)
      = Responded (jsonify (error_body "Failed to upload image") 500))
  /\ (exn_class e <> NoCredentialsError ->
      fst (serve (report_pothole env request s) db) = Uncaught e).
Proof.
  intros Hs Hpost Himage Hname Hup.
  rewrite (report_pothole_upload_fails env db s request uid file e) by assumption.
  destruct (decide _); repeat split; intros; reflexivity || contradiction.
Qed.

(** ** [create_staff_user] *)

Lemma create_staff_user_serve env db request items username email password :
  get_json request = inr (JDict items) ->
  dict_get items "username" = Some (JStr username) ->
  dict_get items "email" = Some (JStr email) ->
  dict_get items "password" = Some (JStr password) ->
  unused env CustomUser.username (custom_user db) username ->
  unused env CustomUser.email (custom_user db) email ->
  unused env CustomUser.user_id (custom_user db) (uuid4_row env) ->
  dbms_accepts env ->
  serve (create_staff_user env request) db
  = (Responded staff_created_response,
     with_users db (custom_user db ++ [staff_user_row env db username email password])).
Proof.
  intros Hjson Hname Hemail Hpw Hfn Hfe Hfu Hacc.
  unfold serve, create_staff_user.
  rewrite Hjson, bind_lift_inr. cbn [subscript].
  rewrite Hname, bind_lift_inr.
  erewrite bind_val; [| apply first_user_clean].
  unfold by_username, column_eq. rewrite (list_find_fresh _ _ _ _ Hfn).
  cbn [fmap option_fmap option_map].
  rewrite bind_lift_inr, Hemail, bind_lift_inr, Hpw, bind_lift_inr.
  cbn [password_hash_of]. rewrite bind_lift_inr.
  erewrite bind_val; [| reflexivity].
  erewrite bind_val; cycle 1.
  { eapply commit_val; [| apply Hacc]. cbn [execute_all app pending view stored].
    unfold execute. rewrite Hacc.
    cbn [apply_statement NewUser.username NewUser.email NewUser.phone_number
           string_column bind_sum not_null].
    rewrite (unique_fresh _ _ _ _ _ Hfu), (unique_fresh _ _ _ _ _ Hfn),
      (unique_fresh _ _ _ _ _ Hfe).
    cbn [bind_sum]. reflexivity. }
  reflexivity.
Qed.

(** A fresh username with an email that a row already has: the handler
    does not test the email, and the INSERT violates the unique
    constraint. *)
Lemma create_staff_user_duplicate_email env db request items username email password :
  get_json request = inr (JDict items) ->
  dict_get items "username" = Some (JStr username) ->
  dict_get items "email" = Some (JStr email) ->
  dict_get items "password" = Some (JStr password) ->
  unused env CustomUser.username (custom_user db) username ->
  unused env CustomUser.user_id (custom_user db) (uuid4_row env) ->
  existsb (fun u => collation_eq env (CustomUser.email u) email) (custom_user db) = true ->
  dbms_accepts env ->
  serve (create_staff_user env request) db
  = (Uncaught (mkExn IntegrityError "Duplicate entry for key email"), db).
Proof.
  intros Hjson Hname Hemail Hpw Hfn Hfu Hdup Hacc.
  unfold serve, create_staff_user.
  rewrite Hjson, bind_lift_inr. cbn [subscript].
  rewrite Hname, bind_lift_inr.
  erewrite bind_val; [| apply first_user_clean].
  unfold by_username, column_eq. rewrite (list_find_fresh _ _ _ _ Hfn).
  cbn [fmap option_fmap option_map].
  rewrite bind_lift_inr, Hemail, bind_lift_inr, Hpw, bind_lift_inr.
  cbn [password_hash_of]. rewrite bind_lift_inr.
  erewrite bind_val; [| reflexivity].
  erewrite bind_raise; cycle 1.
  { apply commit_raise.
    cbn [execute_all app pending view stored].
    unfold execute. rewrite Hacc.
    cbn [apply_statement NewUser.username NewUser.email NewUser.phone_number
           string_column bind_sum not_null].
    rewrite (unique_fresh _ _ _ _ _ Hfu), (unique_fresh _ _ _ _ _ Hfn).
    cbn [bind_sum]. unfold unique. rewrite Hdup. reflexivity. }
  reflexivity.
Qed.

(** C10, as amended.  [create_staff_user] takes no session and asks for
    no privilege; the only test the handler makes itself is on the
    username.  For a request with a fresh username: when no row has the
    email, one user is created, with the staff flag set, and the answer is
    201; when a row has the email already, the unique constraint on
    [email] refuses the INSERT and no user is created. *)
Theorem create_staff_user_creates_staff env db request items username email password :
  get_json request = inr (JDict items) ->
  dict_get items "username" = Some (JStr username) ->
  dict_get items "email" = Some (JStr email) ->
  dict_get items "password" = Some (JStr password) ->
  unused env CustomUser.username (custom_user db) username ->
  unused env CustomUser.user_id (custom_user db) (uuid4_row env) ->
  dbms_accepts env ->
  (unused env CustomUser.email (custom_user db) email ->
   exists db' row,
     serve (create_staff_user env request) db = (Responded staff_created_response, db')
     /\ custom_user db' = custom_user db ++ [row]
     /\ CustomUser.username row = username
     /\ CustomUser.email row = email
     /\ CustomUser.is_staff row = true
     /\ CustomUser.credits row = 0
     /\ pothole_report db' = pothole_report db
     /\ municipal_verification db' = municipal_verification db)
  /\ (~ unused env CustomUser.email (custom_user db) email ->
      exists e,
        serve (create_staff_user env request) db = (Uncaught e, db)
        /\ exn_class e = IntegrityError).
Proof.
  intros Hjson Hname Hemail Hpw Hfn Hfu Hacc. split.
  - intros Hfe. eexists _, _. split.
    { eapply create_staff_user_serve; eassumption. }
    repeat split; reflexivity.
  - intros Htaken.
    exists (mkExn IntegrityError "Duplicate entry for key email").
    split; [| reflexivity].
    eapply create_staff_user_duplicate_email; try eassumption.
    unfold unused in Htaken. now destruct (existsb _ _).
Qed.

(** ** [public_reports] *)

Lemma fold_append_map {A B : Type} (f : A -> B) (l : list A) (acc : list B) :
  fold_left (fun acc x => acc ++ [f x]) l acc = acc ++ map f l.
Proof.
  revert acc. induction l as [| x l IH]; intros acc; cbn.
  - now rewrite app_nil_r.
  - rewrite IH, <- app_assoc. reflexivity.
Qed.

Lemma public_reports_serve env db :
  serve (public_reports env) db
  = (Responded
       (jsonify
          (JList (map public_entry
                    (List.filter (status_in public_statuses) (pothole_report db))))
          200),
     db).
Proof.
  unfold serve, public_reports.
  erewrite bind_val; [| reflexivity].
  cbn [view]. rewrite fold_append_map. reflexivity.
Qed.

Lemma status_in_public r :
  status_in public_statuses r = true
  <-> PotholeReport.status r = Some VERIFIED
      \/ PotholeReport.status r = Some IN_PROGRESS
      \/ PotholeReport.status r = Some COMPLETED.
Proof.
  unfold status_in, public_statuses.
  destruct (PotholeReport.status r) as [[] |]; cbn; split; intros H;
    try discriminate; try reflexivity; auto;
    destruct H as [H | [H | H]]; discriminate.
Qed.

(** C3.  For every state of the tables, the entries [public_reports]
    returns are those of exactly the reports whose status is VERIFIED,
    IN_PROGRESS or COMPLETED, in table order; none of them is PENDING or
    REJECTED, and no entry has a [username] key. *)
Theorem public_reports_visible env db :
  exists reports,
    serve (public_reports env) db
    = (Responded (jsonify (JList (map public_entry reports)) 200), db)
    /\ (forall r,
          In r reports
          <-> In r (pothole_report db)
              /\ (PotholeReport.status r = Some VERIFIED
                  \/ PotholeReport.status r = Some IN_PROGRESS
                  \/ PotholeReport.status r = Some COMPLETED))
    /\ (forall r,
          In r reports ->
          PotholeReport.status r <> Some PENDING
          /\ PotholeReport.status r <> Some REJECTED)
    /\ (forall r,
          In r reports ->
          exists items,
            public_entry r = JDict items /\ dict_get items "username" = None).
Proof.
  exists (List.filter (status_in public_statuses) (pothole_report db)).
  split; [apply public_reports_serve |].
  assert (Hmem : forall r,
    In r (List.filter (status_in public_statuses) (pothole_report db))
    <-> In r (pothole_report db)
        /\ (PotholeReport.status r = Some VERIFIED
            \/ PotholeReport.status r = Some IN_PROGRESS
            \/ PotholeReport.status r = Some COMPLETED)).
  { intros r. rewrite filter_In, status_in_public. reflexivity. }
  split; [exact Hmem |]. split.
  - intros r Hr. apply Hmem in Hr. destruct Hr as [_ [H | [H | H]]];
      rewrite H; split; discriminate.
  - intros r _. eexists. split; reflexivity.
Qed.

(** ** Closed instances on the sample installation *)

Lemma sample_staff_session upload rejects :
  staff_session (Sample.env_with upload rejects) Sample.db Sample.staff.
Proof. exists "u-bob", 1%nat, Sample.bob. repeat split; reflexivity. Qed.

Lemma sample_dbms_accepts upload : dbms_accepts (Sample.env_with upload (fun _ => None)).
Proof. intros s. reflexivity. Qed.

Lemma sample_fields_ok items :
  dict_get items "estimated_repair_date" = None ->
  dict_get items "verified_by" = None ->
  dict_get items "notes" = None ->
  verification_fields_ok items.
Proof.
  intros Hd Hv Hn. unfold verification_fields_ok, get, get_default.
  rewrite Hd, Hv, Hn. repeat split; reflexivity.
Qed.

(** Bob approves Alice's report r-1: it becomes VERIFIED and her credits
    go from 5 to 15. *)
Lemma verify_report_effects_witness :
  verify_outcome Sample.env (Sample.post Sample.approve_r1) Sample.staff Sample.db
    0 VERIFIED (alter (CustomUser.set_credits 15) 0%nat (custom_user Sample.db))
  /\ CustomUser.credits
       <$> custom_user
             (snd (serve (verify_report Sample.env (Sample.post Sample.approve_r1)
                            Sample.staff) Sample.db)) !! 0%nat
     = Some 15.
Proof.
  refine (proj1 (proj1 (proj2 (verify_report_effects Sample.env Sample.db Sample.staff
                                 (Sample.post Sample.approve_r1) Sample.approve_r1
                                 "r-1" _ _ _))
                   0%nat Sample.r1 _ _ _) _ 0%nat Sample.alice _).
  - apply sample_staff_session.
  - reflexivity.
  - reflexivity.
  - reflexivity.
  - reflexivity.
  - apply sample_dbms_accepts.
  - reflexivity.
  - reflexivity.
Defined.

(** C2, as stated, fails: Bob is staff and r-1 exists, but the body gives
    the repair date as the number 20240101.  [strptime] raises
    [TypeError]; the answer is the 500 of the [except] clause, r-1 stays
    PENDING and Alice keeps her 5 credits. *)
Lemma verify_report_numeric_repair_date :
  staff_session Sample.env Sample.db Sample.staff
  /\ find_report Sample.env Sample.db "r-1" = Some (0%nat, Sample.r1)
  /\ find_user Sample.env Sample.db (PotholeReport.user_id Sample.r1)
     = Some (0%nat, Sample.alice)
  /\ dict_get Sample.approve_r1_dated "action" = Some (JStr "approve")
  /\ serve (verify_report Sample.env (Sample.post Sample.approve_r1_dated)
              Sample.staff) Sample.db
     = (Responded
          (jsonify
             (error_body
                "Failed to update report: strptime() argument 1 must be str, not int")
             500),
        Sample.db)
  /\ PotholeReport.status <$> pothole_report Sample.db !! 0%nat = Some (Some PENDING)
  /\ CustomUser.credits <$> custom_user Sample.db !! 0%nat = Some 5.
Proof.
  split; [apply sample_staff_session |]. repeat split; reflexivity.
Qed.

(** The server drops the connection at the INSERT of the Verification
    record: the approval of r-1 was in the transaction, and nothing of it
    is committed. *)
Lemma verify_report_rolls_back_witness :
  serve (verify_report Sample.env_no_verifications (Sample.post Sample.approve_r1)
           Sample.staff) Sample.db
  = (Responded
       (jsonify (error_body "Failed to update report: MySQL server has gone away") 500),
     Sample.db).
Proof.
  refine (proj2 (verify_report_rolls_back Sample.env_no_verifications Sample.db
                   Sample.staff (Sample.post Sample.approve_r1) Sample.approve_r1
                   "r-1" 0%nat Sample.r1 "approve" VERIFIED Sample.gone
                   _ _ _ _ _ _ _ _ _ _)).
  - apply sample_staff_session.
  - reflexivity.
  - reflexivity.
  - reflexivity.
  - reflexivity.
  - left. reflexivity.
  - reflexivity.
  - intros k v. reflexivity.
  - intros j c. reflexivity.
  - reflexivity.
Defined.

(** Bob marks r-1 COMPLETED: Alice's credits go from 5 to 10. *)
Lemma update_progress_effects_witness :
  progress_outcome Sample.env (Sample.post Sample.complete_r1) Sample.staff Sample.db
    0 COMPLETED (alter (CustomUser.set_credits 10) 0%nat (custom_user Sample.db)).
Proof.
  refine (proj1 (proj2 (update_progress_effects Sample.env Sample.db Sample.staff
                          (Sample.post Sample.complete_r1) Sample.complete_r1 "r-1" _ _ _)
                   0%nat Sample.r1 "COMPLETED" COMPLETED _ _ _ _) _ 0%nat Sample.alice _).
  - apply sample_staff_session.
  - reflexivity.
  - reflexivity.
  - reflexivity.
  - reflexivity.
  - reflexivity.
  - apply sample_dbms_accepts.
  - reflexivity.
  - reflexivity.
Defined.

Lemma verify_report_appends_verification_witness :
  exists db' v,
    serve (verify_report Sample.env (Sample.post Sample.approve_r1) Sample.staff) Sample.db
    = (Responded verified_response, db')
    /\ municipal_verification db' = municipal_verification Sample.db ++ [v]
    /\ MunicipalVerification.report_id v = "r-1"
    /\ MunicipalVerification.verification_status v
       = Some verification_status_enum.APPROVED.
Proof.
  refine (proj1 (verify_report_appends_verification Sample.env Sample.db Sample.staff
                   (Sample.post Sample.approve_r1) Sample.approve_r1 "r-1" 0%nat
                   Sample.r1 "approve" verification_status_enum.APPROVED _ _ _ _ _ _)
            _ _).
  - apply sample_staff_session.
  - reflexivity.
  - reflexivity.
  - reflexivity.
  - reflexivity.
  - left. reflexivity.
  - reflexivity.
  - apply sample_dbms_accepts.
Defined.

(** C7, as stated, fails: Bob rejects r-1 with the repair date given as a
    number.  The answer is the 500 of the [except] clause and the table of
    Verification records is as empty as before. *)
Lemma verify_report_numeric_date_no_record :
  staff_session Sample.env Sample.db Sample.staff
  /\ find_report Sample.env Sample.db "r-1" = Some (0%nat, Sample.r1)
  /\ dict_get Sample.reject_r1_dated "action" = Some (JStr "reject")
  /\ fst (serve (verify_report Sample.env (Sample.post Sample.reject_r1_dated)
                   Sample.staff) Sample.db)
     = Responded
         (jsonify
            (error_body
               "Failed to update report: strptime() argument 1 must be str, not int")
            500)
  /\ municipal_verification
       (snd (serve (verify_report Sample.env (Sample.post Sample.reject_r1_dated)
                      Sample.staff) Sample.db))
     = municipal_verification Sample.db
  /\ municipal_verification Sample.db = [].
Proof.
  split; [apply sample_staff_session |]. repeat split; reflexivity.
Qed.

(** The action [escalate] is none of the three: r-1 stays PENDING, nobody
    gains credits, and a Verification record says APPROVED. *)
Lemma verify_report_unknown_action_witness :
  exists db' v,
    serve (verify_report Sample.env (Sample.post Sample.escalate_r1) Sample.staff)
      Sample.db
    = (Responded verified_response, db')
    /\ pothole_report db' = pothole_report Sample.db
    /\ custom_user db' = custom_user Sample.db
    /\ municipal_verification db' = municipal_verification Sample.db ++ [v]
    /\ MunicipalVerification.report_id v = "r-1"
    /\ MunicipalVerification.verification_status v
       = Some verification_status_enum.APPROVED.
Proof.
  refine (proj1 (verify_report_unknown_action Sample.env Sample.db Sample.staff
                   (Sample.post Sample.escalate_r1) Sample.escalate_r1 "r-1" 0%nat
                   Sample.r1 (JStr "escalate") _ _ _ _ _ _) _ _ _).
  - apply sample_staff_session.
  - reflexivity.
  - reflexivity.
  - reflexivity.
  - reflexivity.
  - intros a [<- | [<- | [<- | []]]]; discriminate.
  - reflexivity.
  - reflexivity.
  - apply sample_dbms_accepts.
Defined.

(** C9, as stated, fails: the action of the body is the array
    [["approve"]], which is none of the three names.  A list cannot be a
    key of [action_mapping]: [get] raises [TypeError], the answer is the
    500 of the [except] clause and no Verification record is appended. *)
Lemma verify_report_list_action_fails :
  staff_session Sample.env Sample.db Sample.staff
  /\ find_report Sample.env Sample.db "r-1" = Some (0%nat, Sample.r1)
  /\ dict_get Sample.approve_r1_listed "action" = Some (JList [JStr "approve"])
  /\ (forall a, In a ["approve"; "reject"; "need_info"] ->
      JList [JStr "approve"] <> JStr a)
  /\ (exists e,
        serve (verify_report Sample.env (Sample.post Sample.approve_r1_listed)
                 Sample.staff) Sample.db
        = (Responded (failed_response e), Sample.db)
        /\ exn_class e = TypeError
        /\ failed_response e <> verified_response)
  /\ municipal_verification Sample.db = [].
Proof.
  split; [apply sample_staff_session |].
  split; [reflexivity |]. split; [reflexivity |].
  split; [intros a _; discriminate |].
  split; [| reflexivity].
  eexists. split; [reflexivity |]. split; [reflexivity | discriminate].
Qed.

(** Notes given as the number 7 are bound like any value: the call
    succeeds and the record holds their text. *)
Example verify_report_numeric_notes :
  exists v,
    serve (verify_report Sample.env (Sample.post Sample.approve_r1_noted) Sample.staff)
      Sample.db
    = (Responded verified_response,
       mkDB (alter (CustomUser.set_credits 15) 0%nat (custom_user Sample.db))
            [PotholeReport.set_status (Some VERIFIED) (Sample.next Sample.now) Sample.r1;
             Sample.r2; Sample.r3]
            [v])
    /\ MunicipalVerification.verification_notes v = Some "7"
    /\ MunicipalVerification.verified_by v = Some "bob".
Proof. eexists. repeat split; reflexivity. Qed.

(** A body that names r-1 and nothing else. *)
Lemma update_progress_uncaught_key_error_witness :
  fst (serve (update_progress Sample.env (Sample.post Sample.no_status_r1) Sample.staff)
         Sample.db)
  = Uncaught (mkExn KeyError "'status'").
Proof.
  refine (proj1 (update_progress_uncaught_key_error Sample.env Sample.db Sample.staff
                   (Sample.post Sample.no_status_r1) Sample.no_status_r1 "r-1"
                   0%nat Sample.r1 _ _ _ _ _)).
  - apply sample_staff_session.
  - reflexivity.
  - reflexivity.
  - reflexivity.
  - reflexivity.
Defined.

(** Alice submits a report with well-formed fields. *)
Lemma report_pothole_creates_report_witness :
  exists db' row,
    serve (report_pothole Sample.env (Sample.submission Sample.good_form) Sample.citizen)
      Sample.db
    = (Responded (submitted_response Sample.env), db')
    /\ pothole_report db' = pothole_report Sample.db ++ [row]
    /\ PotholeReport.user_id row = "u-alice"
    /\ PotholeReport.status row = Some PENDING
    /\ PotholeReport.severity row = HIGH
    /\ PotholeReport.credits_awarded row = 5
    /\ custom_user db' = alter (CustomUser.set_credits 10) 0%nat (custom_user Sample.db)
    /\ CustomUser.credits <$> custom_user db' !! 0%nat = Some 10
    /\ municipal_verification db' = municipal_verification Sample.db.
Proof.
  refine (report_pothole_creates_report Sample.env Sample.db Sample.citizen
            (Sample.submission Sample.good_form) "u-alice" 0%nat Sample.alice
            Sample.image (Some (FDec false 125 (-1))) (Some (FDec true 725 (-2)))
            "HIGH" HIGH _ _ _ _ _ _ _ _ _ _ _ _).
  - reflexivity.
  - reflexivity.
  - reflexivity.
  - reflexivity.
  - discriminate.
  - reflexivity.
  - reflexivity.
  - reflexivity.
  - reflexivity.
  - reflexivity.
  - reflexivity.
  - apply sample_dbms_accepts.
Defined.

(** C1, as stated, fails: Alice is logged in, the image has a name and the
    upload succeeds.  With a latitude field that is not a float literal,
    [float] raises; without a severity, the INSERT stops at the NOT NULL
    column.  Either way no row is added and no credit is granted. *)
Lemma report_pothole_malformed_fields :
  session.user_id Sample.citizen = Some "u-alice"
  /\ find_user Sample.env Sample.db "u-alice" = Some (0%nat, Sample.alice)
  /\ lookup_key (files (Sample.submission Sample.bad_latitude_form)) "image"
     = Some Sample.image
  /\ FileStorage.filename Sample.image <> EmptyString
  /\ upload_to_s3 Sample.env Sample.image "6f1c_hole.jpg"
     = inr (Some ("https://potholes.s3.eu-west-1.amazonaws.com/pothole-images/6f1c_hole.jpg",
                  "pothole-images/6f1c_hole.jpg"))
  /\ serve (report_pothole Sample.env (Sample.submission Sample.bad_latitude_form)
              Sample.citizen) Sample.db
     = (Uncaught (mkExn ValueError "could not convert string to float: 'abc'"),
        Sample.db)
  /\ serve (report_pothole Sample.env (Sample.submission Sample.no_severity_form)
              Sample.citizen) Sample.db
     = (Uncaught (mkExn IntegrityError "Column severity cannot be null"), Sample.db).
Proof. repeat split; try reflexivity. discriminate. Qed.

(** The bucket refuses the ACL: [S3UploadFailedError] is not
    [NoCredentialsError], and leaves the view. *)
Lemma report_pothole_upload_failure_witness :
  snd (serve (report_pothole Sample.env_upload_error (Sample.submission Sample.good_form)
                Sample.citizen) Sample.db) = Sample.db
  /\ fst (serve (report_pothole Sample.env_upload_error
                   (Sample.submission Sample.good_form) Sample.citizen) Sample.db)
     = Uncaught Sample.acl_error.
Proof.
  destruct (report_pothole_upload_failure Sample.env_upload_error Sample.db
              Sample.citizen (Sample.submission Sample.good_form) "u-alice"
              Sample.image Sample.acl_error)
    as (Hdb & _ & Hother).
  - reflexivity.
  - reflexivity.
  - reflexivity.
  - discriminate.
  - reflexivity.
  - split; [exact Hdb | apply Hother; discriminate].
Defined.

(** Carol registers as staff with an email nobody has. *)
Lemma create_staff_user_creates_staff_witness :
  exists db' row,
    serve (create_staff_user Sample.env
             (Sample.post (Sample.new_staff "carol@city.example"))) Sample.db
    = (Responded staff_created_response, db')
    /\ custom_user db' = custom_user Sample.db ++ [row]
    /\ CustomUser.username row = "carol"
    /\ CustomUser.email row = "carol@city.example"
    /\ CustomUser.is_staff row = true
    /\ CustomUser.credits row = 0
    /\ pothole_report db' = pothole_report Sample.db
    /\ municipal_verification db' = municipal_verification Sample.db.
Proof.
  refine (proj1 (create_staff_user_creates_staff Sample.env Sample.db
                   (Sample.post (Sample.new_staff "carol@city.example"))
                   (Sample.new_staff "carol@city.example") "carol"
                   "carol@city.example" "pw" _ _ _ _ _ _ _) _).
  - reflexivity.
  - reflexivity.
  - reflexivity.
  - reflexivity.
  - reflexivity.
  - reflexivity.
  - apply sample_dbms_accepts.
  - reflexivity.
Defined.

(** C10, as stated, fails: the username [carol] is fresh and the email is
    Bob's; the request does not succeed and no user is created. *)
Lemma create_staff_user_duplicate_email_rejected :
  unused Sample.env CustomUser.username (custom_user Sample.db) "carol"
  /\ In Sample.bob (custom_user Sample.db)
  /\ CustomUser.email Sample.bob = "bob@city.example"
  /\ serve (create_staff_user Sample.env
              (Sample.post (Sample.new_staff "bob@city.example"))) Sample.db
     = (Uncaught (mkExn IntegrityError "Duplicate entry for key email"), Sample.db).
Proof. repeat split; try reflexivity. right. left. reflexivity. Qed.

(** The public list of the sample tables: r-2 alone. *)
Example public_reports_sample :
  serve (public_reports Sample.env) Sample.db
  = (Responded (jsonify (JList [public_entry Sample.r2]) 200), Sample.db).
Proof. reflexivity. Qed.

(* ===================================================================== *)
(** * Properties of the further routes                                    *)
(* ===================================================================== *)

(** ** Access *)

Lemma staff_required_refuses env db s f :
  ~ staff_session env db s ->
  serve (staff_required env s f) db
  = (Responded match session.user_id s with
               | None => redirect "login"
               | Some _ => forbidden
               end,
     db).
Proof.
  intros Hno. unfold serve, staff_required.
  destruct (session.user_id s) as [uid |] eqn:Hs; [| reflexivity].
  erewrite bind_val; [| apply first_user_clean].
  destruct (list_find _ _) as [[j u] |] eqn:Hfind; [| reflexivity].
  cbn [fmap option_fmap option_map fst].
  erewrite bind_val;
    [| apply user_obj_val; cbn [view]; apply list_find_Some in Hfind; apply Hfind].
  destruct (CustomUser.is_staff u) eqn:Hstaff; [| reflexivity].
  exfalso. apply Hno. exists uid, j, u. auto.
Qed.

(** X1.  None of the five routes behind [staff_required] runs its body for a
    session that does not name a staff user of the table, whatever the
    request and whatever the [is_staff] key of the session says: without a
    [user_id] the caller is sent to the login page, otherwise the answer
    is 403 [Staff access required]; the tables stay as they are. *)
Theorem staff_routes_refuse (pf : Platform) db request s view :
  In view (staff_routes pf request s) ->
  ~ staff_session pf db s ->
  serve view db
  = (Responded match session.user_id s with
               | None => redirect "login"
               | Some _ => forbidden
               end,
     db).
Proof.
  intros Hin Hno. cbn [staff_routes In] in Hin.
  destruct Hin as [<- | [<- | [<- | [<- | [<- | []]]]]];
    apply (staff_required_refuses pf db s _ Hno).
Qed.

(** X2.  [logout] empties the session whatever it held, and with the session
    it leaves behind every route behind [login_required] or
    [staff_required] sends the caller to the login page without touching
    the tables. *)
Theorem logout_locks_out (pf : Platform) db request s :
  exists s',
    serve_with_session (logout s) s db = (Responded (redirect "index"), s', db)
    /\ session.user_id s' = None /\ session.username s' = None
    /\ session.is_staff s' = None
    /\ forall view,
         In view (login_routes pf request s' ++ staff_routes pf request s') ->
         serve view db = (Responded (redirect "login"), db).
Proof.
  exists (session.make None None None). repeat split.
  intros view Hin. cbn [login_routes staff_routes app In] in Hin.
  repeat (destruct Hin as [<- | Hin]; [reflexivity |]).
  destruct Hin.
Qed.

(** ** Routes that only read *)

Lemma keeps_all_reports_where env p : keeps_stored (all_reports_where env p).
Proof. unfold all_reports_where. keeps. Qed.

#[local] Hint Resolve keeps_all_reports_where : stored.

Lemma keeps_staff_entries env reports acc : keeps_stored (staff_entries env reports acc).
Proof.
  revert acc. induction reports as [| report rest IH]; intros acc; cbn [staff_entries].
  - keeps.
  - apply keeps_bind; [keeps |]. intros [j |]; [| keeps].
    apply keeps_bind; [keeps |]. intros u. apply IH.
Qed.

#[local] Hint Resolve keeps_staff_entries : stored.

Lemma keeps_staff_required env s (f : M Response) :
  keeps_stored f -> keeps_stored (staff_required env s f).
Proof. intros Hf. unfold staff_required. keeps. Qed.

Lemma keeps_login_required s (f : M Response) :
  keeps_stored f -> keeps_stored (login_required s f).
Proof. intros Hf. unfold login_required. keeps. Qed.

Lemma keeps_serve (m : M Response) db : keeps_stored m -> snd (serve m db) = db.
Proof.
  intros H. unfold serve. specialize (H (mkSession db db [])).
  destruct (m _); exact H.
Qed.

Lemma keeps_serve_with_session (m : SessionView) s db :
  keeps_stored m -> snd (serve_with_session m s db) = db.
Proof.
  intros H. unfold serve_with_session. specialize (H (mkSession db db [])).
  destruct (m _) as [[s' r] st | e st]; exact H.
Qed.

(** X3.  The seven listing, profile and dashboard routes and the three session
    routes never change the committed tables: not for any request, any
    session or any state of the tables, and not when they raise. *)
Theorem reading_routes_keep_tables (pf : Platform) db request s :
  (forall view, In view (reading_routes pf s) -> snd (serve view db) = db)
  /\ (forall view,
        In view (session_routes pf request s) ->
        snd (serve_with_session view s db) = db).
Proof.
  split; intros view Hin.
  - apply keeps_serve. cbn [reading_routes In] in Hin.
    destruct Hin as [<- | [<- | [<- | [<- | [<- | [<- | [<- | []]]]]]]].
    + unfold dashboard. apply keeps_login_required. keeps.
    + unfold my_reports. apply keeps_login_required. cbv zeta. keeps.
    + unfold user_profile. apply keeps_login_required. keeps.
    + unfold pending_reports. apply keeps_staff_required. keeps.
    + unfold public_reports. cbv zeta. keeps.
    + unfold municipal_dashboard. apply keeps_staff_required. keeps.
    + unfold all_reports. apply keeps_staff_required. keeps.
  - apply keeps_serve_with_session. cbn [session_routes In] in Hin.
    destruct Hin as [<- | [<- | [<- | []]]].
    + unfold login. keeps.
    + unfold municipal_login. keeps.
    + unfold logout. keeps.
Qed.

(** ** All or nothing *)

Lemma commits_only_with_keeps {A} (ok : A -> Prop) (m : M A) :
  keeps_stored m -> commits_only_with ok m.
Proof. intros H st. specialize (H st). destruct (m st); auto. Qed.

Lemma commits_only_with_bind {A B} (ok : B -> Prop) (m : M A) (f : A -> M B) :
  keeps_stored m -> (forall a, commits_only_with ok (f a)) ->
  commits_only_with ok (bind m f).
Proof.
  intros Hm Hf st. unfold bind. specialize (Hm st).
  destruct (m st) as [a st1 | e st1]; [| exact Hm].
  specialize (Hf a st1). destruct (f a st1) as [b st2 | e st2].
  - destruct Hf as [Hok | Hst]; [left; exact Hok | right; congruence].
  - congruence.
Qed.

Lemma commits_only_with_commit {A} (ok : A -> Prop) env (a : A) :
  ok a -> commits_only_with ok (commit env ;; ret a).
Proof.
  intros Hok st. unfold bind at 1.
  destruct (commit env st) as [[] st1 | e st1] eqn:E.
  - left. exact Hok.
  - eapply raises_clean_commit, E.
Qed.

Lemma commits_only_with_try {A} (ok : A -> Prop) (m : M A) (h : Exn -> M A) :
  commits_only_with ok m -> (forall e, keeps_stored (h e)) ->
  commits_only_with ok (try_except m h).
Proof.
  intros Hm Hh st. unfold try_except. specialize (Hm st).
  destruct (m st) as [a st1 | e st1]; [exact Hm |].
  specialize (Hh e st1). destruct (h e st1); [right |]; congruence.
Qed.

Lemma commits_only_with_staff_required ok env s (f : M Response) :
  commits_only_with ok f -> commits_only_with ok (staff_required env s f).
Proof.
  intros Hf. unfold staff_required.
  destruct (session.user_id s); [| apply commits_only_with_keeps; keeps].
  apply commits_only_with_bind; [keeps |]. intros [j |].
  - apply commits_only_with_bind; [keeps |]. intros u.
    destruct (negb _); [apply commits_only_with_keeps; keeps | exact Hf].
  - apply commits_only_with_keeps. keeps.
Qed.

Ltac atomic_step :=
  first
    [ progress intros
    | apply commits_only_with_commit; reflexivity
    | apply commits_only_with_bind; [solve [keeps] |]
    | solve [apply commits_only_with_keeps; keeps]
    | match goal with
      | |- commits_only_with _ (if ?b then _ else _) => destruct b
      | |- commits_only_with _ (match ?x with _ => _ end) => destruct x
      end ].

Ltac atomic := repeat atomic_step.

Lemma all_or_nothing_serve ok (m : M Response) db :
  commits_only_with ok m -> all_or_nothing ok (serve m db) db.
Proof.
  intros H. unfold serve, all_or_nothing. specialize (H (mkSession db db [])).
  destruct (m _); exact H.
Qed.

Lemma verify_report_try_commits_only env request s :
  commits_only_with (fun r => r = verified_response) (verify_report_try env request s).
Proof. unfold verify_report_try. atomic. Qed.

(** X4.  [verify_report] is all or nothing, for every request, session
    and state of the tables and whichever statements the DBMS refuses:
    unless the answer is the success message, the committed tables are
    those from before the request, whether the answer came from the
    decorator, from the block or from the [except] clause, and also when
    the view raises. *)
Theorem verify_report_all_or_nothing env db s request :
  all_or_nothing (fun r => r = verified_response)
    (serve (verify_report env request s) db) db.
Proof.
  apply all_or_nothing_serve. unfold verify_report.
  apply commits_only_with_staff_required.
  apply commits_only_with_try; [apply verify_report_try_commits_only |].
  intros e. keeps.
Qed.

(** X5.  [update_progress] is all or nothing as well, though it has no handler
    of its own: when the view raises, or answers with anything but the
    success message, the status change and the completion bonus are both
    left out of the committed tables. *)
Theorem update_progress_all_or_nothing env db s request :
  all_or_nothing (fun r => r = progress_response)
    (serve (update_progress env request s) db) db.
Proof.
  apply all_or_nothing_serve. unfold update_progress.
  apply commits_only_with_staff_required. atomic.
Qed.

(** ** Rows are never deleted or rewritten *)

Lemma same_submission_set_status st now r :
  same_submission r (PotholeReport.set_status st now r).
Proof. destruct r. reflexivity. Qed.

Lemma same_account_set_credits c u : same_account u (CustomUser.set_credits c u).
Proof. destruct u. reflexivity. Qed.

Lemma extends_refl d : extends d d.
Proof.
  repeat split; eauto.
  - intros j u H. exists u. split; [exact H | reflexivity].
  - intros i r H. exists r. split; [exact H | reflexivity].
Qed.

Lemma extends_trans d1 d2 d3 : extends d1 d2 -> extends d2 d3 -> extends d1 d3.
Proof.
  intros (Hu1 & Hr1 & Hv1) (Hu2 & Hr2 & Hv2). repeat split.
  - intros j u H. destruct (Hu1 j u H) as (u' & H' & E1).
    destruct (Hu2 j u' H') as (u'' & H'' & E2).
    exists u''. split; [exact H'' |]. unfold same_account in *. congruence.
  - intros i r H. destruct (Hr1 i r H) as (r' & H' & E1).
    destruct (Hr2 i r' H') as (r'' & H'' & E2).
    exists r''. split; [exact H'' |]. unfold same_submission in *. congruence.
  - auto.
Qed.

Lemma extends_insert_user d row : extends d (with_users d (custom_user d ++ [row])).
Proof.
  repeat split; cbn; eauto.
  - intros j u H. exists u. split; [| reflexivity].
    apply lookup_app_l_Some. exact H.
  - intros i r H. exists r. split; [exact H | reflexivity].
Qed.

Lemma extends_insert_report d row :
  extends d (with_reports d (pothole_report d ++ [row])).
Proof.
  repeat split; cbn; eauto.
  - intros j u H. exists u. split; [exact H | reflexivity].
  - intros i r H. exists r. split; [| reflexivity].
    apply lookup_app_l_Some. exact H.
Qed.

Lemma extends_insert_verification d row :
  extends d (with_verifications d (municipal_verification d ++ [row])).
Proof.
  repeat split; cbn.
  - intros j u H. exists u. split; [exact H | reflexivity].
  - intros i r H. exists r. split; [exact H | reflexivity].
  - intros k v H. apply lookup_app_l_Some. exact H.
Qed.

Lemma extends_update_status d i st now :
  extends d (with_reports d (alter (PotholeReport.set_status st now) i (pothole_report d))).
Proof.
  repeat split; cbn; eauto.
  - intros j u H. exists u. split; [exact H | reflexivity].
  - intros k r H. destruct (decide (i = k)) as [<- | Hne].
    + exists (PotholeReport.set_status st now r).
      rewrite list_lookup_alter_eq, H. split; [reflexivity |].
      apply same_submission_set_status.
    + exists r. rewrite list_lookup_alter_ne by exact Hne.
      split; [exact H | reflexivity].
Qed.

Lemma extends_update_credits d j c :
  extends d (with_users d (alter (CustomUser.set_credits c) j (custom_user d))).
Proof.
  repeat split; cbn; eauto.
  - intros k u H. destruct (decide (j = k)) as [<- | Hne].
    + exists (CustomUser.set_credits c u).
      rewrite list_lookup_alter_eq, H. split; [reflexivity |].
      apply same_account_set_credits.
    + exists u. rewrite list_lookup_alter_ne by exact Hne.
      split; [exact H | reflexivity].
  - intros i r H. exists r. split; [exact H | reflexivity].
Qed.

(** Whatever the statement and whatever it binds, executing it deletes no
    row and rewrites none of the fixed columns. *)
Lemma execute_extends env s d d' : execute env s d = inr d' -> extends d d'.
Proof.
  unfold execute. destruct (dbms_rejects env s); [discriminate |].
  destruct s as [o | o | o | i v | j c |]; cbn [apply_statement].
  - repeat (match goal with
            | |- bind_sum ?x _ = _ -> _ => destruct x; cbn [bind_sum]; [discriminate |]
            end).
    intros [= <-]. apply extends_insert_user.
  - repeat (match goal with
            | |- bind_sum ?x _ = _ -> _ => destruct x; cbn [bind_sum]; [discriminate |]
            end).
    intros [= <-]. apply extends_insert_report.
  - repeat (match goal with
            | |- bind_sum ?x _ = _ -> _ => destruct x; cbn [bind_sum]; [discriminate |]
            end).
    intros [= <-]. apply extends_insert_verification.
  - destruct (enum_column _ _ _); cbn [bind_sum]; [discriminate |].
    intros [= <-]. apply extends_update_status.
  - intros [= <-]. apply extends_update_credits.
  - intros [= <-]. apply extends_refl.
Qed.

Lemma execute_all_extends env l d d' : execute_all env l d = inr d' -> extends d d'.
Proof.
  revert d. induction l as [| s l IH]; intros d; cbn [execute_all].
  - intros [= <-]. apply extends_refl.
  - destruct (execute env s d) as [e | d1] eqn:E; cbn [bind_sum]; [discriminate |].
    intros H. eapply extends_trans; [eapply execute_extends, E | apply IH, H].
Qed.

Create HintDb growth discriminated.

Lemma grows_unchanged {A} (m : M A) :
  (forall st, match m st with
              | Val _ st' => stored st' = stored st /\ view st' = view st
              | Raise _ st' => stored st' = stored st /\ view st' = view st
              end) ->
  grows m.
Proof.
  intros H st Hst. specialize (H st).
  destruct (m st) as [a st' | e st']; destruct H as [-> ->];
    (split; [apply extends_refl | exact Hst]).
Qed.

Lemma grows_ret {A} (a : A) : grows (ret a).
Proof. apply grows_unchanged. intros st. split; reflexivity. Qed.

Lemma grows_raise {A} e : grows (@raise A e).
Proof. apply grows_unchanged. intros st. split; reflexivity. Qed.

Lemma grows_lift {A} (x : Exn + A) : grows (lift x).
Proof. destruct x; [apply grows_raise | apply grows_ret]. Qed.

Lemma grows_stale {A} : grows (@stale A).
Proof. apply grows_raise. Qed.

Lemma grows_no_attribute {A} attr : grows (@no_attribute A attr).
Proof. apply grows_raise. Qed.

Lemma grows_session_add s : grows (session_add s).
Proof. apply grows_unchanged. intros st. split; reflexivity. Qed.

Lemma grows_add_report o : grows (add_report o).
Proof. apply grows_unchanged. intros st. split; reflexivity. Qed.

Lemma grows_add_user o : grows (add_user o).
Proof. apply grows_unchanged. intros st. split; reflexivity. Qed.

Lemma grows_user_obj j : grows (user_obj j).
Proof.
  apply grows_unchanged. intros st. unfold user_obj.
  destruct (_ !! _); split; reflexivity.
Qed.

Lemma grows_report_obj i : grows (report_obj i).
Proof.
  apply grows_unchanged. intros st. unfold report_obj.
  destruct (_ !! _); split; reflexivity.
Qed.

Lemma grows_bind {A B} (m : M A) (f : A -> M B) :
  grows m -> (forall a, grows (f a)) -> grows (bind m f).
Proof.
  intros Hm Hf st Hst. unfold bind. specialize (Hm st Hst).
  destruct (m st) as [a st1 | e st1]; [| exact Hm].
  destruct Hm as [H1 H2]. specialize (Hf a st1 H2).
  destruct (f a st1) as [b st2 | e st2]; destruct Hf as [H3 H4];
    (split; [exact (extends_trans _ _ _ H1 H3) | exact H4]).
Qed.

Lemma grows_try_except {A} (m : M A) (h : Exn -> M A) :
  grows m -> (forall e, grows (h e)) -> grows (try_except m h).
Proof.
  intros Hm Hh st Hst. unfold try_except. specialize (Hm st Hst).
  destruct (m st) as [a st1 | e st1]; [exact Hm |].
  destruct Hm as [H1 H2]. specialize (Hh e st1 H2).
  destruct (h e st1) as [b st2 | e2 st2]; destruct Hh as [H3 H4];
    (split; [exact (extends_trans _ _ _ H1 H3) | exact H4]).
Qed.

Lemma grows_flush env : grows (flush env).
Proof.
  intros st Hst. unfold flush.
  destruct (execute_all env (pending st) (view st)) as [e | d] eqn:E; cbn.
  - split; [apply extends_refl | exact Hst].
  - split; [apply extends_refl |].
    eapply extends_trans; [exact Hst | eapply execute_all_extends, E].
Qed.

Lemma grows_commit env : grows (commit env).
Proof.
  intros st Hst. unfold commit, bind, flush.
  destruct (execute_all env (pending st) (view st)) as [e | d] eqn:E; cbn.
  - split; [apply extends_refl | exact Hst].
  - assert (Hd : extends (stored st) d)
      by (eapply extends_trans; [exact Hst | eapply execute_all_extends, E]).
    destruct (execute env COMMIT d) as [e | d2] eqn:E2; cbn.
    + split; [apply extends_refl | exact Hd].
    + split; [| apply extends_refl].
      eapply extends_trans; [exact Hd | eapply execute_extends, E2].
Qed.

Lemma grows_rollback : grows rollback.
Proof. intros st Hst. cbn. split; apply extends_refl. Qed.

#[local] Hint Resolve grows_ret grows_raise grows_lift grows_stale grows_no_attribute
  grows_session_add grows_add_report grows_add_user grows_user_obj grows_report_obj
  grows_flush grows_commit grows_rollback : growth.

Ltac growing :=
  repeat first
    [ progress intros
    | solve [auto with growth]
    | apply grows_bind
    | apply grows_try_except
    | match goal with
      | |- grows (if ?b then _ else _) => destruct b
      | |- grows (match ?x with _ => _ end) => destruct x
      end ].

Lemma grows_read {A} env (f : Session -> A) :
  grows (flush env ;; fun st => Val (f st) st).
Proof.
  apply grows_bind; [apply grows_flush |]. intros _.
  apply grows_unchanged. intros st. split; reflexivity.
Qed.

Lemma grows_first_user env p : grows (first_user env p).
Proof. apply grows_read. Qed.

Lemma grows_first_report env p : grows (first_report env p).
Proof. apply grows_read. Qed.

Lemma grows_set_report_status i v : grows (set_report_status i v).
Proof. unfold set_report_status. growing. Qed.

Lemma grows_set_user_credits j c : grows (set_user_credits j c).
Proof. unfold set_user_credits. growing. Qed.

#[local] Hint Resolve grows_first_user grows_first_report grows_set_report_status
  grows_set_user_credits : growth.

Lemma grows_serve (m : M Response) db : grows m -> extends db (snd (serve m db)).
Proof.
  intros H. unfold serve. specialize (H (mkSession db db []) (extends_refl db)).
  destruct (m _); apply H.
Qed.

(** X6.  No route deletes a row or moves it, and the only columns of an
    existing row that a request can change are [credits] of a user and
    [status] and [updated_at] of a report: after any request to any of the
    six writing routes, whatever its session and body and whether it
    answers or raises, every user keeps its [user_id], username, email,
    phone number, password hash and staff flag, every report keeps its
    owner, image, description, place, coordinates and severity, and every
    Verification record is as it was. *)
Theorem writing_routes_append_only env db request s :
  Forall (fun view => extends db (snd (serve view db))) (writing_routes env request s).
Proof.
  unfold writing_routes.
  repeat (apply List.Forall_cons; [apply grows_serve |]); [.. | apply List.Forall_nil].
  - unfold register. growing.
  - unfold report_pothole, login_required. growing.
  - unfold verify_report, verify_report_try, staff_required. growing.
  - unfold update_progress, staff_required. growing.
  - unfold municipal_register. growing.
  - unfold create_staff_user. growing.
Qed.

(** ** Accounts *)

Lemma list_find_taken {R : Type} env (f : R -> string) rows v :
  ~ unused env f rows v ->
  exists j r, list_find (fun r => collation_eq env (f r) v = true) rows = Some (j, r).
Proof.
  unfold unused. intros H.
  destruct (existsb _ rows) eqn:E; [| contradiction].
  apply existsb_exists in E. destruct E as (r & Hin & Hr).
  destruct (list_find_elem_of (fun r => collation_eq env (f r) v = true) rows r)
    as [[j r'] Hfind]; [apply list_elem_of_In, Hin | exact Hr |].
  eauto.
Qed.

Lemma list_find_appended {R : Type} env (f : R -> string) rows row v :
  unused env f rows v ->
  collation_eq env (f row) v = true ->
  list_find (fun r => collation_eq env (f r) v = true) (rows ++ [row])
  = Some (length rows, row).
Proof.
  intros Hun Hrow. rewrite list_find_app_r by (apply list_find_fresh, Hun).
  cbn [list_find]. rewrite decide_True by exact Hrow. reflexivity.
Qed.

Lemma execute_insert_user env db username email phone hash is_staff :
  unused env CustomUser.username (custom_user db) username ->
  unused env CustomUser.email (custom_user db) email ->
  unused env CustomUser.user_id (custom_user db) (uuid4_row env) ->
  is_text phone = true ->
  dbms_accepts env ->
  execute env
    (INSERT_custom_user (NewUser.make (JStr username) (JStr email) phone hash is_staff)) db
  = inr (with_users db
           (custom_user db ++
              [CustomUser.make (next_id CustomUser.id (custom_user db)) (uuid4_row env)
                 username email (text_of phone) hash 0 is_staff (utcnow env)])).
Proof.
  intros Hfn Hfe Hfu Hphone Hacc. unfold execute. rewrite Hacc.
  cbn [apply_statement NewUser.username NewUser.email NewUser.phone_number
         NewUser.password_hash NewUser.is_staff].
  rewrite (string_column_text env phone) by exact Hphone.
  cbn [string_column bind_sum not_null].
  rewrite (unique_fresh _ _ _ _ _ Hfu), (unique_fresh _ _ _ _ _ Hfn),
    (unique_fresh _ _ _ _ _ Hfe).
  reflexivity.
Qed.

Lemma register_serve env db request items username email password :
  method request = "POST" ->
  get_json request = inr (JDict items) ->
  account_body items username email password ->
  is_text (get items "phone_number") = true ->
  new_account env db username email ->
  dbms_accepts env ->
  serve (register env request) db
  = (Responded (registered_response env),
     with_users db
       (custom_user db ++
          [account_row env db username email (text_of (get items "phone_number"))
             password false])).
Proof.
  intros Hpost Hjson (Hname & Hemail & Hpw) Hphone (Hfn & Hfe & Hfu) Hacc.
  unfold serve, register. rewrite Hpost. cbn [String.eqb Ascii.eqb Bool.eqb].
  rewrite Hjson, bind_lift_inr. cbn [subscript].
  rewrite Hname, bind_lift_inr.
  erewrite bind_val; [| apply first_user_clean].
  unfold by_username, column_eq. rewrite (list_find_fresh _ _ _ _ Hfn).
  cbn [fmap option_fmap option_map].
  rewrite Hemail, bind_lift_inr.
  erewrite bind_val; [| apply first_user_clean].
  unfold by_email, column_eq. rewrite (list_find_fresh _ _ _ _ Hfe).
  cbn [fmap option_fmap option_map].
  rewrite !bind_lift_inr. cbn [py_get]. rewrite bind_lift_inr, Hpw, bind_lift_inr.
  cbn [password_hash_of]. rewrite bind_lift_inr.
  erewrite bind_val; [| reflexivity].
  cbn [pending view stored app List.filter length Nat.add].
  erewrite bind_val; cycle 1.
  { eapply commit_val; [| apply Hacc]. cbn [execute_all].
    rewrite execute_insert_user by assumption. reflexivity. }
  erewrite bind_val; cycle 1.
  { apply user_obj_val. cbn [view with_users custom_user].
    rewrite Nat.add_0_r. apply list_lookup_middle. reflexivity. }
  reflexivity.
Qed.

Lemma municipal_register_serve env db request items username email password :
  method request = "POST" ->
  get_json request = inr (JDict items) ->
  account_body items username email password ->
  new_account env db username email ->
  dbms_accepts env ->
  serve (municipal_register env request) db
  = (Responded (staff_registered_response env),
     with_users db
       (custom_user db ++ [account_row env db username email None password true])).
Proof.
  intros Hpost Hjson (Hname & Hemail & Hpw) (Hfn & Hfe & Hfu) Hacc.
  unfold serve, municipal_register. rewrite Hpost. cbn [String.eqb Ascii.eqb Bool.eqb].
  rewrite Hjson, bind_lift_inr. cbn [subscript].
  rewrite Hname, bind_lift_inr.
  erewrite bind_val; [| apply first_user_clean].
  unfold by_username, column_eq. rewrite (list_find_fresh _ _ _ _ Hfn).
  cbn [fmap option_fmap option_map].
  rewrite Hemail, bind_lift_inr.
  erewrite bind_val; [| apply first_user_clean].
  unfold by_email, column_eq. rewrite (list_find_fresh _ _ _ _ Hfe).
  cbn [fmap option_fmap option_map].
  rewrite !bind_lift_inr, Hpw, bind_lift_inr.
  cbn [password_hash_of]. rewrite bind_lift_inr.
  erewrite bind_val; [| reflexivity].
  cbn [pending view stored app List.filter length Nat.add].
  erewrite bind_val; cycle 1.
  { eapply commit_val; [| apply Hacc]. cbn [execute_all].
    rewrite execute_insert_user by (assumption || reflexivity). reflexivity. }
  erewrite bind_val; cycle 1.
  { apply user_obj_val. cbn [view with_users custom_user].
    rewrite Nat.add_0_r. apply list_lookup_middle. reflexivity. }
  reflexivity.
Qed.

(** X7.  A registration with a username and an email that no user has: one
    user is appended, the answer is 201 with the [user_id] of the new row,
    the password is stored as [generate_password_hash] returns it, the row
    starts with no credits, and it is never staff, whatever else the body
    holds. *)
Theorem register_creates_user env db request items username email password :
  method request = "POST" ->
  get_json request = inr (JDict items) ->
  account_body items username email password ->
  is_text (get items "phone_number") = true ->
  new_account env db username email ->
  dbms_accepts env ->
  exists db' row,
    serve (register env request) db = (Responded (registered_response env), db')
    /\ custom_user db' = custom_user db ++ [row]
    /\ CustomUser.user_id row = uuid4_row env
    /\ CustomUser.username row = username
    /\ CustomUser.email row = email
    /\ CustomUser.phone_number row = text_of (get items "phone_number")
    /\ CustomUser.password_hash row = generate_password_hash env password
    /\ CustomUser.is_staff row = false
    /\ CustomUser.credits row = 0
    /\ pothole_report db' = pothole_report db
    /\ municipal_verification db' = municipal_verification db.
Proof.
  intros. eexists _, _. split.
  { eapply register_serve; eassumption. }
  repeat split; reflexivity.
Qed.

(** X8.  [municipal_register] with a username and an email that no user has
    appends one user with the staff flag and answers 201 with its
    [user_id]; the tables it leaves are exactly those that
    [create_staff_user] leaves for the same request. *)
Theorem municipal_register_creates_staff env db request items username email password :
  method request = "POST" ->
  get_json request = inr (JDict items) ->
  account_body items username email password ->
  new_account env db username email ->
  dbms_accepts env ->
  exists db' row,
    serve (municipal_register env request) db
    = (Responded (staff_registered_response env), db')
    /\ custom_user db' = custom_user db ++ [row]
    /\ CustomUser.user_id row = uuid4_row env
    /\ CustomUser.username row = username
    /\ CustomUser.email row = email
    /\ CustomUser.is_staff row = true
    /\ snd (serve (create_staff_user env request) db) = db'.
Proof.
  intros Hpost Hjson Hbody Hnew Hacc. eexists _, _. split.
  { eapply municipal_register_serve; eassumption. }
  repeat split; try reflexivity.
  destruct Hbody as (Hname & Hemail & Hpw). destruct Hnew as (Hfn & Hfe & Hfu).
  rewrite (create_staff_user_serve env db request items username email password)
    by assumption.
  reflexivity.
Qed.

Lemma registration_taken_username env db request items username route :
  In route [register env request; municipal_register env request] ->
  method request = "POST" ->
  get_json request = inr (JDict items) ->
  dict_get items "username" = Some (JStr username) ->
  ~ unused env CustomUser.username (custom_user db) username ->
  serve route db
  = (Responded (jsonify (error_body "Username already exists") 400), db).
Proof.
  intros Hin Hpost Hjson Hname Htaken.
  destruct (list_find_taken _ _ _ _ Htaken) as (j & u & Hfind).
  cbn [In] in Hin. destruct Hin as [<- | [<- | []]].
  - unfold serve, register. rewrite Hpost. cbn [String.eqb Ascii.eqb Bool.eqb].
    rewrite Hjson, bind_lift_inr. cbn [subscript].
    rewrite Hname, bind_lift_inr.
    erewrite bind_val; [| apply first_user_clean].
    unfold by_username, column_eq. rewrite Hfind. reflexivity.
  - unfold serve, municipal_register. rewrite Hpost. cbn [String.eqb Ascii.eqb Bool.eqb].
    rewrite Hjson, bind_lift_inr. cbn [subscript].
    rewrite Hname, bind_lift_inr.
    erewrite bind_val; [| apply first_user_clean].
    unfold by_username, column_eq. rewrite Hfind. reflexivity.
Qed.

Lemma registration_taken_email env db request items username email route :
  In route [register env request; municipal_register env request] ->
  method request = "POST" ->
  get_json request = inr (JDict items) ->
  dict_get items "username" = Some (JStr username) ->
  dict_get items "email" = Some (JStr email) ->
  unused env CustomUser.username (custom_user db) username ->
  ~ unused env CustomUser.email (custom_user db) email ->
  serve route db = (Responded (jsonify (error_body "Email already exists") 400), db).
Proof.
  intros Hin Hpost Hjson Hname Hemail Hfn Htaken.
  destruct (list_find_taken _ _ _ _ Htaken) as (j & u & Hfind).
  cbn [In] in Hin. destruct Hin as [<- | [<- | []]].
  - unfold serve, register. rewrite Hpost. cbn [String.eqb Ascii.eqb Bool.eqb].
    rewrite Hjson, bind_lift_inr. cbn [subscript].
    rewrite Hname, bind_lift_inr.
    erewrite bind_val; [| apply first_user_clean].
    unfold by_username, column_eq. rewrite (list_find_fresh _ _ _ _ Hfn).
    cbn [fmap option_fmap option_map].
    rewrite Hemail, bind_lift_inr.
    erewrite bind_val; [| apply first_user_clean].
    unfold by_email, column_eq. rewrite Hfind. reflexivity.
  - unfold serve, municipal_register. rewrite Hpost. cbn [String.eqb Ascii.eqb Bool.eqb].
    rewrite Hjson, bind_lift_inr. cbn [subscript].
    rewrite Hname, bind_lift_inr.
    erewrite bind_val; [| apply first_user_clean].
    unfold by_username, column_eq. rewrite (list_find_fresh _ _ _ _ Hfn).
    cbn [fmap option_fmap option_map].
    rewrite Hemail, bind_lift_inr.
    erewrite bind_val; [| apply first_user_clean].
    unfold by_email, column_eq. rewrite Hfind. reflexivity.
Qed.

(** X9.  [register] and [municipal_register] refuse a taken name before they
    write: a username that a user has gives 400 [Username already
    exists], whatever the rest of the body; a fresh username with an email
    that a user has gives 400 [Email already exists]; in both cases the
    tables stay as they are.  (The comparison is the one of the column's
    collation.) *)
Theorem registration_rejects_duplicates env db request items username route :
  In route [register env request; municipal_register env request] ->
  method request = "POST" ->
  get_json request = inr (JDict items) ->
  dict_get items "username" = Some (JStr username) ->
  (~ unused env CustomUser.username (custom_user db) username ->
   serve route db
   = (Responded (jsonify (error_body "Username already exists") 400), db))
  /\ (forall email,
        unused env CustomUser.username (custom_user db) username ->
        dict_get items "email" = Some (JStr email) ->
        ~ unused env CustomUser.email (custom_user db) email ->
        serve route db
        = (Responded (jsonify (error_body "Email already exists") 400), db)).
Proof.
  intros Hin Hpost Hjson Hname. split.
  - intros Htaken. eapply registration_taken_username; eassumption.
  - intros email Hfn Hemail Htaken. eapply registration_taken_email; eassumption.
Qed.

(** ** Login *)

Lemma login_known_user (pf : Platform) db request items username j u s :
  method request = "POST" ->
  get_json request = inr (JDict items) ->
  dict_get items "username" = Some (JStr username) ->
  find_username pf db username = Some (j, u) ->
  login pf request s (mkSession db db [])
  = (password <- lift (subscript (JDict items) "password") ;;
     ok <- lift (check_password_hash pf (CustomUser.password_hash u) password) ;;
     if ok then ret (session_of u, jsonify (login_body u) 200)
     else ret (s, jsonify (error_body "Invalid credentials") 401))
      (mkSession db db []).
Proof.
  intros Hpost Hjson Hname Hfind.
  unfold login. rewrite Hpost. cbn [String.eqb Ascii.eqb Bool.eqb].
  rewrite Hjson, bind_lift_inr. cbn [subscript].
  rewrite Hname, bind_lift_inr.
  erewrite bind_val; [| apply first_user_clean].
  unfold find_username in Hfind. rewrite Hfind.
  cbn [fmap option_fmap option_map fst].
  erewrite bind_val;
    [| apply user_obj_val; cbn [view]; apply list_find_Some in Hfind; apply Hfind].
  reflexivity.
Qed.

Lemma login_checked (pf : Platform) db request items username j u s password ok :
  method request = "POST" ->
  get_json request = inr (JDict items) ->
  dict_get items "username" = Some (JStr username) ->
  find_username pf db username = Some (j, u) ->
  dict_get items "password" = Some password ->
  check_password_hash pf (CustomUser.password_hash u) password = inr ok ->
  serve_with_session (login pf request s) s db
  = if ok
    then (Responded (jsonify (login_body u) 200), session_of u, db)
    else (Responded (unauthorized "Invalid credentials"), s, db).
Proof.
  intros Hpost Hjson Hname Hfind Hpw Hcheck. unfold serve_with_session.
  rewrite (login_known_user pf db request items username j u s) by assumption.
  cbn [subscript]. rewrite Hpw, bind_lift_inr, Hcheck, bind_lift_inr.
  destruct ok; reflexivity.
Qed.

(** X10.  [login] on a body with a username.  When no user has the username the
    answer is 401 and the password is not looked at (the body need not
    have one).  Otherwise the password is checked against the hash of the
    first user with that username: on success the three keys of the
    session become the [user_id], username and staff flag of that user,
    on failure the answer is 401 and the session is left as it was; a
    body without a password makes the view raise [KeyError].  The tables
    are never written. *)
Theorem login_outcome (pf : Platform) db request items username s :
  method request = "POST" ->
  get_json request = inr (JDict items) ->
  dict_get items "username" = Some (JStr username) ->
  (find_username pf db username = None ->
   serve_with_session (login pf request s) s db
   = (Responded (unauthorized "Invalid credentials"), s, db))
  /\ (forall j u,
        find_username pf db username = Some (j, u) ->
        (dict_get items "password" = None ->
         serve_with_session (login pf request s) s db
         = (Uncaught (mkExn KeyError "'password'"), s, db))
        /\ (forall password ok,
              dict_get items "password" = Some password ->
              check_password_hash pf (CustomUser.password_hash u) password = inr ok ->
              serve_with_session (login pf request s) s db
              = if ok
                then (Responded (jsonify (login_body u) 200), session_of u, db)
                else (Responded (unauthorized "Invalid credentials"), s, db))).
Proof.
  intros Hpost Hjson Hname. split.
  - intros Hfind. unfold serve_with_session, login.
    rewrite Hpost. cbn [String.eqb Ascii.eqb Bool.eqb].
    rewrite Hjson, bind_lift_inr. cbn [subscript].
    rewrite Hname, bind_lift_inr.
    erewrite bind_val; [| apply first_user_clean].
    unfold find_username in Hfind. rewrite Hfind. reflexivity.
  - intros j u Hfind. split.
    + intros Hpw. unfold serve_with_session.
      rewrite (login_known_user pf db request items username j u s) by assumption.
      cbn [subscript]. rewrite Hpw. reflexivity.
    + intros password ok Hpw Hcheck.
      now apply (login_checked pf db request items username j u s password ok).
Qed.

Lemma municipal_login_known_user (pf : Platform) db request items username j u s :
  method request = "POST" ->
  get_json request = inr (JDict items) ->
  dict_get items "username" = Some (JStr username) ->
  find_username pf db username = Some (j, u) ->
  municipal_login pf request s (mkSession db db [])
  = (password <- lift (subscript (JDict items) "password") ;;
     ok <- lift (check_password_hash pf (CustomUser.password_hash u) password) ;;
     if ok && CustomUser.is_staff u
     then ret (session_of u, jsonify (login_body u) 200)
     else ret (s, jsonify
                    (error_body "Invalid credentials or insufficient privileges") 401))
      (mkSession db db []).
Proof.
  intros Hpost Hjson Hname Hfind.
  unfold municipal_login. rewrite Hpost. cbn [String.eqb Ascii.eqb Bool.eqb].
  rewrite Hjson, bind_lift_inr. cbn [subscript].
  rewrite Hname, bind_lift_inr.
  erewrite bind_val; [| apply first_user_clean].
  unfold find_username in Hfind. rewrite Hfind.
  cbn [fmap option_fmap option_map fst].
  erewrite bind_val;
    [| apply user_obj_val; cbn [view]; apply list_find_Some in Hfind; apply Hfind].
  reflexivity.
Qed.

Lemma municipal_login_checked (pf : Platform) db request items username j u s
    password ok :
  method request = "POST" ->
  get_json request = inr (JDict items) ->
  dict_get items "username" = Some (JStr username) ->
  find_username pf db username = Some (j, u) ->
  dict_get items "password" = Some password ->
  check_password_hash pf (CustomUser.password_hash u) password = inr ok ->
  serve_with_session (municipal_login pf request s) s db
  = if ok && CustomUser.is_staff u
    then (Responded (jsonify (login_body u) 200), session_of u, db)
    else (Responded (unauthorized "Invalid credentials or insufficient privileges"),
          s, db).
Proof.
  intros Hpost Hjson Hname Hfind Hpw Hcheck. unfold serve_with_session.
  rewrite (municipal_login_known_user pf db request items username j u s)
    by assumption.
  cbn [subscript]. rewrite Hpw, bind_lift_inr, Hcheck, bind_lift_inr.
  destruct (ok && CustomUser.is_staff u); reflexivity.
Qed.

(** X11.  [municipal_login] lets in staff only: for a user whose password
    checks, the session is written when the user has the staff flag, and
    otherwise the answer is 401 [Invalid credentials or insufficient
    privileges], the same as for a wrong password or an unknown username,
    and the session is left as it was. *)
Theorem municipal_login_requires_staff (pf : Platform) db request items username s :
  method request = "POST" ->
  get_json request = inr (JDict items) ->
  dict_get items "username" = Some (JStr username) ->
  (find_username pf db username = None ->
   serve_with_session (municipal_login pf request s) s db
   = (Responded (unauthorized "Invalid credentials or insufficient privileges"), s, db))
  /\ (forall j u password ok,
        find_username pf db username = Some (j, u) ->
        dict_get items "password" = Some password ->
        check_password_hash pf (CustomUser.password_hash u) password = inr ok ->
        serve_with_session (municipal_login pf request s) s db
        = if ok && CustomUser.is_staff u
          then (Responded (jsonify (login_body u) 200), session_of u, db)
          else (Responded
                  (unauthorized "Invalid credentials or insufficient privileges"),
                s, db)).
Proof.
  intros Hpost Hjson Hname. split.
  - intros Hfind. unfold serve_with_session, municipal_login.
    rewrite Hpost. cbn [String.eqb Ascii.eqb Bool.eqb].
    rewrite Hjson, bind_lift_inr. cbn [subscript].
    rewrite Hname, bind_lift_inr.
    erewrite bind_val; [| apply first_user_clean].
    unfold find_username in Hfind. rewrite Hfind. reflexivity.
  - intros j u password ok Hfind Hpw Hcheck.
    now apply (municipal_login_checked pf db request items username j u s password ok).
Qed.

Lemma find_username_appended env db username row :
  unused env CustomUser.username (custom_user db) username ->
  collation_eq env (CustomUser.username row) username = true ->
  find_username env (with_users db (custom_user db ++ [row])) username
  = Some (length (custom_user db), row).
Proof.
  intros Hun Hrow. unfold find_username, by_username, column_eq.
  cbn [with_users custom_user]. now apply list_find_appended.
Qed.

Lemma find_user_appended env db uid row :
  unused env CustomUser.user_id (custom_user db) uid ->
  collation_eq env (CustomUser.user_id row) uid = true ->
  find_user env (with_users db (custom_user db ++ [row])) uid
  = Some (length (custom_user db), row).
Proof.
  intros Hun Hrow. unfold find_user, by_user_id.
  cbn [with_users custom_user]. now apply list_find_appended.
Qed.

Lemma find_username_collation env env' db username :
  same_collation env env' ->
  find_username env' db username = find_username env db username.
Proof.
  intros H. unfold find_username, by_username, column_eq. apply list_find_ext.
  intros u. now rewrite H.
Qed.

Lemma find_user_same_collation env env' db uid :
  same_collation env env' -> find_user env' db uid = find_user env db uid.
Proof.
  intros H. unfold find_user, by_user_id. apply list_find_ext.
  intros u. now rewrite H.
Qed.

(** X12.  Registration and login fit together: after a registration that
    succeeded, a later login with the same username and password succeeds
    on the tables the registration left, and the session it writes names
    the new user: its [user_id] is the one the registration returned, and
    it is not staff.  (The password check is assumed to accept the hash
    that [generate_password_hash] made of the same password, and the
    collation to find a username equal to itself.) *)
Theorem register_then_login env (pf : Platform) db request items username email password
    attempt credentials s :
  method request = "POST" ->
  get_json request = inr (JDict items) ->
  account_body items username email password ->
  is_text (get items "phone_number") = true ->
  new_account env db username email ->
  dbms_accepts env ->
  same_collation env pf ->
  collation_eq env username username = true ->
  check_password_hash pf (generate_password_hash env password) (JStr password)
  = inr true ->
  method attempt = "POST" ->
  get_json attempt = inr (JDict credentials) ->
  dict_get credentials "username" = Some (JStr username) ->
  dict_get credentials "password" = Some (JStr password) ->
  exists db' s',
    serve (register env request) db = (Responded (registered_response env), db')
    /\ serve_with_session (login pf attempt s) s db'
       = (Responded
            (jsonify (JDict [("message", JStr "Login successful");
                             ("is_staff", JBool false)]) 200),
          s', db')
    /\ session.user_id s' = Some (uuid4_row env)
    /\ session.username s' = Some username
    /\ session.is_staff s' = Some false.
Proof.
  intros Hpost Hjson Hbody Hphone Hnew Hacc Hsame Hrefl Hcheck Hpost' Hjson' Hname' Hpw'.
  set (row := account_row env db username email
                (text_of (get items "phone_number")) password false).
  exists (with_users db (custom_user db ++ [row])), (session_of row). split.
  { eapply register_serve; eassumption. }
  destruct Hnew as (Hfn & _ & _).
  pose proof (find_username_appended env db username row Hfn Hrefl) as Hfind.
  rewrite <- (find_username_collation env pf _ _ Hsame) in Hfind.
  pose proof (login_checked pf (with_users db (custom_user db ++ [row])) attempt
                credentials username _ _ s (JStr password) true
                Hpost' Hjson' Hname' Hfind Hpw' Hcheck) as Hok.
  split; [exact Hok |]. repeat split; reflexivity.
Qed.

(** X13.  Staff registration and staff login fit together: after a
    [municipal_register] that succeeded, a later [municipal_login] with
    the same username and password writes a session that [staff_required]
    lets through on the tables the registration left.  Neither of the two
    requests needs a session. *)
Theorem municipal_register_then_login env (pf : Platform) db request items username
    email password attempt credentials s :
  method request = "POST" ->
  get_json request = inr (JDict items) ->
  account_body items username email password ->
  new_account env db username email ->
  dbms_accepts env ->
  same_collation env pf ->
  collation_eq env username username = true ->
  collation_eq env (uuid4_row env) (uuid4_row env) = true ->
  check_password_hash pf (generate_password_hash env password) (JStr password)
  = inr true ->
  method attempt = "POST" ->
  get_json attempt = inr (JDict credentials) ->
  dict_get credentials "username" = Some (JStr username) ->
  dict_get credentials "password" = Some (JStr password) ->
  exists db' s' response,
    serve (municipal_register env request) db
    = (Responded (staff_registered_response env), db')
    /\ serve_with_session (municipal_login pf attempt s) s db'
       = (Responded response, s', db')
    /\ status_code response = Some 200
    /\ staff_session pf db' s'.
Proof.
  intros Hpost Hjson Hbody Hnew Hacc Hsame Hrefl Hrefl' Hcheck Hpost' Hjson' Hname' Hpw'.
  set (row := account_row env db username email None password true).
  exists (with_users db (custom_user db ++ [row])), (session_of row),
    (jsonify (login_body row) 200).
  split.
  { eapply municipal_register_serve; eassumption. }
  destruct Hnew as (Hfn & _ & Hfu).
  pose proof (find_username_appended env db username row Hfn Hrefl) as Hfind.
  rewrite <- (find_username_collation env pf _ _ Hsame) in Hfind.
  pose proof (municipal_login_checked pf (with_users db (custom_user db ++ [row]))
                attempt credentials username _ _ s (JStr password) true
                Hpost' Hjson' Hname' Hfind Hpw' Hcheck) as Hknown.
  split; [exact Hknown |]. split; [reflexivity |].
  exists (uuid4_row env), (length (custom_user db)), row.
  split; [reflexivity |]. split; [| reflexivity].
  rewrite (find_user_same_collation env pf _ _ Hsame).
  apply find_user_appended; assumption.
Qed.

(** ** Profile and dashboard *)

Lemma dict_get_keys items k : dict_get items k <> None <-> In k (map fst items).
Proof.
  induction items as [| [k' v] items IH]; cbn [dict_get map fst In].
  - split; [intros H; now destruct H | intros []].
  - destruct (String.eqb_spec k' k) as [-> | Hne].
    + split; [auto | discriminate].
    + rewrite IH. split; [auto | intros [H | H]; [contradiction | exact H]].
Qed.

(** X14.  [user_profile] answers with the account of the session's user: its
    username, email, phone number, credits and staff flag, and neither its
    password hash nor its [user_id].  A session whose user is not in the
    table makes the view raise [AttributeError].  The tables are left as
    they are. *)
Theorem user_profile_outcome env db s uid :
  session.user_id s = Some uid ->
  (forall j u,
     find_user env db uid = Some (j, u) ->
     exists items,
       serve (user_profile env s) db = (Responded (jsonify (JDict items) 200), db)
       /\ (forall k,
             dict_get items k <> None
             <-> In k ["username"; "email"; "phone_number"; "credits"; "is_staff"])
       /\ dict_get items "username" = Some (JStr (CustomUser.username u))
       /\ dict_get items "email" = Some (JStr (CustomUser.email u))
       /\ dict_get items "phone_number" = Some (json_opt_str (CustomUser.phone_number u))
       /\ dict_get items "credits" = Some (JInt (CustomUser.credits u))
       /\ dict_get items "is_staff" = Some (JBool (CustomUser.is_staff u)))
  /\ (find_user env db uid = None ->
      serve (user_profile env s) db
      = (Uncaught (mkExn AttributeError "'NoneType' object has no attribute 'username'"),
         db)).
Proof.
  intros Hs. split.
  - intros j u Hfind. eexists. split.
    + unfold serve, user_profile, login_required. rewrite Hs.
      unfold session_user_id. rewrite Hs, bind_lift_inr.
      erewrite bind_val; [| apply first_user_clean].
      unfold find_user in Hfind. rewrite Hfind.
      cbn [fmap option_fmap option_map fst].
      erewrite bind_val;
        [| apply user_obj_val; cbn [view]; apply list_find_Some in Hfind; apply Hfind].
      reflexivity.
    + split; [intros k; apply dict_get_keys |]. repeat split; reflexivity.
  - intros Hfind. unfold serve, user_profile, login_required. rewrite Hs.
    unfold session_user_id. rewrite Hs, bind_lift_inr.
    erewrite bind_val; [| apply first_user_clean].
    unfold find_user in Hfind. rewrite Hfind. reflexivity.
Qed.

(** X15.  [dashboard] picks the page by the staff flag of the session's user as
    the table has it now, not by the [is_staff] key of the session; a
    session whose user is not in the table makes the view raise
    [AttributeError]. *)
Theorem dashboard_by_role env db s uid :
  session.user_id s = Some uid ->
  serve (dashboard env s) db
  = (match find_user env db uid with
     | Some (_, u) =>
         Responded (render_template (if CustomUser.is_staff u
                                     then "municipal_dashboard.html"
                                     else "user_dashboard.html"))
     | None =>
         Uncaught (mkExn AttributeError "'NoneType' object has no attribute 'is_staff'")
     end,
     db).
Proof.
  intros Hs. unfold serve, dashboard, login_required. rewrite Hs.
  unfold session_user_id. rewrite Hs, bind_lift_inr.
  erewrite bind_val; [| apply first_user_clean].
  unfold find_user. destruct (list_find _ _) as [[j u] |] eqn:Hfind; [| reflexivity].
  cbn [fmap option_fmap option_map fst].
  erewrite bind_val;
    [| apply user_obj_val; cbn [view]; apply list_find_Some in Hfind; apply Hfind].
  destruct (CustomUser.is_staff u); reflexivity.
Qed.

(** ** Listings *)

Lemma permutation_in_iff {A : Type} (l l' : list A) x :
  Permutation l l' -> In x l <-> In x l'.
Proof.
  intros H. split; apply Permutation_in; [exact H | symmetry; exact H].
Qed.

Lemma my_reports_serve (pf : Platform) db s uid :
  session.user_id s = Some uid ->
  serve (my_reports pf s) db
  = (Responded
       (jsonify
          (JList (map my_entry
                    (order_by_created_at_desc pf
                       (List.filter (by_owner pf uid) (pothole_report db)))))
          200),
     db).
Proof.
  intros Hs. unfold serve, my_reports, login_required. rewrite Hs.
  unfold session_user_id. rewrite Hs, bind_lift_inr.
  erewrite bind_val; [| reflexivity].
  cbn [view]. rewrite fold_append_map. reflexivity.
Qed.

(** X16.  [my_reports] lists the reports whose [user_id] is the one of the
    session, each once and newest first, and no report of anybody else;
    it does so whether or not the user is in the table. *)
Theorem my_reports_lists_own (pf : Platform) db s uid :
  session.user_id s = Some uid ->
  ordered pf (List.filter (by_owner pf uid) (pothole_report db)) ->
  exists reports,
    serve (my_reports pf s) db
    = (Responded (jsonify (JList (map my_entry reports)) 200), db)
    /\ Permutation reports (List.filter (by_owner pf uid) (pothole_report db))
    /\ (forall r,
          In r reports
          <-> In r (pothole_report db)
              /\ collation_eq pf (PotholeReport.user_id r) uid = true)
    /\ newest_first reports = true.
Proof.
  intros Hs [Hperm Hsorted].
  exists (order_by_created_at_desc pf (List.filter (by_owner pf uid) (pothole_report db))).
  split; [apply my_reports_serve, Hs |].
  split; [exact Hperm |]. split; [| exact Hsorted].
  intros r. rewrite (permutation_in_iff _ _ r Hperm), filter_In.
  reflexivity.
Qed.

Lemma staff_entries_clean env db reports acc :
  staff_entries env reports acc (mkSession db db [])
  = match mapM (staff_row env db) reports with
    | Some entries => Val (acc ++ entries) (mkSession db db [])
    | None => Raise no_username (mkSession db db [])
    end.
Proof.
  revert acc. induction reports as [| report rest IH]; intros acc.
  - cbn. now rewrite app_nil_r.
  - cbn [staff_entries].
    erewrite bind_val; [| apply first_user_clean].
    change (mapM (staff_row env db) (report :: rest))
      with (staff_row env db report
            ≫= λ y, mapM (staff_row env db) rest ≫= λ k, mret (y :: k)).
    destruct (list_find _ _) as [[j u] |] eqn:Hfind.
    2: { replace (staff_row env db report) with (@None json)
           by (unfold staff_row, owner_of, find_user; now rewrite Hfind).
         reflexivity. }
    replace (staff_row env db report) with (Some (staff_entry report u))
      by (unfold staff_row, owner_of, find_user; now rewrite Hfind).
    cbn [fmap option_fmap option_map fst snd mbind option_bind].
    erewrite bind_val;
      [| apply user_obj_val; cbn [view]; apply list_find_Some in Hfind; apply Hfind].
    rewrite IH.
    destruct (mapM (staff_row env db) rest) as [entries |]; cbn; [| reflexivity].
    now rewrite <- app_assoc.
Qed.

Lemma staff_listing_serve (pf : Platform) db s p :
  staff_session pf db s ->
  serve (staff_required pf s
           (rows <- all_reports_where pf p ;;
            reports_data <- staff_entries pf (order_by_created_at_desc pf rows) [] ;;
            ret (jsonify (JList reports_data) 200))) db
  = (match mapM (staff_row pf db)
             (order_by_created_at_desc pf (List.filter p (pothole_report db))) with
     | Some entries => Responded (jsonify (JList entries) 200)
     | None => Uncaught no_username
     end,
     db).
Proof.
  intros Hstaff. unfold serve. rewrite staff_required_pass by exact Hstaff.
  erewrite bind_val; [| reflexivity].
  cbn [view]. unfold bind at 1. rewrite staff_entries_clean.
  destruct (mapM _ _); reflexivity.
Qed.

Lemma staff_rows_exist env db reports :
  (forall r, In r reports -> is_Some (owner_of env db r)) ->
  exists entries,
    mapM (staff_row env db) reports = Some entries
    /\ Forall2 (fun r e => exists u, owner_of env db r = Some u /\ e = staff_entry r u)
         reports entries.
Proof.
  intros Howners.
  destruct (mapM_is_Some_2 (staff_row env db) reports) as [entries Hentries].
  { apply Forall_forall. intros r Hr. apply list_elem_of_In in Hr.
    destruct (Howners r Hr) as [u Hu]. unfold compose, staff_row. rewrite Hu.
    eexists. reflexivity. }
  exists entries. split; [exact Hentries |].
  apply mapM_Some_1 in Hentries.
  eapply Forall2_impl; [exact Hentries |].
  intros r e. unfold staff_row. destruct (owner_of env db r) as [u |]; [| discriminate].
  intros [= <-]. eauto.
Qed.

(** X17.  [pending_reports], for a staff session: the answer lists the reports
    whose status is PENDING, each once and newest first, every entry with
    the username of the user that the report's [user_id] names; reports
    with any other status are left out. *)
Theorem pending_reports_lists_pending (pf : Platform) db s :
  staff_session pf db s ->
  ordered pf (List.filter (by_status PENDING) (pothole_report db)) ->
  (forall r,
     In r (pothole_report db) -> PotholeReport.status r = Some PENDING ->
     is_Some (owner_of pf db r)) ->
  exists reports entries,
    serve (pending_reports pf s) db = (Responded (jsonify (JList entries) 200), db)
    /\ Forall2 (fun r e => exists u, owner_of pf db r = Some u /\ e = staff_entry r u)
         reports entries
    /\ (forall r,
          In r reports
          <-> In r (pothole_report db) /\ PotholeReport.status r = Some PENDING)
    /\ Permutation reports (List.filter (by_status PENDING) (pothole_report db))
    /\ newest_first reports = true.
Proof.
  intros Hstaff [Hperm Hsorted] Howners.
  set (reports := order_by_created_at_desc pf
                    (List.filter (by_status PENDING) (pothole_report db))) in *.
  assert (Hmem : forall r,
    In r reports
    <-> In r (pothole_report db) /\ PotholeReport.status r = Some PENDING).
  { intros r. rewrite (permutation_in_iff _ _ r Hperm), filter_In.
    unfold by_status. rewrite bool_decide_eq_true. reflexivity. }
  destruct (staff_rows_exist pf db reports) as (entries & Hentries & Hall).
  { intros r Hr. apply Hmem in Hr. now apply Howners. }
  exists reports, entries. split.
  { unfold pending_reports. rewrite staff_listing_serve by exact Hstaff.
    fold reports. now rewrite Hentries. }
  auto.
Qed.

Lemma filter_all {A : Type} (l : list A) : List.filter (fun _ => true) l = l.
Proof. induction l as [| x l IH]; cbn; congruence. Qed.

(** X18.  [all_reports], for a staff session: the answer has one entry for
    every report of the table, whatever its status, newest first, with
    the username of its owner. *)
Theorem all_reports_lists_all (pf : Platform) db s :
  staff_session pf db s ->
  ordered pf (pothole_report db) ->
  (forall r, In r (pothole_report db) -> is_Some (owner_of pf db r)) ->
  exists reports entries,
    serve (all_reports pf s) db = (Responded (jsonify (JList entries) 200), db)
    /\ Forall2 (fun r e => exists u, owner_of pf db r = Some u /\ e = staff_entry r u)
         reports entries
    /\ Permutation reports (pothole_report db)
    /\ length entries = length (pothole_report db)
    /\ newest_first reports = true.
Proof.
  intros Hstaff [Hperm Hsorted] Howners.
  set (reports := order_by_created_at_desc pf (pothole_report db)) in *.
  destruct (staff_rows_exist pf db reports) as (entries & Hentries & Hall).
  { intros r Hr. apply Howners. eapply Permutation_in; [exact Hperm | exact Hr]. }
  exists reports, entries. split.
  { unfold all_reports. rewrite staff_listing_serve by exact Hstaff.
    rewrite filter_all. fold reports. now rewrite Hentries. }
  split; [exact Hall |]. split; [exact Hperm |]. split; [| exact Hsorted].
  rewrite <- (Forall2_length _ _ _ Hall). apply Permutation_length, Hperm.
Qed.

(** ** More of [report_pothole] *)

(** X19.  What [report_pothole] asks of a request before it uploads anything,
    for a logged-in caller: any method but POST gets the form page, a POST
    without an [image] part gets 400 [No image file provided], and an
    [image] part whose file name is empty gets 400 [No file selected]; the
    tables stay as they are. *)
Theorem report_pothole_requires_image env db request s uid :
  session.user_id s = Some uid ->
  (method request <> "POST" ->
   serve (report_pothole env request s) db
   = (Responded (render_template "report_pothole.html"), db))
  /\ (method request = "POST" ->
      lookup_key (files request) "image" = None ->
      serve (report_pothole env request s) db
      = (Responded (jsonify (error_body "No image file provided") 400), db))
  /\ (forall file,
        method request = "POST" ->
        lookup_key (files request) "image" = Some file ->
        FileStorage.filename file = EmptyString ->
        serve (report_pothole env request s) db
        = (Responded (jsonify (error_body "No file selected") 400), db)).
Proof.
  intros Hs. unfold serve, report_pothole, login_required. rewrite Hs.
  repeat split.
  - intros Hget. apply String.eqb_neq in Hget. rewrite Hget. reflexivity.
  - intros Hpost Himage. rewrite Hpost, Himage. reflexivity.
  - intros file Hpost Himage Hname. rewrite Hpost, Himage, Hname. reflexivity.
Qed.


(** ** More of [verify_report] *)

(** X21.  [verify_report] on a body it cannot use, for a staff session.  A body
    that is not JSON gives 500 with the text of the parser's exception; a
    body that Python takes for false (an empty object or array, [null],
    [false], [0], an empty string) gives 400 [No data provided]; a body
    that is not an object otherwise gives 500, and so does an object
    without [report_id], with the text [Failed to update report:
    'report_id']; the tables stay as they are. *)
Theorem verify_report_rejects_bad_body env db s request :
  staff_session env db s ->
  (forall e,
     get_json request = inl e ->
     serve (verify_report env request s) db
     = (Responded
          (jsonify (error_body ("Failed to update report: " ++ exn_str e)%string) 500),
        db))
  /\ (forall data,
        get_json request = inr data ->
        truthy data = false ->
        serve (verify_report env request s) db
        = (Responded (jsonify (error_body "No data provided") 400), db))
  /\ (forall data,
        get_json request = inr data ->
        truthy data = true ->
        (forall items, data <> JDict items) ->
        exists msg,
          serve (verify_report env request s) db
          = (Responded
               (jsonify (error_body ("Failed to update report: " ++ msg)%string) 500),
             db))
  /\ (forall items,
        get_json request = inr (JDict items) ->
        items <> [] ->
        dict_get items "report_id" = None ->
        serve (verify_report env request s) db
        = (Responded
             (jsonify (error_body "Failed to update report: 'report_id'") 500),
           db)).
Proof.
  intros Hstaff. repeat split.
  - intros e Hjson. eapply verify_report_except; [exact Hstaff |].
    unfold verify_report_try. rewrite Hjson. reflexivity.
  - intros data Hjson Hfalsy. unfold serve, verify_report.
    rewrite staff_required_pass by exact Hstaff.
    unfold try_except, verify_report_try.
    rewrite Hjson, bind_lift_inr, Hfalsy. reflexivity.
  - intros data Hjson Htruthy Hother.
    assert (Hsub : exists e, subscript data "report_id" = inl e).
    { destruct data; try (eexists; reflexivity). now destruct (Hother items). }
    destruct Hsub as [e Hsub]. exists (exn_str e).
    eapply verify_report_except; [exact Hstaff |].
    unfold verify_report_try.
    rewrite Hjson, bind_lift_inr, Htruthy. cbn [negb]. rewrite Hsub. reflexivity.
  - intros items Hjson Hitems Hrid.
    apply (verify_report_except env db s request (mkExn KeyError "'report_id'")
             (mkSession db db []) Hstaff).
    unfold verify_report_try. rewrite Hjson, bind_lift_inr.
    destruct items; [contradiction |]. cbn [truthy negb subscript].
    rewrite Hrid. reflexivity.
Qed.


(** ** Rewards have no memory *)

(** X23.  The completion bonus is paid on every call that sets COMPLETED, not
    once per report: for a report that is COMPLETED already, the call
    succeeds, the report table is left exactly as it is, and the owner
    gets 5 credits more. *)
Theorem update_progress_repeats_bonus env db s request items rid i r j u :
  staff_session env db s ->
  get_json request = inr (JDict items) ->
  dict_get items "report_id" = Some (JStr rid) ->
  find_report env db rid = Some (i, r) ->
  PotholeReport.status r = Some COMPLETED ->
  dict_get items "status" = Some (JStr "COMPLETED") ->
  find_user env db (PotholeReport.user_id r) = Some (j, u) ->
  dbms_accepts env ->
  exists db',
    serve (update_progress env request s) db = (Responded progress_response, db')
    /\ pothole_report db' = pothole_report db
    /\ custom_user db'
       = alter (CustomUser.set_credits (CustomUser.credits u + 5)) j (custom_user db)
    /\ municipal_verification db' = municipal_verification db.
Proof.
  intros Hstaff Hjson Hrid Hfind Hdone Hstatus Howner Hacc.
  eexists. split.
  { apply (update_progress_serve env db s request items rid i r "COMPLETED" COMPLETED);
      auto; intros _; rewrite Howner; eexists; reflexivity. }
  unfold progress_db, after_status_change.
  rewrite Howner.
  destruct (decide (COMPLETED = COMPLETED)) as [_ | Hne]; [| contradiction].
  destruct (decide (PotholeReport.status r = Some COMPLETED)); [| contradiction].
  repeat split; reflexivity.
Qed.

(** X24.  The action [approve] of [verify_report] does not look at the
    status of the report: for a report that is VERIFIED already, the call
    succeeds, the report table is left exactly as it is, the owner gets 10
    credits more and one more Verification record is appended. *)
Theorem verify_report_repeats_credits env db s request items rid i r j u :
  staff_session env db s ->
  get_json request = inr (JDict items) ->
  dict_get items "report_id" = Some (JStr rid) ->
  find_report env db rid = Some (i, r) ->
  PotholeReport.status r = Some VERIFIED ->
  dict_get items "action" = Some (JStr "approve") ->
  find_user env db (PotholeReport.user_id r) = Some (j, u) ->
  verification_fields_ok items ->
  dbms_accepts env ->
  exists db' v,
    serve (verify_report env request s) db = (Responded verified_response, db')
    /\ pothole_report db' = pothole_report db
    /\ custom_user db'
       = alter (CustomUser.set_credits (CustomUser.credits u + 10)) j (custom_user db)
    /\ municipal_verification db' = municipal_verification db ++ [v]
    /\ MunicipalVerification.report_id v = PotholeReport.report_id r.
Proof.
  intros Hstaff Hjson Hrid Hfind Hdone Haction Howner Hfields Hacc.
  eexists _, _. split.
  { apply (verify_report_serve env db s request items rid i r (JStr "approve")); auto.
    apply Hfields. }
  unfold verified_db, verification_row, after_verify_changes, after_status_change.
  cbn [eq_str String.eqb Ascii.eqb Bool.eqb].
  rewrite Howner, decide_True by exact Hdone.
  repeat split; reflexivity.
Qed.

(** ** More of [create_staff_user] *)

(** X25.  What [create_staff_user] does with a body it cannot use.  A username
    that a user has gives 400 [Username already exists].  The view has no
    handler: a body without [username] raises [KeyError] at the first
    line, and with a fresh username a body without [email], or with an
    email and without [password], raises [KeyError] after the query; the
    tables stay as they are in every case. *)
Theorem create_staff_user_refuses env db request items :
  get_json request = inr (JDict items) ->
  (dict_get items "username" = None ->
   serve (create_staff_user env request) db = (Uncaught (mkExn KeyError "'username'"), db))
  /\ (forall username,
        dict_get items "username" = Some (JStr username) ->
        (~ unused env CustomUser.username (custom_user db) username ->
         serve (create_staff_user env request) db
         = (Responded (jsonify (error_body "Username already exists") 400), db))
        /\ (unused env CustomUser.username (custom_user db) username ->
            (dict_get items "email" = None ->
             serve (create_staff_user env request) db
             = (Uncaught (mkExn KeyError "'email'"), db))
            /\ (forall email,
                  dict_get items "email" = Some email ->
                  dict_get items "password" = None ->
                  serve (create_staff_user env request) db
                  = (Uncaught (mkExn KeyError "'password'"), db)))).
Proof.
  intros Hjson. split.
  { intros Hname. unfold serve, create_staff_user.
    rewrite Hjson, bind_lift_inr. cbn [subscript]. rewrite Hname. reflexivity. }
  intros username Hname. split.
  { intros Htaken. destruct (list_find_taken _ _ _ _ Htaken) as (j & u & Hfind).
    unfold serve, create_staff_user.
    rewrite Hjson, bind_lift_inr. cbn [subscript].
    rewrite Hname, bind_lift_inr.
    erewrite bind_val; [| apply first_user_clean].
    unfold by_username, column_eq. rewrite Hfind. reflexivity. }
  intros Hfn.
  assert (Hstart :
    serve (create_staff_user env request) db
    = serve (data <- lift (get_json request) ;;
             email <- lift (subscript data "email") ;;
             password <- lift (subscript data "password") ;;
             hash <- lift (password_hash_of env password) ;;
             session_add (INSERT_custom_user
                            (NewUser.make (JStr username) email JNull hash true)) ;;
             commit env ;;
             ret (jsonify (message_body "Staff user created successfully") 201)) db).
  { unfold serve, create_staff_user.
    rewrite Hjson, !bind_lift_inr. cbn [subscript].
    rewrite Hname, !bind_lift_inr.
    erewrite bind_val; [| apply first_user_clean].
    unfold by_username, column_eq. rewrite (list_find_fresh _ _ _ _ Hfn).
    cbn [fmap option_fmap option_map]. rewrite bind_lift_inr. reflexivity. }
  rewrite Hstart.
  unfold serve. rewrite Hjson, bind_lift_inr. cbn [subscript]. split.
  - intros Hemail. rewrite Hemail. reflexivity.
  - intros email Hemail Hpw. rewrite Hemail, bind_lift_inr, Hpw. reflexivity.
Qed.
(** ** The routes that create a row store all of it or nothing *)

Lemma execute_insert_user_inv env o d d' :
  execute env (INSERT_custom_user o) d = inr d' ->
  account_added (NewUser.is_staff o) d d'.
Proof.
  unfold execute. destruct (dbms_rejects env _); [discriminate |].
  cbn [apply_statement].
  repeat (match goal with
          | |- bind_sum ?x _ = _ -> _ => destruct x; cbn [bind_sum]; [discriminate |]
          end).
  intros [= <-]. eexists. repeat split.
Qed.

Lemma execute_insert_report_inv env o d d' :
  execute env (INSERT_pothole_report o) d = inr d' ->
  exists row,
    d' = with_reports d (pothole_report d ++ [row])
    /\ PotholeReport.user_id row = NewReport.user_id o
    /\ PotholeReport.status row = Some PENDING
    /\ PotholeReport.credits_awarded row = 5.
Proof.
  unfold execute. destruct (dbms_rejects env _); [discriminate |].
  cbn [apply_statement].
  repeat (match goal with
          | |- bind_sum ?x _ = _ -> _ => destruct x; cbn [bind_sum]; [discriminate |]
          end).
  intros [= <-]. eexists. repeat split.
Qed.

Lemma execute_credits_inv env j c d d' :
  execute env (UPDATE_custom_user_credits j c) d = inr d' -> d' = db_with_credits j c d.
Proof.
  unfold execute. destruct (dbms_rejects env _); [discriminate |].
  cbn [apply_statement]. now intros [= <-].
Qed.

Lemma execute_one env s d d' :
  execute_all env [s] d = inr d' -> execute env s d = inr d'.
Proof.
  cbn [execute_all]. destruct (execute env s d); cbn [bind_sum]; congruence.
Qed.

Lemma commit_inv env st st' :
  commit env st = Val tt st' ->
  exists d, execute_all env (pending st) (view st) = inr d /\ st' = mkSession d d [].
Proof.
  unfold commit, bind, flush.
  destruct (execute_all env (pending st) (view st)) as [e | d]; [discriminate |].
  cbn [view]. unfold execute. destruct (dbms_rejects env COMMIT); [discriminate |].
  cbn [apply_statement]. intros [= <-]. eauto.
Qed.

(** The two ways a commit ends. *)
Lemma commit_cases env st :
  (exists e st', commit env st = Raise e st' /\ stored st' = stored st)
  \/ (exists d, commit env st = Val tt (mkSession d d [])
                /\ execute_all env (pending st) (view st) = inr d).
Proof.
  destruct (commit env st) as [[] st1 | e st1] eqn:E.
  - right. apply commit_inv in E. destruct E as (d & Hexec & ->). eauto.
  - left. exists e, st1. split; [reflexivity |]. eapply raises_clean_commit, E.
Qed.

Ltac nothing :=
  cbn;
  first [ left; reflexivity
        | right; split; [discriminate | reflexivity] ].

Ltac step_lift :=
  match goal with
  | |- context [bind (lift ?x) _ _] =>
      let e := fresh "e" in
      destruct x as [e |]; [nothing | rewrite bind_lift_inr]
  end.

Lemma register_stores env db request :
  stores_all_or_nothing (account_added false) (serve (register env request) db) db.
Proof.
  unfold serve, register.
  destruct (String.eqb (method request) "POST"); [| nothing].
  step_lift. step_lift.
  erewrite bind_val; [| apply first_user_clean].
  destruct (fst <$> list_find _ _); [nothing |].
  step_lift.
  erewrite bind_val; [| apply first_user_clean].
  destruct (fst <$> list_find _ _); [nothing |].
  rewrite !bind_lift_inr.
  step_lift. step_lift. step_lift.
  erewrite bind_val; [| reflexivity].
  match goal with
  | |- context [bind (commit env) _ ?st] =>
      destruct (commit_cases env st) as [(e & st' & E & Hst) | (d & E & Hexec)]
  end.
  - erewrite bind_raise; [| exact E]. left. exact Hst.
  - erewrite bind_val; [| exact E].
    apply execute_one, execute_insert_user_inv in Hexec.
    unfold bind, user_obj. cbn [view].
    destruct (custom_user d !! _); cbn.
    + left. split; [reflexivity | exact Hexec].
    + right. exact Hexec.
Qed.

Lemma municipal_register_stores env db request :
  stores_all_or_nothing (account_added true)
    (serve (municipal_register env request) db) db.
Proof.
  unfold serve, municipal_register.
  destruct (String.eqb (method request) "POST"); [| nothing].
  step_lift. step_lift.
  erewrite bind_val; [| apply first_user_clean].
  destruct (fst <$> list_find _ _); [nothing |].
  step_lift.
  erewrite bind_val; [| apply first_user_clean].
  destruct (fst <$> list_find _ _); [nothing |].
  rewrite !bind_lift_inr.
  step_lift. step_lift.
  erewrite bind_val; [| reflexivity].
  match goal with
  | |- context [bind (commit env) _ ?st] =>
      destruct (commit_cases env st) as [(e & st' & E & Hst) | (d & E & Hexec)]
  end.
  - erewrite bind_raise; [| exact E]. left. exact Hst.
  - erewrite bind_val; [| exact E].
    apply execute_one, execute_insert_user_inv in Hexec.
    unfold bind, user_obj. cbn [view].
    destruct (custom_user d !! _); cbn.
    + left. split; [reflexivity | exact Hexec].
    + right. exact Hexec.
Qed.

Lemma create_staff_user_stores env db request :
  stores_all_or_nothing (account_added true)
    (serve (create_staff_user env request) db) db.
Proof.
  unfold serve, create_staff_user.
  step_lift. step_lift.
  erewrite bind_val; [| apply first_user_clean].
  destruct (fst <$> list_find _ _); [nothing |].
  rewrite !bind_lift_inr.
  step_lift. step_lift. step_lift.
  erewrite bind_val; [| reflexivity].
  match goal with
  | |- context [bind (commit env) _ ?st] =>
      destruct (commit_cases env st) as [(e & st' & E & Hst) | (d & E & Hexec)]
  end.
  - erewrite bind_raise; [| exact E]. left. exact Hst.
  - erewrite bind_val; [| exact E].
    apply execute_one, execute_insert_user_inv in Hexec.
    cbn. left. split; [reflexivity | exact Hexec].
Qed.

Lemma report_pothole_stores env db request s :
  stores_all_or_nothing (submission_added env s)
    (serve (report_pothole env request s) db) db.
Proof.
  unfold serve, report_pothole, login_required.
  destruct (session.user_id s) as [uid |] eqn:Hs; [| nothing].
  destruct (String.eqb (method request) "POST"); [| nothing].
  destruct (lookup_key (files request) "image") as [file |]; [| nothing].
  destruct (String.eqb (FileStorage.filename file) EmptyString); [nothing |].
  step_lift.
  match goal with
  | |- context [match ?o with Some _ => _ | None => _ end _] =>
      destruct o as [[s3_url s3_key] |]; [| nothing]
  end.
  destruct (String.eqb s3_url EmptyString); [nothing |].
  unfold session_user_id. rewrite Hs, bind_lift_inr.
  step_lift. step_lift.
  erewrite bind_val; [| reflexivity].
  cbn [pending view stored app List.filter length Nat.add].
  (* the query for the user flushes the INSERT *)
  unfold first_user at 1. rewrite !bind_bind. unfold flush at 1.
  unfold bind at 1. cbn [pending view stored].
  match goal with
  | |- context [execute_all env [?st] db] =>
      destruct (execute_all env [st] db) as [e | d1] eqn:Hins; [nothing |]
  end.
  apply execute_one, execute_insert_report_inv in Hins.
  destruct Hins as (row & -> & Hrow_uid & Hrow_status & Hrow_credits).
  erewrite bind_val; [| reflexivity]. cbn [view with_reports custom_user].
  destruct (list_find _ (custom_user db)) as [[j u] |] eqn:Hfind;
    cbn [fmap option_fmap option_map fst]; [| nothing].
  pose proof (find_user_lookup env db uid j u Hfind) as Hju.
  rewrite bind_bind.
  erewrite bind_val; [| apply user_obj_val; exact Hju].
  unfold set_user_credits. rewrite bind_bind.
  erewrite bind_val; [| apply user_obj_val; exact Hju].
  replace (CustomUser.credits u =? CustomUser.credits u + 5) with false
    by (symmetry; apply Z.eqb_neq; lia).
  erewrite bind_val; [| reflexivity].
  match goal with
  | |- context [bind (commit env) _ ?st] =>
      destruct (commit_cases env st) as [(e & st' & E & Hst) | (d & E & Hexec)]
  end.
  - erewrite bind_raise; [| exact E]. left. exact Hst.
  - erewrite bind_val; [| exact E].
    cbn [pending view app] in Hexec.
    apply execute_one, execute_credits_inv in Hexec. subst d.
    assert (Hadded : submission_added env s db
              (db_with_credits j (CustomUser.credits u + 5)
                 (with_reports db (pothole_report db ++ [row])))).
    { exists uid, j, u, row. repeat split; try assumption; try reflexivity.
      cbn. rewrite list_lookup_alter_eq, Hju. reflexivity. }
    unfold bind, report_obj. cbn [view].
    destruct (pothole_report _ !! _); cbn.
    + left. split; [reflexivity | exact Hadded].
    + right. exact Hadded.
Qed.

(** X26.  The four routes that create a row store all of it or nothing, for
    every request, session, state of the tables and behaviour of the
    upload and of the DBMS.  An answer with status 201 comes with the
    whole change, any other answer with none of it, and when the view
    raises the committed tables hold either none of the change or the
    whole of it.  The whole change is one more user, with the staff flag
    of the route and no credits, for [register], [municipal_register] and
    [create_staff_user]; for [report_pothole] it is one more report,
    PENDING and owned by the user of the session, together with 5 credits
    more for that user: neither is stored without the other. *)
Theorem creating_routes_all_or_nothing env db request s :
  stores_all_or_nothing (account_added false) (serve (register env request) db) db
  /\ stores_all_or_nothing (account_added true)
       (serve (municipal_register env request) db) db
  /\ stores_all_or_nothing (account_added true)
       (serve (create_staff_user env request) db) db
  /\ stores_all_or_nothing (submission_added env s)
       (serve (report_pothole env request s) db) db.
Proof.
  split; [apply register_stores |].
  split; [apply municipal_register_stores |].
  split; [apply create_staff_user_stores | apply report_pothole_stores].
Qed.

(** ** One request after another *)

Lemma list_find_alter_stable {A : Type} (p : A -> bool) (f : A -> A) i l :
  (forall x, p (f x) = p x) ->
  list_find (fun x => p x = true) (alter f i l)
  = (fun found => (fst found, if decide (fst found = i) then f (snd found)
                              else snd found))
    <$> list_find (fun x => p x = true) l.
Proof.
  intros Hp. revert i. induction l as [| x l IH]; intros i; [reflexivity |].
  destruct i as [| i]; cbn [alter list_alter list_find].
  - rewrite Hp. destruct (decide (p x = true)); [reflexivity |].
    destruct (list_find _ l) as [[k y] |]; reflexivity.
  - destruct (decide (p x = true)); [reflexivity |].
    change (list_alter f i l) with (alter f i l). rewrite IH.
    destruct (list_find _ l) as [[k y] |]; cbn; [| reflexivity].
    destruct (decide (k = i)) as [-> | Hne].
    + now rewrite decide_True.
    + rewrite decide_False by congruence. reflexivity.
Qed.

Lemma find_user_credited env db j c uid :
  find_user env (db_with_credits j c db) uid
  = (fun found => (fst found, if decide (fst found = j)
                              then CustomUser.set_credits c (snd found)
                              else snd found))
    <$> find_user env db uid.
Proof.
  unfold find_user, db_with_credits. cbn [with_users custom_user].
  apply (list_find_alter_stable (by_user_id env uid)).
  intros u. destruct u. reflexivity.
Qed.

Lemma find_report_with_status env db i new rid :
  find_report env (db_with_status env i new db) rid
  = (fun found => (fst found, if decide (fst found = i)
                              then PotholeReport.set_status (Some new)
                                     (utcnow_updated_at env) (snd found)
                              else snd found))
    <$> find_report env db rid.
Proof.
  unfold find_report, db_with_status. cbn [with_reports pothole_report].
  apply (list_find_alter_stable (by_report_id env (JStr rid))).
  intros r. destruct r. reflexivity.
Qed.

(** [staff_session] looks at the user table only. *)
Lemma staff_session_users env db db' s :
  custom_user db' = custom_user db -> staff_session env db s -> staff_session env db' s.
Proof.
  intros Heq (uid & j & u & Hs & Hf & Hstaff). exists uid, j, u.
  unfold find_user in *. now rewrite Heq.
Qed.

Lemma staff_session_credited env db s j c :
  staff_session env db s -> staff_session env (db_with_credits j c db) s.
Proof.
  intros (uid & k & u & Hs & Hf & Hstaff).
  exists uid, k, (if decide (k = j) then CustomUser.set_credits c u else u).
  split; [exact Hs |]. split.
  - rewrite find_user_credited, Hf. reflexivity.
  - destruct (decide (k = j)); [destruct u |]; exact Hstaff.
Qed.

(** The report table after the changes of a verification: the row of the
    report is replaced, the others stay. *)
Lemma verified_report_table env db i r action :
  pothole_report db !! i = Some r ->
  exists r',
    pothole_report (after_verify_changes env db i r (JStr action))
    = <[i := r']> (pothole_report db)
    /\ PotholeReport.report_id r' = PotholeReport.report_id r
    /\ (action = "approve" -> PotholeReport.status r' = Some VERIFIED)
    /\ (action = "reject" -> PotholeReport.status r' = Some REJECTED)
    /\ (action = "need_info" -> PotholeReport.status r' = Some PENDING).
Proof.
  intros Hr.
  assert (Hchange : forall new,
    exists r',
      pothole_report (after_status_change env i r new db) = <[i := r']> (pothole_report db)
      /\ PotholeReport.report_id r' = PotholeReport.report_id r
      /\ PotholeReport.status r' = Some new).
  { intros new. unfold after_status_change. destruct (decide _) as [E | E].
    - exists r. split; [symmetry; now apply list_insert_id | auto].
    - exists (PotholeReport.set_status (Some new) (utcnow_updated_at env) r).
      split; [| split; reflexivity].
      cbn [db_with_status with_reports pothole_report].
      apply list_eq. intros k. destruct (decide (k = i)) as [-> | Hne].
      + rewrite list_lookup_alter_eq, Hr.
        rewrite list_lookup_insert_eq by (eapply lookup_lt_Some; exact Hr). reflexivity.
      + rewrite list_lookup_alter_ne, list_lookup_insert_ne by congruence. reflexivity. }
  unfold after_verify_changes. cbn [eq_str].
  destruct (String.eqb action "approve") eqn:Ea.
  { apply String.eqb_eq in Ea. subst action.
    destruct (Hchange VERIFIED) as (r' & Htable & Hid & Hst).
    exists r'. split.
    - destruct (find_user _ _ _) as [[j u] |]; exact Htable.
    - repeat split; auto; discriminate. }
  destruct (String.eqb action "reject") eqn:Er.
  { apply String.eqb_eq in Er. subst action.
    destruct (Hchange REJECTED) as (r' & Htable & Hid & Hst).
    exists r'. repeat split; auto; discriminate. }
  destruct (String.eqb action "need_info") eqn:En.
  { apply String.eqb_eq in En. subst action.
    destruct (Hchange PENDING) as (r' & Htable & Hid & Hst).
    exists r'. repeat split; auto; discriminate. }
  exists r. apply String.eqb_neq in Ea, Er, En.
  split; [symmetry; now apply list_insert_id |].
  repeat split; auto; intros ->; contradiction.
Qed.

(** X27.  The decision of the staff decides what the public sees.  After
    [verify_report] succeeded on a report, whatever its status was before:
    when the action was [reject] or [need_info], [public_reports] on the
    tables it left answers exactly as it would on the old tables without
    that report; when the action was [approve], the answer is that list
    with one entry more, the entry of the report, now VERIFIED, in its
    place. *)
Theorem verification_decides_publicity env db s request items rid i r action :
  staff_session env db s ->
  get_json request = inr (JDict items) ->
  dict_get items "report_id" = Some (JStr rid) ->
  find_report env db rid = Some (i, r) ->
  dict_get items "action" = Some (JStr action) ->
  date_field_ok (get items "estimated_repair_date") = true ->
  dbms_accepts env ->
  exists db' r',
    serve (verify_report env request s) db = (Responded verified_response, db')
    /\ pothole_report db' = <[i := r']> (pothole_report db)
    /\ PotholeReport.report_id r' = PotholeReport.report_id r
    /\ forall env',
         exists before after,
           fst (serve (public_reports env') (without_report i db))
           = Responded (jsonify (JList (before ++ after)) 200)
           /\ (action = "approve" ->
               PotholeReport.status r' = Some VERIFIED
               /\ fst (serve (public_reports env') db')
                  = Responded
                      (jsonify (JList (before ++ public_entry r' :: after)) 200))
           /\ (action = "reject" \/ action = "need_info" ->
               fst (serve (public_reports env') db')
               = fst (serve (public_reports env') (without_report i db))).
Proof.
  intros Hstaff Hjson Hrid Hfind Haction Hdate Hacc.
  pose proof (find_report_lookup _ _ _ _ _ Hfind) as Hr.
  destruct (verified_report_table env db i r action Hr)
    as (r' & Htable & Hid & Happrove & Hreject & Hinfo).
  exists (verified_db env db s items i r (JStr action)), r'.
  split.
  { apply (verify_report_serve env db s request items rid i r (JStr action)); auto. }
  split; [exact Htable |]. split; [exact Hid |].
  intros env'.
  exists (map public_entry
            (List.filter (status_in public_statuses) (take i (pothole_report db)))),
    (map public_entry
       (List.filter (status_in public_statuses) (drop (S i) (pothole_report db)))).
  rewrite !public_reports_serve. cbn [fst].
  replace (pothole_report (verified_db env db s items i r (JStr action)))
    with (<[i := r']> (pothole_report db)) by (symmetry; exact Htable).
  cbn [without_report with_reports pothole_report].
  rewrite delete_take_drop, insert_take_drop by (eapply lookup_lt_Some; exact Hr).
  rewrite !List.filter_app, !map_app. cbn [List.filter].
  split; [reflexivity |]. split.
  - intros Ha. split; [now apply Happrove |].
    replace (status_in public_statuses r') with true; [reflexivity |].
    symmetry. apply status_in_public. left. now apply Happrove.
  - intros Ha.
    replace (status_in public_statuses r') with false; [reflexivity |].
    symmetry. apply not_true_is_false. intros Hpub. apply status_in_public in Hpub.
    destruct Ha as [Ha | Ha];
      [rewrite (Hreject Ha) in Hpub | rewrite (Hinfo Ha) in Hpub];
      destruct Hpub as [H | [H | H]]; discriminate.
Qed.

(** X28.  A report that was just submitted is not public: [public_reports]
    gives the same answer on the tables that the submission left as on
    those before it. *)
Theorem submitted_report_is_not_public
    env db s request uid j u file latitude longitude name sev :
  session.user_id s = Some uid ->
  find_user env db uid = Some (j, u) ->
  method request = "POST" ->
  lookup_key (files request) "image" = Some file ->
  FileStorage.filename file <> EmptyString ->
  upload_fileobj env = None ->
  float_field (lookup_key (form request) "latitude") = inr latitude ->
  float_field (lookup_key (form request) "longitude") = inr longitude ->
  lookup_key (form request) "severity" = Some name ->
  severity_of_string name = Some sev ->
  unused env PotholeReport.report_id (pothole_report db) (uuid4_row env) ->
  dbms_accepts env ->
  exists db',
    serve (report_pothole env request s) db = (Responded (submitted_response env), db')
    /\ length (pothole_report db') = S (length (pothole_report db))
    /\ forall env',
         fst (serve (public_reports env') db') = fst (serve (public_reports env') db).
Proof.
  intros Hs Hu Hpost Himage Hname Hup Hlat Hlon Hsev Hsev' Hfresh Hacc.
  eexists. split.
  { eapply report_pothole_serve; eassumption. }
  split.
  { cbn [pothole_report]. rewrite length_app. cbn. lia. }
  intros env'. rewrite !public_reports_serve. cbn [fst pothole_report].
  rewrite List.filter_app. cbn. now rewrite app_nil_r.
Qed.

Lemma filter_snoc_true {A : Type} (p : A -> bool) l x :
  p x = true -> List.filter p (l ++ [x]) = List.filter p l ++ [x].
Proof. intros H. rewrite List.filter_app. cbn. now rewrite H. Qed.

(** X29.  A submitted report is on the list of its author: after a
    submission that succeeded, [my_reports] for the same session, on the
    tables the submission left, has an entry for the new report, and one
    entry more than it would have had before. *)
Theorem submitted_report_in_my_reports
    env (pf : Platform) db s request uid j u file latitude longitude name sev :
  session.user_id s = Some uid ->
  find_user env db uid = Some (j, u) ->
  method request = "POST" ->
  lookup_key (files request) "image" = Some file ->
  FileStorage.filename file <> EmptyString ->
  upload_fileobj env = None ->
  float_field (lookup_key (form request) "latitude") = inr latitude ->
  float_field (lookup_key (form request) "longitude") = inr longitude ->
  lookup_key (form request) "severity" = Some name ->
  severity_of_string name = Some sev ->
  unused env PotholeReport.report_id (pothole_report db) (uuid4_row env) ->
  dbms_accepts env ->
  same_collation env pf ->
  collation_eq env uid uid = true ->
  exists db' row,
    serve (report_pothole env request s) db = (Responded (submitted_response env), db')
    /\ pothole_report db' = pothole_report db ++ [row]
    /\ PotholeReport.report_id row = uuid4_row env
    /\ (ordered pf (List.filter (by_owner pf uid) (pothole_report db')) ->
        exists reports,
          serve (my_reports pf s) db'
          = (Responded (jsonify (JList (map my_entry reports)) 200), db')
          /\ In row reports
          /\ length reports
             = S (length (List.filter (by_owner pf uid) (pothole_report db)))).
Proof.
  intros Hs Hu Hpost Himage Hname Hup Hlat Hlon Hsev Hsev' Hfresh Hacc Hsame Hrefl.
  set (row := submitted_report env db request uid file latitude longitude sev).
  eexists _, row. split.
  { eapply report_pothole_serve; eassumption. }
  split; [reflexivity |]. split; [reflexivity |].
  cbn [pothole_report]. intros [Hperm _].
  assert (Hown : by_owner pf uid row = true).
  { unfold by_owner. rewrite Hsame. exact Hrefl. }
  rewrite (filter_snoc_true _ _ _ Hown) in Hperm.
  eexists. split; [apply my_reports_serve, Hs |].
  cbn [pothole_report]. rewrite (filter_snoc_true _ _ _ Hown).
  split.
  - eapply Permutation_in; [symmetry; exact Hperm |].
    apply in_or_app. right. left. reflexivity.
  - rewrite (Permutation_length Hperm), length_app. cbn. lia.
Qed.

Lemma find_report_collation env env' db rid :
  same_collation env env' -> find_report env' db rid = find_report env db rid.
Proof.
  intros H. unfold find_report, by_report_id, column_eq. apply list_find_ext.
  intros r. now rewrite H.
Qed.

Lemma staff_session_collation env env' db s :
  same_collation env env' -> staff_session env db s -> staff_session env' db s.
Proof.
  intros H (uid & j & u & Hs & Hf & Hstaff). exists uid, j, u.
  now rewrite (find_user_same_collation env env' db uid H).
Qed.

(** X30.  The life of a report, in credits.  A user submits a report, a staff
    member approves it and later marks it COMPLETED, each request at its
    own time: the three requests succeed one after the other, the report
    ends COMPLETED with one Verification record more in the table, and
    the user has 5 + 10 + 5 = 20 credits more than before the
    submission. *)
Theorem report_lifecycle_credits
    env env2 env3 db citizen staff submission uid j u file latitude longitude name sev
    approval approved completion completed :
  session.user_id citizen = Some uid ->
  find_user env db uid = Some (j, u) ->
  method submission = "POST" ->
  lookup_key (files submission) "image" = Some file ->
  FileStorage.filename file <> EmptyString ->
  upload_fileobj env = None ->
  float_field (lookup_key (form submission) "latitude") = inr latitude ->
  float_field (lookup_key (form submission) "longitude") = inr longitude ->
  lookup_key (form submission) "severity" = Some name ->
  severity_of_string name = Some sev ->
  unused env PotholeReport.report_id (pothole_report db) (uuid4_row env) ->
  collation_eq env (uuid4_row env) (uuid4_row env) = true ->
  dbms_accepts env ->
  same_collation env env2 ->
  dbms_accepts env2 ->
  staff_session env db staff ->
  get_json approval = inr (JDict approved) ->
  dict_get approved "report_id" = Some (JStr (uuid4_row env)) ->
  dict_get approved "action" = Some (JStr "approve") ->
  date_field_ok (get approved "estimated_repair_date") = true ->
  same_collation env env3 ->
  dbms_accepts env3 ->
  get_json completion = inr (JDict completed) ->
  dict_get completed "report_id" = Some (JStr (uuid4_row env)) ->
  dict_get completed "status" = Some (JStr "COMPLETED") ->
  exists db1 db2 db3,
    serve (report_pothole env submission citizen) db
    = (Responded (submitted_response env), db1)
    /\ serve (verify_report env2 approval staff) db1
       = (Responded verified_response, db2)
    /\ serve (update_progress env3 completion staff) db2
       = (Responded progress_response, db3)
    /\ CustomUser.credits <$> custom_user db3 !! j = Some (CustomUser.credits u + 20)
    /\ PotholeReport.status <$> pothole_report db3 !! length (pothole_report db)
       = Some (Some COMPLETED)
    /\ length (municipal_verification db3) = S (length (municipal_verification db)).
Proof.
  intros Hs Hu Hpost Himage Hname Hup Hlat Hlon Hsev Hsev' Hfresh Hrefl Hacc
    Hsame2 Hacc2 Hstaff Hjson2 Hrid2 Haction Hdate Hsame3 Hacc3 Hjson3 Hrid3 Hstatus.
  set (row := submitted_report env db submission uid file latitude longitude sev).
  set (i := length (pothole_report db)).
  set (c := CustomUser.credits u).
  (* the submission *)
  set (db1 := db_with_credits j (c + 5)
                (with_reports db (pothole_report db ++ [row]))).
  assert (H1 : serve (report_pothole env submission citizen) db
               = (Responded (submitted_response env), db1)).
  { etransitivity; [eapply report_pothole_serve; eassumption | reflexivity]. }
  assert (Hstaff1 : staff_session env2 db1 staff).
  { apply (staff_session_collation env env2 _ _ Hsame2).
    apply staff_session_credited.
    eapply staff_session_users; [| exact Hstaff]. reflexivity. }
  assert (Hfind1 : find_report env2 db1 (uuid4_row env) = Some (i, row)).
  { rewrite (find_report_collation env env2 _ _ Hsame2).
    unfold find_report, by_report_id, column_eq.
    cbn [db1 db_with_credits with_users with_reports pothole_report].
    apply list_find_appended; [exact Hfresh | exact Hrefl]. }
  assert (Hu1 : find_user env2 db1 uid = Some (j, CustomUser.set_credits (c + 5) u)).
  { rewrite (find_user_same_collation env env2 _ _ Hsame2).
    unfold db1. rewrite find_user_credited.
    replace (find_user env (with_reports db (pothole_report db ++ [row])) uid)
      with (find_user env db uid) by reflexivity.
    rewrite Hu. cbn [fmap option_fmap option_map fst snd].
    now rewrite decide_True. }
  (* the approval *)
  set (v := verification_row env2
              (db_with_credits j (c + 5 + 10) (db_with_status env2 i VERIFIED db1))
              staff approved row (JStr "approve")).
  set (db2 := with_verifications
                (db_with_credits j (c + 5 + 10) (db_with_status env2 i VERIFIED db1))
                (municipal_verification db ++ [v])).
  assert (H2 : serve (verify_report env2 approval staff) db1
               = (Responded verified_response, db2)).
  { rewrite (verify_report_serve env2 db1 staff approval approved (uuid4_row env) i row
               (JStr "approve")) by auto.
    f_equal. unfold verified_db, after_verify_changes, after_status_change.
    cbn [eq_str String.eqb Ascii.eqb Bool.eqb].
    replace (PotholeReport.user_id row) with uid by reflexivity.
    rewrite Hu1. rewrite decide_False by discriminate. reflexivity. }
  set (row2 := PotholeReport.set_status (Some VERIFIED) (utcnow_updated_at env2) row).
  assert (Hsame23 : same_collation env2 env3).
  { intros a b. now rewrite Hsame3, Hsame2. }
  assert (Hstaff2 : staff_session env3 db2 staff).
  { apply (staff_session_collation env2 env3 _ _ Hsame23).
    eapply (staff_session_users env2
              (db_with_credits j (c + 5 + 10) (db_with_status env2 i VERIFIED db1)));
      [reflexivity |].
    apply staff_session_credited.
    eapply staff_session_users; [| exact Hstaff1]. reflexivity. }
  assert (Hfind2 : find_report env3 db2 (uuid4_row env) = Some (i, row2)).
  { rewrite (find_report_collation env2 env3 _ _ Hsame23).
    replace (find_report env2 db2 (uuid4_row env))
      with (find_report env2 (db_with_status env2 i VERIFIED db1) (uuid4_row env))
      by reflexivity.
    rewrite find_report_with_status, Hfind1.
    cbn [fmap option_fmap option_map fst snd]. now rewrite decide_True. }
  assert (Hu2 : find_user env3 db2 uid
                = Some (j, CustomUser.set_credits (c + 5 + 10)
                             (CustomUser.set_credits (c + 5) u))).
  { rewrite (find_user_same_collation env2 env3 _ _ Hsame23).
    replace (find_user env2 db2 uid)
      with (find_user env2 (db_with_credits j (c + 5 + 10) db1) uid) by reflexivity.
    rewrite find_user_credited, Hu1.
    cbn [fmap option_fmap option_map fst snd]. now rewrite decide_True. }
  (* the completion *)
  pose proof (update_progress_serve env3 db2 staff completion completed (uuid4_row env)
                i row2 "COMPLETED" COMPLETED Hstaff2 Hjson3 Hrid3 Hfind2 Hstatus
                eq_refl) as H3.
  exists db1, db2, (progress_db env3 db2 i row2 COMPLETED).
  split; [exact H1 |]. split; [exact H2 |]. split.
  { apply H3; [| exact Hacc3]. intros _.
    replace (PotholeReport.user_id row2) with uid by reflexivity.
    rewrite Hu2. eexists. reflexivity. }
  unfold progress_db, after_status_change.
  replace (PotholeReport.user_id row2) with uid by reflexivity.
  rewrite Hu2.
  destruct (decide (COMPLETED = COMPLETED)) as [_ | Hne]; [| contradiction].
  rewrite decide_False by discriminate.
  cbn [db_with_credits with_users custom_user pothole_report municipal_verification
         db_with_status with_reports].
  split.
  { rewrite list_lookup_alter_eq.
    rewrite (find_user_lookup _ _ _ _ _ Hu2). cbn. f_equal. unfold c. lia. }
  split.
  { rewrite list_lookup_alter_eq.
    rewrite (find_report_lookup _ _ _ _ _ Hfind2). reflexivity. }
  cbn [db2 with_verifications municipal_verification]. rewrite length_app. cbn. lia.
Qed.

(** ** Closed instances of the further properties *)

(** The clocks of the sample requests show times that exist. *)
Example scenario_clocks :
  forallb datetime_valid
    [utcnow Sample.env; utcnow_updated_at Sample.env;
     utcnow (Scenario.later 1 "c2b4"); utcnow_updated_at (Scenario.later 1 "c2b4");
     utcnow (Scenario.later 25 "e81f"); utcnow_updated_at (Scenario.later 25 "e81f");
     Sample.t0; Scenario.t1; Scenario.t2]
  = true
  /\ utcnow (Scenario.later 25 "e81f") = datetime.make 2024 6 2 9 0 0 0.
Proof. split; reflexivity. Qed.

Lemma scenario_staff_session :
  staff_session Scenario.platform Scenario.db Scenario.bob_session.
Proof. exists "u-bob", 1%nat, Scenario.bob. repeat split; reflexivity. Qed.

Lemma insert_desc_permutation r l : Permutation (Scenario.insert_desc r l) (r :: l).
Proof.
  induction l as [| r' l IH]; cbn [Scenario.insert_desc]; [reflexivity |].
  destruct (datetime_leb _ _); [reflexivity |].
  rewrite IH. apply perm_swap.
Qed.

Lemma sort_desc_permutation l : Permutation (Scenario.sort_desc l) l.
Proof.
  induction l as [| r l IH]; cbn; [reflexivity |].
  rewrite insert_desc_permutation. now apply perm_skip.
Qed.

Lemma scenario_ordered env rows :
  newest_first (Scenario.sort_desc rows) = true ->
  ordered (Scenario.platform_with env) rows.
Proof. intros H. split; [apply sort_desc_permutation | exact H]. Qed.

(** Alice's session says staff, the table says she is not: 403. *)
Lemma staff_routes_refuse_witness :
  serve (verify_report Scenario.platform (Sample.post (Scenario.approve "r-1"))
           Scenario.demoted) Scenario.db
  = (Responded forbidden, Scenario.db).
Proof.
  apply (staff_routes_refuse Scenario.platform Scenario.db
           (Sample.post (Scenario.approve "r-1")) Scenario.demoted).
  - right. left. reflexivity.
  - intros (uid & j & u & Hs & Hf & Hstaff).
    injection Hs as <-. vm_compute in Hf. injection Hf as <- <-. discriminate.
Defined.

(** Carol registers; her body asks for the staff flag and for credits. *)
Lemma register_creates_user_witness :
  exists db' row,
    serve (register Sample.env (Sample.post Scenario.carol)) Scenario.db
    = (Responded (registered_response Sample.env), db')
    /\ custom_user db' = custom_user Scenario.db ++ [row]
    /\ CustomUser.user_id row = "9a7e"
    /\ CustomUser.username row = "carol"
    /\ CustomUser.email row = "carol@example.org"
    /\ CustomUser.phone_number row = Some "555-0199"
    /\ CustomUser.password_hash row = "pbkdf2:pw-carol"
    /\ CustomUser.is_staff row = false
    /\ CustomUser.credits row = 0
    /\ pothole_report db' = pothole_report Scenario.db
    /\ municipal_verification db' = municipal_verification Scenario.db.
Proof.
  refine (register_creates_user Sample.env Scenario.db (Sample.post Scenario.carol)
            Scenario.carol "carol" "carol@example.org" "pw-carol" _ _ _ _ _ _).
  - reflexivity.
  - reflexivity.
  - repeat split; reflexivity.
  - reflexivity.
  - repeat split; reflexivity.
  - apply sample_dbms_accepts.
Defined.

Lemma municipal_register_creates_staff_witness :
  exists db' row,
    serve (municipal_register Sample.env (Sample.post Scenario.carol)) Scenario.db
    = (Responded (staff_registered_response Sample.env), db')
    /\ custom_user db' = custom_user Scenario.db ++ [row]
    /\ CustomUser.user_id row = "9a7e"
    /\ CustomUser.username row = "carol"
    /\ CustomUser.email row = "carol@example.org"
    /\ CustomUser.is_staff row = true
    /\ snd (serve (create_staff_user Sample.env (Sample.post Scenario.carol)) Scenario.db)
       = db'.
Proof.
  refine (municipal_register_creates_staff Sample.env Scenario.db
            (Sample.post Scenario.carol) Scenario.carol "carol" "carol@example.org"
            "pw-carol" _ _ _ _ _).
  - reflexivity.
  - reflexivity.
  - repeat split; reflexivity.
  - repeat split; reflexivity.
  - apply sample_dbms_accepts.
Defined.

(** The username [alice] is taken; so is Bob's email. *)
Lemma registration_rejects_duplicates_witness :
  serve (register Sample.env (Sample.post (Scenario.account "alice" "a@example.org")))
    Scenario.db
  = (Responded (jsonify (error_body "Username already exists") 400), Scenario.db)
  /\ serve (municipal_register Sample.env
              (Sample.post (Scenario.account "erin" "bob@city.example"))) Scenario.db
     = (Responded (jsonify (error_body "Email already exists") 400), Scenario.db).
Proof.
  split.
  - refine (proj1 (registration_rejects_duplicates Sample.env Scenario.db
                     (Sample.post (Scenario.account "alice" "a@example.org"))
                     (Scenario.account "alice" "a@example.org") "alice" _ _ _ _ _) _).
    + left. reflexivity.
    + reflexivity.
    + reflexivity.
    + reflexivity.
    + discriminate.
  - refine (proj2 (registration_rejects_duplicates Sample.env Scenario.db
                     (Sample.post (Scenario.account "erin" "bob@city.example"))
                     (Scenario.account "erin" "bob@city.example") "erin" _ _ _ _ _)
              "bob@city.example" _ _ _).
    + right. left. reflexivity.
    + reflexivity.
    + reflexivity.
    + reflexivity.
    + reflexivity.
    + reflexivity.
    + discriminate.
Defined.

(** Alice logs in. *)
Lemma login_outcome_witness :
  serve_with_session
    (login Scenario.platform (Sample.post (Scenario.credentials "alice" "pw-alice"))
       Scenario.nobody) Scenario.nobody Scenario.db
  = (Responded (jsonify (login_body Scenario.alice) 200), Scenario.alice_session,
     Scenario.db).
Proof.
  refine (proj2 (proj2 (login_outcome Scenario.platform Scenario.db
                          (Sample.post (Scenario.credentials "alice" "pw-alice"))
                          (Scenario.credentials "alice" "pw-alice") "alice"
                          Scenario.nobody _ _ _)
                   0%nat Scenario.alice _) (JStr "pw-alice") true _ _);
    reflexivity.
Defined.

(** Alice's password is right, and she is not staff. *)
Lemma municipal_login_requires_staff_witness :
  serve_with_session
    (municipal_login Scenario.platform
       (Sample.post (Scenario.credentials "alice" "pw-alice")) Scenario.nobody)
    Scenario.nobody Scenario.db
  = (Responded (unauthorized "Invalid credentials or insufficient privileges"),
     Scenario.nobody, Scenario.db).
Proof.
  refine (proj2 (municipal_login_requires_staff Scenario.platform Scenario.db
                   (Sample.post (Scenario.credentials "alice" "pw-alice"))
                   (Scenario.credentials "alice" "pw-alice") "alice"
                   Scenario.nobody _ _ _)
            0%nat Scenario.alice (JStr "pw-alice") true _ _ _);
    reflexivity.
Defined.

Lemma register_then_login_witness :
  exists db' s',
    serve (register Sample.env (Sample.post Scenario.carol)) Scenario.db
    = (Responded (registered_response Sample.env), db')
    /\ serve_with_session
         (login (Scenario.platform_with (Scenario.later 1 "c2b4"))
            (Sample.post (Scenario.credentials "carol" "pw-carol")) Scenario.nobody)
         Scenario.nobody db'
       = (Responded
            (jsonify (JDict [("message", JStr "Login successful");
                             ("is_staff", JBool false)]) 200),
          s', db')
    /\ session.user_id s' = Some "9a7e"
    /\ session.username s' = Some "carol"
    /\ session.is_staff s' = Some false.
Proof.
  refine (register_then_login Sample.env
            (Scenario.platform_with (Scenario.later 1 "c2b4")) Scenario.db
            (Sample.post Scenario.carol)
            Scenario.carol "carol" "carol@example.org" "pw-carol"
            (Sample.post (Scenario.credentials "carol" "pw-carol"))
            (Scenario.credentials "carol" "pw-carol") Scenario.nobody
            _ _ _ _ _ _ _ _ _ _ _ _ _).
  - reflexivity.
  - reflexivity.
  - repeat split; reflexivity.
  - reflexivity.
  - repeat split; reflexivity.
  - apply sample_dbms_accepts.
  - intros a b. reflexivity.
  - reflexivity.
  - reflexivity.
  - reflexivity.
  - reflexivity.
  - reflexivity.
  - reflexivity.
Defined.

Lemma municipal_register_then_login_witness :
  exists db' s' response,
    serve (municipal_register Sample.env (Sample.post Scenario.carol)) Scenario.db
    = (Responded (staff_registered_response Sample.env), db')
    /\ serve_with_session
         (municipal_login (Scenario.platform_with (Scenario.later 1 "c2b4"))
            (Sample.post (Scenario.credentials "carol" "pw-carol")) Scenario.nobody)
         Scenario.nobody db'
       = (Responded response, s', db')
    /\ status_code response = Some 200
    /\ staff_session (Scenario.platform_with (Scenario.later 1 "c2b4")) db' s'.
Proof.
  refine (municipal_register_then_login Sample.env
            (Scenario.platform_with (Scenario.later 1 "c2b4")) Scenario.db
            (Sample.post Scenario.carol) Scenario.carol "carol" "carol@example.org"
            "pw-carol" (Sample.post (Scenario.credentials "carol" "pw-carol"))
            (Scenario.credentials "carol" "pw-carol") Scenario.nobody
            _ _ _ _ _ _ _ _ _ _ _ _ _).
  - reflexivity.
  - reflexivity.
  - repeat split; reflexivity.
  - repeat split; reflexivity.
  - apply sample_dbms_accepts.
  - intros a b. reflexivity.
  - reflexivity.
  - reflexivity.
  - reflexivity.
  - reflexivity.
  - reflexivity.
  - reflexivity.
  - reflexivity.
Defined.

(** Alice's profile. *)
Lemma user_profile_outcome_witness :
  exists items,
    serve (user_profile Sample.env Scenario.alice_session) Scenario.db
    = (Responded (jsonify (JDict items) 200), Scenario.db)
    /\ (forall k,
          dict_get items k <> None
          <-> In k ["username"; "email"; "phone_number"; "credits"; "is_staff"])
    /\ dict_get items "username" = Some (JStr "alice")
    /\ dict_get items "email" = Some (JStr "alice@example.org")
    /\ dict_get items "phone_number" = Some (JStr "555-0100")
    /\ dict_get items "credits" = Some (JInt 5)
    /\ dict_get items "is_staff" = Some (JBool false).
Proof.
  refine (proj1 (user_profile_outcome Sample.env Scenario.db Scenario.alice_session
                   "u-alice" _) 0%nat Scenario.alice _); reflexivity.
Defined.

(** Bob is staff in the table; a session of somebody who is not there
    makes the view raise. *)
Lemma dashboard_by_role_witness :
  serve (dashboard Sample.env Scenario.bob_session) Scenario.db
  = (Responded (render_template "municipal_dashboard.html"), Scenario.db)
  /\ serve (dashboard Sample.env Scenario.erin_session) Scenario.db
     = (Uncaught (mkExn AttributeError "'NoneType' object has no attribute 'is_staff'"),
        Scenario.db).
Proof.
  split.
  - refine (dashboard_by_role Sample.env Scenario.db Scenario.bob_session "u-bob" _).
    reflexivity.
  - refine (dashboard_by_role Sample.env Scenario.db Scenario.erin_session "u-erin" _).
    reflexivity.
Defined.

(** Alice has three of the four reports. *)
Lemma my_reports_lists_own_witness :
  exists reports,
    serve (my_reports Scenario.platform Scenario.alice_session) Scenario.db
    = (Responded (jsonify (JList (map my_entry reports)) 200), Scenario.db)
    /\ Permutation reports [Scenario.r1; Scenario.r3; Scenario.r4]
    /\ (forall r,
          In r reports
          <-> In r (pothole_report Scenario.db)
              /\ String.eqb (PotholeReport.user_id r) "u-alice" = true)
    /\ newest_first reports = true.
Proof.
  refine (my_reports_lists_own Scenario.platform Scenario.db Scenario.alice_session
            "u-alice" _ _).
  - reflexivity.
  - apply scenario_ordered. reflexivity.
Defined.

Lemma scenario_owners r :
  In r (pothole_report Scenario.db) -> is_Some (owner_of Scenario.platform Scenario.db r).
Proof.
  intros [<- | [<- | [<- | [<- | []]]]]; eexists; reflexivity.
Qed.

(** Two of the four reports are pending. *)
Lemma pending_reports_lists_pending_witness :
  exists reports entries,
    serve (pending_reports Scenario.platform Scenario.bob_session) Scenario.db
    = (Responded (jsonify (JList entries) 200), Scenario.db)
    /\ Forall2 (fun r e =>
                  exists u, owner_of Scenario.platform Scenario.db r = Some u
                            /\ e = staff_entry r u) reports entries
    /\ (forall r,
          In r reports
          <-> In r (pothole_report Scenario.db)
              /\ PotholeReport.status r = Some PENDING)
    /\ Permutation reports [Scenario.r1; Scenario.r3]
    /\ newest_first reports = true.
Proof.
  refine (pending_reports_lists_pending Scenario.platform Scenario.db
            Scenario.bob_session _ _ _).
  - apply scenario_staff_session.
  - apply scenario_ordered. reflexivity.
  - intros r Hr _. apply scenario_owners, Hr.
Defined.

Lemma all_reports_lists_all_witness :
  exists reports entries,
    serve (all_reports Scenario.platform Scenario.bob_session) Scenario.db
    = (Responded (jsonify (JList entries) 200), Scenario.db)
    /\ Forall2 (fun r e =>
                  exists u, owner_of Scenario.platform Scenario.db r = Some u
                            /\ e = staff_entry r u) reports entries
    /\ Permutation reports (pothole_report Scenario.db)
    /\ length entries = 4%nat
    /\ newest_first reports = true.
Proof.
  refine (all_reports_lists_all Scenario.platform Scenario.db Scenario.bob_session
            _ _ _).
  - apply scenario_staff_session.
  - apply scenario_ordered. reflexivity.
  - apply scenario_owners.
Defined.

(** A GET, and a POST without an image part. *)
Lemma report_pothole_requires_image_witness :
  serve (report_pothole Sample.env Scenario.get_page Scenario.alice_session) Scenario.db
  = (Responded (render_template "report_pothole.html"), Scenario.db)
  /\ serve (report_pothole Sample.env Scenario.empty_post Scenario.alice_session)
       Scenario.db
     = (Responded (jsonify (error_body "No image file provided") 400), Scenario.db).
Proof.
  split.
  - refine (proj1 (report_pothole_requires_image Sample.env Scenario.db
                     Scenario.get_page Scenario.alice_session "u-alice" _) _);
      [reflexivity | discriminate].
  - refine (proj1 (proj2 (report_pothole_requires_image Sample.env Scenario.db
                            Scenario.empty_post Scenario.alice_session "u-alice" _))
              _ _); reflexivity.
Defined.


(** An empty object and an array. *)
Lemma verify_report_rejects_bad_body_witness :
  serve (verify_report Sample.env (Sample.post []) Sample.staff) Sample.db
  = (Responded (jsonify (error_body "No data provided") 400), Sample.db)
  /\ exists msg,
       serve (verify_report Sample.env (mkRequest "POST" (inr (JList [JStr "r-1"])) [] [])
                Sample.staff) Sample.db
       = (Responded
            (jsonify (error_body ("Failed to update report: " ++ msg)%string) 500),
          Sample.db).
Proof.
  split.
  - refine (proj1 (proj2 (verify_report_rejects_bad_body Sample.env Sample.db
                            Sample.staff (Sample.post []) _)) (JDict []) _ _).
    + apply sample_staff_session.
    + reflexivity.
    + reflexivity.
  - refine (proj1 (proj2 (proj2 (verify_report_rejects_bad_body Sample.env Sample.db
                                   Sample.staff
                                   (mkRequest "POST" (inr (JList [JStr "r-1"])) [] [])
                                   _)))
              (JList [JStr "r-1"]) _ _ _).
    + apply sample_staff_session.
    + reflexivity.
    + reflexivity.
    + discriminate.
Defined.


(** r-4 is COMPLETED already: Alice gets 5 more. *)
Lemma update_progress_repeats_bonus_witness :
  exists db',
    serve (update_progress Sample.env (Sample.post (Scenario.complete "r-4"))
             Scenario.bob_session) Scenario.db
    = (Responded progress_response, db')
    /\ pothole_report db' = pothole_report Scenario.db
    /\ custom_user db'
       = [CustomUser.set_credits 10 Scenario.alice; Scenario.bob; Scenario.dave]
    /\ municipal_verification db' = municipal_verification Scenario.db.
Proof.
  refine (update_progress_repeats_bonus Sample.env Scenario.db Scenario.bob_session
            (Sample.post (Scenario.complete "r-4")) (Scenario.complete "r-4") "r-4"
            3%nat Scenario.r4 0%nat Scenario.alice _ _ _ _ _ _ _ _).
  - apply scenario_staff_session.
  - reflexivity.
  - reflexivity.
  - reflexivity.
  - reflexivity.
  - reflexivity.
  - reflexivity.
  - apply sample_dbms_accepts.
Defined.

(** r-2 is VERIFIED already: Dave gets 10 more. *)
Lemma verify_report_repeats_credits_witness :
  exists db' v,
    serve (verify_report Sample.env (Sample.post (Scenario.approve "r-2"))
             Scenario.bob_session) Scenario.db
    = (Responded verified_response, db')
    /\ pothole_report db' = pothole_report Scenario.db
    /\ custom_user db'
       = [Scenario.alice; Scenario.bob; CustomUser.set_credits 10 Scenario.dave]
    /\ municipal_verification db' = municipal_verification Scenario.db ++ [v]
    /\ MunicipalVerification.report_id v = "r-2".
Proof.
  refine (verify_report_repeats_credits Sample.env Scenario.db Scenario.bob_session
            (Sample.post (Scenario.approve "r-2")) (Scenario.approve "r-2") "r-2"
            1%nat Scenario.r2 2%nat Scenario.dave _ _ _ _ _ _ _ _ _).
  - apply scenario_staff_session.
  - reflexivity.
  - reflexivity.
  - reflexivity.
  - reflexivity.
  - reflexivity.
  - reflexivity.
  - apply sample_fields_ok; reflexivity.
  - apply sample_dbms_accepts.
Defined.

(** Bob rejects r-2, which was VERIFIED: the public list is the one of
    the tables without it. *)
Lemma verification_decides_publicity_witness :
  exists db' r',
    serve (verify_report Sample.env (Sample.post (Scenario.reject "r-2"))
             Scenario.bob_session) Scenario.db
    = (Responded verified_response, db')
    /\ pothole_report db' = <[1%nat := r']> (pothole_report Scenario.db)
    /\ PotholeReport.report_id r' = "r-2"
    /\ forall env',
         exists before after,
           fst (serve (public_reports env') (without_report 1 Scenario.db))
           = Responded (jsonify (JList (before ++ after)) 200)
           /\ ("reject" = "approve" ->
               PotholeReport.status r' = Some VERIFIED
               /\ fst (serve (public_reports env') db')
                  = Responded
                      (jsonify (JList (before ++ public_entry r' :: after)) 200))
           /\ ("reject" = "reject" \/ "reject" = "need_info" ->
               fst (serve (public_reports env') db')
               = fst (serve (public_reports env') (without_report 1 Scenario.db))).
Proof.
  refine (verification_decides_publicity Sample.env Scenario.db Scenario.bob_session
            (Sample.post (Scenario.reject "r-2")) (Scenario.reject "r-2") "r-2"
            1%nat Scenario.r2 "reject" _ _ _ _ _ _ _).
  - apply scenario_staff_session.
  - reflexivity.
  - reflexivity.
  - reflexivity.
  - reflexivity.
  - reflexivity.
  - apply sample_dbms_accepts.
Defined.

Lemma submitted_report_is_not_public_witness :
  exists db',
    serve (report_pothole Sample.env (Sample.submission Sample.good_form) Sample.citizen)
      Sample.db
    = (Responded (submitted_response Sample.env), db')
    /\ length (pothole_report db') = 4%nat
    /\ forall env',
         fst (serve (public_reports env') db')
         = Responded (jsonify (JList [public_entry Sample.r2]) 200).
Proof.
  refine (submitted_report_is_not_public Sample.env Sample.db Sample.citizen
            (Sample.submission Sample.good_form) "u-alice" 0%nat Sample.alice
            Sample.image (Some (FDec false 125 (-1))) (Some (FDec true 725 (-2)))
            "HIGH" HIGH _ _ _ _ _ _ _ _ _ _ _ _).
  - reflexivity.
  - reflexivity.
  - reflexivity.
  - reflexivity.
  - discriminate.
  - reflexivity.
  - reflexivity.
  - reflexivity.
  - reflexivity.
  - reflexivity.
  - reflexivity.
  - apply sample_dbms_accepts.
Defined.

(** Alice's list after her submission: four reports, the new one among
    them. *)
Lemma submitted_report_in_my_reports_witness :
  exists db' row,
    serve (report_pothole Sample.env (Sample.submission Sample.good_form) Sample.citizen)
      Sample.db
    = (Responded (submitted_response Sample.env), db')
    /\ pothole_report db' = pothole_report Sample.db ++ [row]
    /\ PotholeReport.report_id row = "9a7e"
    /\ exists reports,
         serve (my_reports (Scenario.platform_with (Scenario.later 1 "c2b4"))
                  Sample.citizen) db'
         = (Responded (jsonify (JList (map my_entry reports)) 200), db')
         /\ In row reports
         /\ length reports = 4%nat.
Proof.
  destruct (submitted_report_in_my_reports Sample.env
              (Scenario.platform_with (Scenario.later 1 "c2b4")) Sample.db
              Sample.citizen (Sample.submission Sample.good_form) "u-alice" 0%nat
              Sample.alice Sample.image (Some (FDec false 125 (-1)))
              (Some (FDec true 725 (-2))) "HIGH" HIGH)
    as (db' & row & Hserve & Hrows & Hid & Hlist).
  - reflexivity.
  - reflexivity.
  - reflexivity.
  - reflexivity.
  - discriminate.
  - reflexivity.
  - reflexivity.
  - reflexivity.
  - reflexivity.
  - reflexivity.
  - reflexivity.
  - apply sample_dbms_accepts.
  - intros a b. reflexivity.
  - reflexivity.
  - exists db', row. repeat split; try assumption.
    apply Hlist. apply scenario_ordered.
    vm_compute in Hserve. injection Hserve as <-. reflexivity.
Defined.

(** Alice submits a report, Bob approves it an hour later and marks it
    COMPLETED the day after: her credits go from 5 to 25. *)
Lemma report_lifecycle_credits_witness :
  exists db1 db2 db3,
    serve (report_pothole Sample.env (Sample.submission Sample.good_form) Sample.citizen)
      Sample.db
    = (Responded (submitted_response Sample.env), db1)
    /\ serve (verify_report (Scenario.later 1 "c2b4")
                (Sample.post (Scenario.approve "9a7e")) Sample.staff) db1
       = (Responded verified_response, db2)
    /\ serve (update_progress (Scenario.later 25 "e81f")
                (Sample.post (Scenario.complete "9a7e")) Sample.staff) db2
       = (Responded progress_response, db3)
    /\ CustomUser.credits <$> custom_user db3 !! 0%nat = Some 25
    /\ PotholeReport.status <$> pothole_report db3 !! 3%nat = Some (Some COMPLETED)
    /\ length (municipal_verification db3) = 1%nat.
Proof.
  refine (report_lifecycle_credits Sample.env (Scenario.later 1 "c2b4")
            (Scenario.later 25 "e81f") Sample.db Sample.citizen Sample.staff
            (Sample.submission Sample.good_form) "u-alice" 0%nat Sample.alice
            Sample.image (Some (FDec false 125 (-1))) (Some (FDec true 725 (-2)))
            "HIGH" HIGH (Sample.post (Scenario.approve "9a7e")) (Scenario.approve "9a7e")
            (Sample.post (Scenario.complete "9a7e")) (Scenario.complete "9a7e")
            _ _ _ _ _ _ _ _ _ _ _ _ _ _ _ _ _ _ _ _ _ _ _ _ _).
  - reflexivity.
  - reflexivity.
  - reflexivity.
  - reflexivity.
  - discriminate.
  - reflexivity.
  - reflexivity.
  - reflexivity.
  - reflexivity.
  - reflexivity.
  - reflexivity.
  - reflexivity.
  - apply sample_dbms_accepts.
  - intros a b. reflexivity.
  - intros st. reflexivity.
  - apply sample_staff_session.
  - reflexivity.
  - reflexivity.
  - reflexivity.
  - reflexivity.
  - intros a b. reflexivity.
  - intros st. reflexivity.
  - reflexivity.
  - reflexivity.
  - reflexivity.
Defined.

(** A body without a username, and one without a password. *)
Lemma create_staff_user_refuses_witness :
  serve (create_staff_user Sample.env (Sample.post [("email", JStr "zoe@example.org")]))
    Scenario.db
  = (Uncaught (mkExn KeyError "'username'"), Scenario.db)
  /\ serve (create_staff_user Sample.env
              (Sample.post [("username", JStr "zoe"); ("email", JStr "zoe@example.org")]))
       Scenario.db
     = (Uncaught (mkExn KeyError "'password'"), Scenario.db).
Proof.
  split.
  - refine (proj1 (create_staff_user_refuses Sample.env Scenario.db
                     (Sample.post [("email", JStr "zoe@example.org")])
                     [("email", JStr "zoe@example.org")] _) _); reflexivity.
  - refine (proj2 (proj2 (proj2 (create_staff_user_refuses Sample.env Scenario.db
                                   (Sample.post [("username", JStr "zoe");
                                                 ("email", JStr "zoe@example.org")])
                                   [("username", JStr "zoe");
                                    ("email", JStr "zoe@example.org")] _)
                            "zoe" _) _)
              (JStr "zoe@example.org") _ _); reflexivity.
Defined.
